(** * Bristol crime dashboard: the filter and aggregation pipeline of [app.py]

    [app.py] is a script that the UI runtime runs from top to bottom on every
    interaction.  Its own logic is a chain of table operations: a date mask
    and a category mask over the incident table, a per-area count joined onto
    the master table, a rate column, a coordinate list for the heat layer, a
    CSV export and a top-10 comparison.  The tables are pandas data frames;
    this development embeds the frame operations the script calls and the
    script's statements over them, keeping the script's variable names. *)

From Stdlib Require Import ZArith List String Ascii Bool Lia Permutation.
From Stdlib Require Import DecimalString.
From Stdlib Require Import Floats.
Import ListNotations.

Local Open Scope string_scope.
Local Open Scope list_scope.

Set Implicit Arguments.

(* ------------------------------------------------------------------ *)
(** * Exceptions

    A statement of the script either yields a value or raises.  Only the
    exceptions the modelled operations can raise are listed. *)

Inductive exn : Type :=
| KeyError (label : string)   (* a column label that the frame does not have *)
| TypeError                   (* arithmetic on a cell that is not a number *)
| AttributeError              (* [.dt] on a column that is not datetime-like *)
| ValueError.                 (* a list of labels of the wrong length *)

Inductive result (A : Type) : Type :=
| Ok (a : A)
| Raise (e : exn).

Arguments Ok {A} a.
Arguments Raise {A} e.

Definition bind {A B : Type} (m : result A) (k : A -> result B) : result B :=
  match m with
  | Ok a => k a
  | Raise e => Raise e
  end.

Notation "x <- m ;; k" := (bind m (fun x => k))
  (at level 61, m at next level, right associativity).

Fixpoint mapM {A B : Type} (f : A -> result B) (l : list A) : result (list B) :=
  match l with
  | [] => Ok []
  | a :: t => b <- f a ;; bs <- mapM f t ;; Ok (b :: bs)
  end.

(* ------------------------------------------------------------------ *)
(** * Cells

    A frame cell holds a string, a whole number, a float64 or a calendar date.
    As in pandas the missing value is the float NaN, in a column of any type
    ([NaT] of a datetime column included).  [Int z] is the whole number [z]
    of an integer column; a join that leaves missing cells in such a column
    makes pandas store its whole numbers as float64, which changes how they
    are held and not their value, and the cell stays [Int z]. *)

Record date : Type := mkdate { year : Z; month : Z; day : Z }.

(** [datetime.date] objects compare as (year, month, day) triples. *)
Definition date_leb (a b : date) : bool :=
  (year a <? year b)%Z
  || ((year a =? year b)%Z
      && ((month a <? month b)%Z
          || ((month a =? month b)%Z && (day a <=? day b)%Z))).

Definition date_eqb (a b : date) : bool :=
  (year a =? year b)%Z && (month a =? month b)%Z && (day a =? day b)%Z.

Inductive cell : Type :=
| Str (s : string)
| Int (z : Z)
| Flt (f : float)
| Day (d : date).

Definition NaN : cell := Flt nan.

Definition isna (c : cell) : bool :=
  match c with
  | Flt f => is_nan f
  | _ => false
  end.

(** Structural equality of cells. *)
Definition cell_eqb (a b : cell) : bool :=
  match a, b with
  | Str s, Str t => String.eqb s t
  | Int x, Int y => (x =? y)%Z
  | Flt f, Flt g => PrimFloat.Leibniz.eqb f g
  | Day d, Day e => date_eqb d e
  | _, _ => false
  end.

(** pandas' hash tables ([isin], [unique], [value_counts], join keys) take two
    values for the same key when they are equal, a missing value being equal
    to a missing value and [-0.0] to [0.0]. *)
Definition key_norm (c : cell) : cell :=
  match c with
  | Flt f => if (f =? 0)%float then Flt 0%float else c
  | _ => c
  end.

Definition key_eqb (a b : cell) : bool := cell_eqb (key_norm a) (key_norm b).

(** A whole number as the float64 that true division computes with. *)
Definition Z2float (z : Z) : float :=
  if (z <? 0)%Z then (- PrimFloat.of_uint63 (Uint63.of_Z (- z)))%float
  else PrimFloat.of_uint63 (Uint63.of_Z z).

Definition to_float (c : cell) : result float :=
  match c with
  | Int z => Ok (Z2float z)
  | Flt f => Ok f
  | _ => Raise TypeError
  end.

(* ------------------------------------------------------------------ *)
(** * Data frames

    A frame is its column labels, in order, and its rows; a row carries each
    cell under its label, in column order.  A series is a list of cells, one
    per row. *)

Definition row : Type := list (string * cell).

Record DataFrame : Type := mkDF { columns : list string; rows : list row }.

Definition mem (c : string) (l : list string) : bool := existsb (String.eqb c) l.

(** The cell of a row under a label. *)
Definition at_label (r : row) (c : string) : cell :=
  match find (fun p => fst p =? c) r with
  | Some p => snd p
  | None => NaN
  end.

(** Every row has the frame's labels, and no label twice ([read_csv] renames
    repeated header names). *)
Definition aligned (df : DataFrame) : Prop :=
  NoDup (columns df) /\ Forall (fun r => map fst r = columns df) (rows df).

Module Pd.

(** [df[c]] *)
Definition getitem (df : DataFrame) (c : string) : result (list cell) :=
  if mem c (columns df) then Ok (map (fun r => at_label r c) (rows df))
  else Raise (KeyError c).

(** [df.loc[mask]] and [df[mask]] for a boolean series [mask]. *)
Definition loc (df : DataFrame) (mask : list bool) : DataFrame :=
  mkDF (columns df) (map fst (filter snd (combine (rows df) mask))).

(** [s.dt.date]: the dates of a datetime column, [None] for [NaT]. *)
Definition dt_date (s : list cell) : result (list (option date)) :=
  mapM (fun c =>
          match c with
          | Day d => Ok (Some d)
          | Flt f => if is_nan f then Ok None else Raise AttributeError
          | _ => Raise AttributeError
          end) s.

(** [s >= d] and [s <= d] on a series of dates: a missing date compares
    false. *)
Definition ge (s : list (option date)) (d : date) : list bool :=
  map (fun x => match x with Some y => date_leb d y | None => false end) s.

Definition le (s : list (option date)) (d : date) : list bool :=
  map (fun x => match x with Some y => date_leb y d | None => false end) s.

(** [a & b] *)
Definition and_ (a b : list bool) : list bool :=
  map (fun p => fst p && snd p) (combine a b).

(** [s.isin(values)] *)
Definition isin (s : list cell) (values : list cell) : list bool :=
  map (fun c => existsb (key_eqb c) values) s.

(** [s.unique()]: the distinct values in order of first appearance, a
    missing value among them. *)
Fixpoint unique (s : list cell) : list cell :=
  match s with
  | [] => []
  | c :: t => c :: filter (fun x => negb (key_eqb x c)) (unique t)
  end.


(** [s.value_counts()]: one entry per distinct value that is not missing,
    with the number of its occurrences, larger counts first. *)
Fixpoint insert_desc (p : cell * Z) (l : list (cell * Z)) : list (cell * Z) :=
  match l with
  | [] => [p]
  | q :: t => if (snd q <=? snd p)%Z then p :: l else q :: insert_desc p t
  end.

Definition occurrences (k : cell) (s : list cell) : Z :=
  Z.of_nat (List.length (filter (key_eqb k) s)).

Definition value_counts (s : list cell) : list (cell * Z) :=
  let present := filter (fun c => negb (isna c)) s in
  fold_right insert_desc []
             (map (fun k => (k, occurrences k present)) (unique present)).

(** [vc.reset_index()] of the counts of a column [name]: a frame of the value
    under [name] and its count under ["count"]. *)
Definition reset_index (name : string) (vc : list (cell * Z)) : DataFrame :=
  mkDF [name; "count"]
       (map (fun p => [(name, fst p); ("count", Int (snd p))]) vc).

(** [df.columns = labels] *)
Definition set_columns (df : DataFrame) (labels : list string) : result DataFrame :=
  if Nat.eqb (List.length labels) (List.length (columns df))
  then Ok (mkDF labels (map (fun r => combine labels (map snd r)) (rows df)))
  else Raise ValueError.

(** [df.drop(columns=labels)]: a label that the frame does not have raises. *)
Definition drop (df : DataFrame) (labels : list string) : result DataFrame :=
  match find (fun c => negb (mem c (columns df))) labels with
  | Some c => Raise (KeyError c)
  | None =>
      Ok (mkDF (filter (fun c => negb (mem c labels)) (columns df))
               (map (filter (fun p => negb (mem (fst p) labels))) (rows df)))
  end.

(** [pd.merge(left, right, on=on, how='left')].  Every left row, in order,
    once per right row with the same key, or once with missing right cells
    when there is none.  A label other than the key that both frames have is
    suffixed [_x] on the left and [_y] on the right. *)
Definition overlap (left right : DataFrame) (on c : string) : bool :=
  negb (c =? on) && mem c (columns left) && mem c (columns right).

Definition suffixed (left right : DataFrame) (on suffix c : string) : string :=
  if overlap left right on c then (c ++ suffix)%string else c.

Definition value_columns (right : DataFrame) (on : string) : list string :=
  filter (fun c => negb (c =? on)) (columns right).

Definition matches (right : DataFrame) (on : string) (l : row) : list row :=
  filter (fun r => key_eqb (at_label l on) (at_label r on)) (rows right).

Definition joined (left right : DataFrame) (on : string)
  : list (row * option row) :=
  flat_map (fun l =>
              match matches right on l with
              | [] => [(l, None)]
              | ms => map (fun r => (l, Some r)) ms
              end) (rows left).

Definition merged_row (left right : DataFrame) (on : string)
           (p : row * option row) : row :=
  map (fun q => (suffixed left right on "_x" (fst q), snd q)) (fst p)
  ++ map (fun c => (suffixed left right on "_y" c,
                    match snd p with
                    | Some r => at_label r c
                    | None => NaN
                    end)) (value_columns right on).

Definition merge (left right : DataFrame) (on : string) : result DataFrame :=
  if negb (mem on (columns left)) then Raise (KeyError on)
  else if negb (mem on (columns right)) then Raise (KeyError on)
  else
    Ok (mkDF (map (suffixed left right on "_x") (columns left)
              ++ map (suffixed left right on "_y") (value_columns right on))
             (map (merged_row left right on) (joined left right on))).

(** [df[c] = s]: the column is replaced where it stands, or added last. *)
Fixpoint set_label (r : row) (c : string) (v : cell) : row :=
  match r with
  | [] => [(c, v)]
  | p :: t => if fst p =? c then (c, v) :: t else p :: set_label t c v
  end.

Definition setitem (df : DataFrame) (c : string) (s : list cell) : DataFrame :=
  mkDF (if mem c (columns df) then columns df else columns df ++ [c])
       (map (fun p => set_label (fst p) c (snd p)) (combine (rows df) s)).

(** [s.fillna(0)] on a numeric column: a missing cell is a float NaN, and
    becomes [0.0]. *)
Definition fillna0 (s : list cell) : list cell :=
  map (fun c => if isna c then Flt 0%float else c) s.

(** [a / b]: true division, cell by cell, in float64. *)
Definition truediv (a b : list cell) : result (list cell) :=
  mapM (fun p => x <- to_float (fst p) ;; y <- to_float (snd p) ;;
                 Ok (Flt (x / y)%float)) (combine a b).

(** [a * k] for a number [k]. *)
Definition mul (a : list cell) (k : float) : result (list cell) :=
  mapM (fun c => x <- to_float c ;; Ok (Flt (x * k)%float)) a.

(** [df[labels]] for a list of labels. *)
Definition getitems (df : DataFrame) (labels : list string) : result DataFrame :=
  match find (fun c => negb (mem c (columns df))) labels with
  | Some c => Raise (KeyError c)
  | None =>
      Ok (mkDF labels
               (map (fun r => map (fun c => (c, at_label r c)) labels) (rows df)))
  end.

(** [df.dropna()]: the rows without a missing cell. *)
Definition dropna (df : DataFrame) : DataFrame :=
  mkDF (columns df)
       (filter (fun r => forallb (fun p => negb (isna (snd p))) r) (rows df)).

(** [df.values.tolist()] *)
Definition values_tolist (df : DataFrame) : list (list cell) :=
  map (map snd) (rows df).

(** [df.head(n)] *)
Definition head (n : nat) (df : DataFrame) : DataFrame :=
  mkDF (columns df) (firstn n (rows df)).

End Pd.

(* ------------------------------------------------------------------ *)
(** * The script, section 2: sidebar filters

    The ends of the date slider are [start_date] and [end_date], the
    categories ticked in the multiselect are [selected_crimes], the radio
    button is [map_metric].  They are the inputs of a run, with the two
    loaded tables [incidents_df] and [master_df]. *)

Definition time_mask (incidents_df : DataFrame) (start_date end_date : date)
  : result (list bool) :=
  month <- Pd.getitem incidents_df "Month" ;;
  dates <- Pd.dt_date month ;;
  Ok (Pd.and_ (Pd.ge dates start_date) (Pd.le dates end_date)).

Definition base_filtered_incidents (incidents_df : DataFrame)
           (start_date end_date : date) : result DataFrame :=
  mask <- time_mask incidents_df start_date end_date ;;
  Ok (Pd.loc incidents_df mask).

Definition all_crimes (base : DataFrame) : result (list cell) :=
  crime <- Pd.getitem base "Crime type" ;;
  Ok (Pd.unique crime).

Definition target_defaults : list string :=
  [ "Vehicle crime";
    "Criminal damage and arson";
    "Burglary";
    "Anti-social behaviour";
    "Other crime";
    "Violence and sexual offences" ].

(** [c in all_crimes] for a string [c]: Python's list membership, by [==]. *)
Definition str_in (c : string) (l : list cell) : bool :=
  existsb (fun x => match x with Str s => String.eqb c s | _ => false end) l.

Definition valid_defaults (base : DataFrame) : result (list string) :=
  crimes <- all_crimes base ;;
  Ok (filter (fun c => str_in c crimes) target_defaults).

Definition filtered_incidents (base : DataFrame) (selected_crimes : list cell)
  : result DataFrame :=
  crime <- Pd.getitem base "Crime type" ;;
  Ok (Pd.loc base (Pd.isin crime selected_crimes)).

(** The two filters in sequence: the incident set that the rest of a run
    works on. *)
Definition filter_engine (incidents_df : DataFrame) (start_date end_date : date)
           (selected_crimes : list cell) : result DataFrame :=
  base <- base_filtered_incidents incidents_df start_date end_date ;;
  filtered_incidents base selected_crimes.

(* ------------------------------------------------------------------ *)
(** * The script, section 3: dynamic data aggregation *)

Definition current_crime_counts (filtered : DataFrame) : result DataFrame :=
  codes <- Pd.getitem filtered "LSOA21CD" ;;
  Pd.set_columns (Pd.reset_index "LSOA21CD" (Pd.value_counts codes))
                 ["LSOA21CD"; "Period_Total_Crimes"].

Definition cols_to_drop : list string :=
  ["Period_Total_Crimes"; "Total_Crimes"; "Crime_Rate"].

(** Steps 1 to 4 of the section, the new value of [master_df]. *)
Definition aggregation (master_df filtered : DataFrame) : result DataFrame :=
  counts <- current_crime_counts filtered ;;
  master_df <- Pd.drop master_df
                 (filter (fun c => mem c (columns master_df)) cols_to_drop) ;;
  master_df <- Pd.merge master_df counts "LSOA21CD" ;;
  period <- Pd.getitem master_df "Period_Total_Crimes" ;;
  let master_df := Pd.setitem master_df "Period_Total_Crimes" (Pd.fillna0 period) in
  period <- Pd.getitem master_df "Period_Total_Crimes" ;;
  let master_df := Pd.setitem master_df "Total_Crimes" period in
  total <- Pd.getitem master_df "Total_Crimes" ;;
  pop <- Pd.getitem master_df "POP2022Total" ;;
  quot <- Pd.truediv total pop ;;
  rate <- Pd.mul quot 1000%float ;;
  let master_df := Pd.setitem master_df "Crime_Rate" rate in
  rate <- Pd.getitem master_df "Crime_Rate" ;;
  Ok (Pd.setitem master_df "Crime_Rate" (Pd.fillna0 rate)).

(* ------------------------------------------------------------------ *)
(** * The script, tab 1: the points of the heat layer *)

Definition heat_data (filtered : DataFrame) : result (list (list cell)) :=
  coords <- Pd.getitems filtered ["Latitude"; "Longitude"] ;;
  Ok (Pd.values_tolist (Pd.dropna coords)).

(* ------------------------------------------------------------------ *)
(** * The script, section 2, filter 4: export *)

Section Download.

(** How pandas writes a float64 that is not missing (the shortest decimal
    string that reads back as the same float). *)
Variable float_repr : float -> string.

Definition digits (z : Z) : string := NilZero.string_of_int (Z.to_int z).

Fixpoint zeros (n : nat) : string :=
  match n with
  | O => ""
  | S k => String "0" (zeros k)
  end.

Definition zfill (width : nat) (s : string) : string :=
  (zeros (width - String.length s) ++ s)%string.

(** A datetime column whose times are all midnight is written as dates. *)
Definition isoformat (d : date) : string :=
  (zfill 4 (digits (year d)) ++ "-" ++ zfill 2 (digits (month d)) ++ "-"
   ++ zfill 2 (digits (day d)))%string.

(** The text of a cell; a missing value is written as the empty string. *)
Definition cell_text (c : cell) : string :=
  match c with
  | Str s => s
  | Int z => digits z
  | Flt f => if is_nan f then "" else float_repr f
  | Day d => isoformat d
  end.

Definition comma : ascii := ","%char.
Definition quotechar : ascii := "034"%char.
Definition LF : ascii := "010"%char.
Definition CR : ascii := "013"%char.

(** The csv writer with minimal quoting, the line feed as line terminator:
    a field is quoted when it holds the delimiter, the quote character, a
    line feed or a carriage return, and a quote character inside it is
    written twice. *)
Fixpoint special (s : string) : bool :=
  match s with
  | EmptyString => false
  | String a t =>
      Ascii.eqb a comma || Ascii.eqb a quotechar || Ascii.eqb a LF
      || Ascii.eqb a CR || special t
  end.

Fixpoint escape (s : string) : string :=
  match s with
  | EmptyString => EmptyString
  | String a t =>
      if Ascii.eqb a quotechar then String a (String a (escape t))
      else String a (escape t)
  end.

Definition csv_field (s : string) : string :=
  if special s
  then String quotechar (escape s ++ String quotechar "")%string
  else s.

(** One record and its line terminator.  A record of a single empty field is
    written as a pair of quotes. *)
Definition writerow (fields : list string) : string :=
  let body := String.concat "," (map csv_field fields) in
  ((if (body =? "") && negb (Nat.eqb (List.length fields) 0)
    then String quotechar (String quotechar "")
    else body) ++ String LF "")%string.

(** [df.to_csv(index=False)]: the header, then one record per row with the
    row's cell under each column label, in column order. *)
Definition to_csv (df : DataFrame) : string :=
  String.concat ""
    (writerow (columns df)
     :: map (fun r => writerow (map (fun c => cell_text (at_label r c)) (columns df)))
            (rows df)).

(** [text.encode('utf-8')].  A string is held as the bytes of its UTF-8 form,
    which is how a string literal of this file is read as well; encoding
    hands out those bytes. *)
Definition encode_utf8 (s : string) : list Byte.byte := list_byte_of_string s.

Record Download : Type := mkDownload {
  label : string;
  data : list Byte.byte;
  file_name : string;
  mime : string
}.

Definition download_button (filtered : DataFrame) : Download :=
  {| label := "📥 Download Filtered Dataset";
     data := encode_utf8 (to_csv filtered);
     file_name := "bristol_crime_filtered.csv";
     mime := "text/csv" |}.

(** The widget values of a run. *)
Record Sidebar : Type := mkSidebar {
  start_date : date;
  end_date : date;
  selected_crimes : list cell;
  map_metric : string
}.

(** What the sidebar of a run offers for download. *)
Definition sidebar_export (incidents_df : DataFrame) (w : Sidebar)
  : result Download :=
  filtered <- filter_engine incidents_df (start_date w) (end_date w)
                            (selected_crimes w) ;;
  Ok (download_button filtered).

End Download.

(** A reader of the same csv dialect, to state what an exported text holds:
    it goes through the text character by character and returns the records
    that a line break ends, each a list of fields.  [field] is the part of
    the current field read so far, [record] the fields of the current record
    read so far. *)
Inductive csv_state : Type :=
| FieldStart    (* before the first character of a field *)
| InField       (* in a field that did not start with a quote *)
| InQuotes      (* in a quoted field *)
| QuoteSeen.    (* after a quote in a quoted field *)

(** The end of a field at the delimiter or at a line break. *)
Definition field_ends (c : ascii) : Prop := c = comma \/ c = LF.

Fixpoint read_csv (st : csv_state) (field : string) (record : list string)
         (text : string) : list (list string) :=
  match text with
  | EmptyString => []
  | String a t =>
      match st with
      | FieldStart =>
          if Ascii.eqb a quotechar then read_csv InQuotes "" record t
          else if Ascii.eqb a comma then read_csv FieldStart "" (record ++ [""]) t
          else if Ascii.eqb a LF then (record ++ [""]) :: read_csv FieldStart "" [] t
          else read_csv InField (String a "") record t
      | InField =>
          if Ascii.eqb a comma then read_csv FieldStart "" (record ++ [field]) t
          else if Ascii.eqb a LF then (record ++ [field]) :: read_csv FieldStart "" [] t
          else read_csv InField (field ++ String a "")%string record t
      | InQuotes =>
          if Ascii.eqb a quotechar then read_csv QuoteSeen field record t
          else read_csv InQuotes (field ++ String a "")%string record t
      | QuoteSeen =>
          if Ascii.eqb a quotechar
          then read_csv InQuotes (field ++ String a "")%string record t
          else if Ascii.eqb a comma then read_csv FieldStart "" (record ++ [field]) t
          else if Ascii.eqb a LF then (record ++ [field]) :: read_csv FieldStart "" [] t
          else read_csv InField (field ++ String a "")%string record t
      end
  end.

(** Reading on after a field that [c] has ended. *)
Definition after_field (field : string) (record : list string) (c : ascii)
           (t : string) : list (list string) :=
  if Ascii.eqb c comma then read_csv FieldStart "" (record ++ [field]) t
  else (record ++ [field]) :: read_csv FieldStart "" [] t.

(** The texts of a frame's cells, row by row, under its header. *)
Definition texts (float_repr : float -> string) (df : DataFrame)
  : list (list string) :=
  columns df
  :: map (fun r => map (fun c => cell_text float_repr (at_label r c)) (columns df))
         (rows df).

(* ------------------------------------------------------------------ *)
(** * The script, tab 3: top-10 comparison and overlap *)

Section Tab3.

(** numpy's [argsort] of kind [quicksort], the default of [sort_values]: the
    positions of the values in ascending order of value.  Where equal values
    end up relative to each other is the algorithm's business. *)
Variable argsort : list float -> list nat.

(** [df.sort_values(by=c, ascending=False)], as pandas builds it on
    [argsort]: the values that are not missing are reversed, sorted
    ascending and reversed again; the rows of missing values come last. *)
Definition sort_values_desc (df : DataFrame) (c : string) : result DataFrame :=
  key <- Pd.getitem df c ;;
  vals <- mapM to_float key ;;
  let tagged := combine (seq 0 (List.length vals)) vals in
  let non_nan := rev (filter (fun p => negb (is_nan (snd p))) tagged) in
  let nan_idx := map fst (filter (fun p => is_nan (snd p)) tagged) in
  let order := map (fun i => nth i (map fst non_nan) 0%nat)
                   (argsort (map snd non_nan)) in
  let indexer := rev order ++ nan_idx in
  Ok (mkDF (columns df) (map (fun i => nth i (rows df) []) indexer)).

Definition top_deprived (master_df : DataFrame) : result DataFrame :=
  sorted <- sort_values_desc master_df "IMDScore" ;;
  Ok (Pd.head 10 sorted).

Definition top_crime (master_df : DataFrame) : result DataFrame :=
  sorted <- sort_values_desc master_df "Crime_Rate" ;;
  Ok (Pd.head 10 sorted).

(** [set(s)] as the list of its distinct members, and [a.intersection(b)]. *)
Definition set_of (s : list cell) : list cell := Pd.unique s.

Definition intersection (a b : list cell) : list cell :=
  filter (fun x => existsb (key_eqb x) b) a.

Definition common_areas (master_df : DataFrame) : result (list cell) :=
  deprived <- top_deprived master_df ;;
  crime <- top_crime master_df ;;
  deprived_names <- Pd.getitem deprived "LSOA21LN" ;;
  crime_names <- Pd.getitem crime "LSOA21LN" ;;
  Ok (intersection (set_of deprived_names) (set_of crime_names)).

End Tab3.

(* ------------------------------------------------------------------ *)
(** * Vocabulary of the properties

    The conditions under which the script's column accesses succeed, and the
    quantities that the properties compare the script's results with. *)

(** A cell of a datetime column: a date, or the missing value. *)
Definition datetimelike (c : cell) : Prop :=
  match c with
  | Day _ => True
  | Flt f => is_nan f = true
  | _ => False
  end.

(** The incident table as the loader hands it over: it has the columns the
    filters read, and [Month] has been parsed to datetimes. *)
Definition incidents_ok (df : DataFrame) : Prop :=
  In "Month" (columns df) /\ In "Crime type" (columns df)
  /\ Forall (fun r => datetimelike (at_label r "Month")) (rows df).

(** The two predicates of the filter, on an incident. *)
Definition month_in_range (start_date end_date : date) (r : row) : bool :=
  match at_label r "Month" with
  | Day d => date_leb start_date d && date_leb d end_date
  | _ => false
  end.

Definition type_selected (selected : list cell) (r : row) : bool :=
  existsb (key_eqb (at_label r "Crime type")) selected.

Definition kept (start_date end_date : date) (selected : list cell) (r : row)
  : bool :=
  month_in_range start_date end_date r && type_selected selected r.

(** A cell that arithmetic accepts. *)
Definition numeric (c : cell) : Prop :=
  match c with
  | Int _ | Flt _ => True
  | _ => False
  end.

(** The master table as the loader hands it over, or as an earlier pass left
    it: aligned rows, the area code and a numeric population. *)
Definition master_ok (df : DataFrame) : Prop :=
  aligned df /\ In "LSOA21CD" (columns df) /\ In "POP2022Total" (columns df)
  /\ Forall (fun r => numeric (at_label r "POP2022Total")) (rows df).

(** The area codes of a table are pairwise different. *)
Definition unique_codes (df : DataFrame) : Prop :=
  NoDup (map (fun r => key_norm (at_label r "LSOA21CD")) (rows df)).

(** An incident lies in an area when it has an area code and the code is the
    area's. *)
Definition area_matches (area incident : row) : bool :=
  negb (isna (at_label incident "LSOA21CD"))
  && key_eqb (at_label area "LSOA21CD") (at_label incident "LSOA21CD").

(** The number of incidents of a table in an area. *)
Definition matching (filtered : DataFrame) (area : row) : Z :=
  Z.of_nat (List.length (filter (area_matches area) (rows filtered))).

(** How a count stands in [Period_Total_Crimes]: the joined whole number, or
    the [0.0] that fills the cell of an area without incidents. *)
Definition count_cell (n : Z) : cell :=
  if (0 <? n)%Z then Int n else Flt 0%float.

(** The whole number that a count cell holds. *)
Definition count_of (c : cell) : option Z :=
  match c with
  | Int z => Some z
  | Flt f => if (f =? 0)%float then Some 0%Z else None
  | _ => None
  end.

(** The float64 of a numeric cell. *)
Definition num (c : cell) : float :=
  match c with
  | Int z => Z2float z
  | Flt f => f
  | _ => nan
  end.

(** The rate that the script leaves in [Crime_Rate] for a count cell and a
    population cell. *)
Definition rate_of (count pop : cell) : cell :=
  let q := (num count / num pop * 1000)%float in
  Flt (if is_nan q then 0%float else q).

(** The table of counts that the join receives, and the cell that the join
    leaves in an area row for the code [k]. *)
Definition counts_frame (vc : list (cell * Z)) : DataFrame :=
  mkDF ["LSOA21CD"; "Period_Total_Crimes"]
       (map (fun p => [("LSOA21CD", fst p); ("Period_Total_Crimes", Int (snd p))]) vc).

Definition joined_count (vc : list (cell * Z)) (k : cell) : cell :=
  match filter (fun p => key_eqb k (fst p)) vc with
  | [] => NaN
  | p :: _ => Int (snd p)
  end.

Definition sum_Z (l : list Z) : Z := fold_right Z.add 0%Z l.

(** The whole number in a count cell, and the sum of [Period_Total_Crimes]
    over the rows of a table. *)
Definition whole (c : cell) : Z :=
  match count_of c with
  | Some z => z
  | None => 0%Z
  end.

Definition period_total (df : DataFrame) : Z :=
  sum_Z (map (fun r => whole (at_label r "Period_Total_Crimes")) (rows df)).

(** An incident whose area code occurs in the master table; the number of
    such incidents of a table; the table restricted to them. *)
Definition known (master_df : DataFrame) (incident : row) : bool :=
  existsb (fun a => area_matches a incident) (rows master_df).

Definition covered (master_df filtered : DataFrame) : Z :=
  Z.of_nat (List.length (filter (known master_df) (rows filtered))).

Definition only_known (master_df filtered : DataFrame) : DataFrame :=
  mkDF (columns filtered) (filter (known master_df) (rows filtered)).

(** A row and a header without the three derived columns. *)
Definition strip (r : row) : row :=
  filter (fun p => negb (mem (fst p) cols_to_drop)) r.

Definition strip_columns (l : list string) : list string :=
  filter (fun c => negb (mem c cols_to_drop)) l.

(** An area row after a pass over the incident table [filtered]. *)
Definition enriched (filtered : DataFrame) (area : row) : row :=
  let n := count_cell (matching filtered area) in
  strip area
  ++ [("Period_Total_Crimes", n); ("Total_Crimes", n);
      ("Crime_Rate", rate_of n (at_label area "POP2022Total"))].

(** The incident table has the area code column that the count reads. *)
Definition has_codes (filtered : DataFrame) : Prop :=
  In "LSOA21CD" (columns filtered).

(** An incident with both coordinates. *)
Definition has_coords (r : row) : bool :=
  negb (isna (at_label r "Latitude")) && negb (isna (at_label r "Longitude")).

Definition coords (r : row) : list cell :=
  [at_label r "Latitude"; at_label r "Longitude"].

(* ------------------------------------------------------------------ *)
(** * Small tables

    Five incidents of 2022 and four areas, on which the statements below are
    instantiated.  The second and third incident lack a coordinate, the
    fourth lies in an area that the master table does not have, the fifth
    has no area code. *)

Definition incident (m : Z) (type : string) (lat lon code : cell) : row :=
  [("Month", Day (mkdate 2022 m 1)); ("Crime type", Str type);
   ("Latitude", lat); ("Longitude", lon); ("LSOA21CD", code)].

Definition incidents_2022 : DataFrame :=
  mkDF ["Month"; "Crime type"; "Latitude"; "Longitude"; "LSOA21CD"]
       [incident 1 "Burglary" (Flt 51.5%float) (Flt (-2.5)%float) (Str "E01014485");
        incident 2 "Drugs" NaN NaN (Str "E01014485");
        incident 3 "Burglary" NaN (Flt (-2.5)%float) (Str "E01014486");
        incident 4 "Vehicle crime" (Flt 51.5%float) (Flt (-2.5)%float) (Str "E01099999");
        incident 5 "Burglary" (Flt 51.5%float) (Flt (-2.5)%float) NaN].

Definition area (code name : string) (pop : cell) (imd : float) : row :=
  [("LSOA21CD", Str code); ("LSOA21LN", Str name); ("POP2022Total", pop);
   ("IMDScore", Flt imd); ("Total_Crimes", Int 77)].

Definition master_2022 : DataFrame :=
  mkDF ["LSOA21CD"; "LSOA21LN"; "POP2022Total"; "IMDScore"; "Total_Crimes"]
       [area "E01014485" "Ashley" (Int 2000) 30%float;
        area "E01014486" "Bedminster" (Int 1500) 20%float;
        area "E01014487" "Clifton" (Int 0) 10%float;
        area "E01014488" "Easton" NaN 40%float].

Definition year_2022 : date * date := (mkdate 2022 1 1, mkdate 2022 12 1).

Definition filtered_2022 : DataFrame :=
  mkDF (columns incidents_2022)
       (filter (kept (fst year_2022) (snd year_2022) [Str "Burglary"; Str "Drugs"])
               (rows incidents_2022)).

(** One area of no inhabitants, with one incident in it. *)
Definition master_unpopulated : DataFrame :=
  mkDF (columns master_2022) [area "E01014487" "Clifton" (Int 0) 10%float].

Definition incidents_unpopulated : DataFrame :=
  mkDF (columns incidents_2022)
       [incident 1 "Burglary" (Flt 51.5%float) (Flt (-2.5)%float) (Str "E01014487")].

(** A master table that lists one area code twice, and one incident there. *)
Definition master_twice : DataFrame :=
  mkDF (columns master_2022)
       [area "E01014485" "Ashley" (Int 2000) 30%float;
        area "E01014485" "Ashley" (Int 2000) 30%float].

Definition incidents_one : DataFrame :=
  mkDF (columns incidents_2022)
       [incident 1 "Burglary" (Flt 51.5%float) (Flt (-2.5)%float) (Str "E01014485")].

(** Two ascending sorts of positions that differ in where they leave equal
    values: in the order of their positions when [before] is [<=], in the
    opposite order when it is [<]. *)
Fixpoint insert_position (before : float -> float -> bool) (v : list float)
         (i : nat) (l : list nat) : list nat :=
  match l with
  | [] => [i]
  | j :: t =>
      if before (nth i v nan) (nth j v nan) then i :: l
      else j :: insert_position before v i t
  end.

Definition argsort_with (before : float -> float -> bool) (v : list float)
  : list nat :=
  fold_right (insert_position before v) [] (seq 0 (List.length v)).

(** Eleven areas of the same deprivation score, with rates 0, 1, ..., 10. *)
Definition tied_area (name : string) (rate : float) : row :=
  [("LSOA21CD", Str name); ("LSOA21LN", Str name); ("IMDScore", Flt 1%float);
   ("Crime_Rate", Flt rate)].

Definition master_tied : DataFrame :=
  mkDF ["LSOA21CD"; "LSOA21LN"; "IMDScore"; "Crime_Rate"]
       [tied_area "a" 0%float; tied_area "b" 1%float; tied_area "c" 2%float;
        tied_area "d" 3%float; tied_area "e" 4%float; tied_area "f" 5%float;
        tied_area "g" 6%float; tied_area "h" 7%float; tied_area "i" 8%float;
        tied_area "j" 9%float; tied_area "k" 10%float].

(** The same areas after one area whose rate is missing. *)
Definition master_unscored : DataFrame :=
  mkDF (columns master_tied) (tied_area "z" nan :: rows master_tied).

(* ------------------------------------------------------------------ *)
(** * The script, section 2: the ends of the date slider *)

Definition date_min (a b : date) : date := if date_leb a b then a else b.

Definition date_max (a b : date) : date := if date_leb a b then b else a.

(** The dates of a datetime column that are not missing. *)
Definition present_dates (s : list (option date)) : list date :=
  flat_map (fun x => match x with Some d => [d] | None => [] end) s.

(** [s.min()] and [s.max()] of a datetime column: missing values are skipped,
    and the result is the missing value when no date is left. *)
Definition series_min (s : list (option date)) : option date :=
  match present_dates s with
  | [] => None
  | d :: t => Some (fold_left date_min t d)
  end.

Definition series_max (s : list (option date)) : option date :=
  match present_dates s with
  | [] => None
  | d :: t => Some (fold_left date_max t d)
  end.

Definition min_date (incidents_df : DataFrame) : result (option date) :=
  month <- Pd.getitem incidents_df "Month" ;;
  dates <- Pd.dt_date month ;;
  Ok (series_min dates).

Definition max_date (incidents_df : DataFrame) : result (option date) :=
  month <- Pd.getitem incidents_df "Month" ;;
  dates <- Pd.dt_date month ;;
  Ok (series_max dates).

(* ------------------------------------------------------------------ *)
(** * The script, section 2, filter 3: the map metric *)

(** The label that the radio button shows for an option. *)
Definition format_func (x : string) : string :=
  if x =? "Crime_Rate" then "Crimes per 1,000"
  else if x =? "None (Boundaries Only)" then "Boundaries Only (Transparent)"
  else (x ++ " Deprivation")%string.

(* ------------------------------------------------------------------ *)
(** * The script, section 4: the dataset overview *)

Module Kpi.

(** [df.empty]: no row or no column. *)
Definition empty (df : DataFrame) : bool :=
  Nat.eqb (List.length (rows df)) 0 || Nat.eqb (List.length (columns df)) 0.

(** [s.nunique()]: the number of distinct values that are not missing. *)
Definition nunique (s : list cell) : nat :=
  List.length (Pd.unique (filter (fun c => negb (isna c)) s)).

(** [vc.idxmax()]: the label of the first greatest count; an empty series
    raises. *)
Definition idxmax (vc : list (cell * Z)) : result cell :=
  match vc with
  | [] => Raise ValueError
  | p :: t =>
      Ok (fst (fold_left (fun best q => if (snd best <? snd q)%Z then q else best)
                         t p))
  end.

(** [vc.max()]: the greatest count, the missing value for an empty series. *)
Definition max (vc : list (cell * Z)) : cell :=
  match vc with
  | [] => NaN
  | p :: t => Int (fold_left Z.max (map snd t) (snd p))
  end.

Definition month_abbr (m : Z) : string :=
  nth (Z.to_nat (m - 1))
      ["Jan"; "Feb"; "Mar"; "Apr"; "May"; "Jun";
       "Jul"; "Aug"; "Sep"; "Oct"; "Nov"; "Dec"] "".

(** [t.strftime('%b %Y')]; the missing timestamp raises. *)
Definition strftime (t : option date) : result string :=
  match t with
  | Some d => Ok (month_abbr (month d) ++ " " ++ digits (year d))%string
  | None => Raise ValueError
  end.

Record Overview : Type := mkOverview {
  total_records : nat;
  unique_categories : nat;
  date_range : string;
  top_crime : cell;
  top_crime_count : cell;
  top_5_df : DataFrame
}.

(** The expander of global statistics: [None] stands for the warning that is
    shown when the filters leave no incident. *)
Definition dataset_overview (incidents_df filtered : DataFrame)
  : result (option Overview) :=
  if empty filtered then Ok None
  else
    crime <- Pd.getitem incidents_df "Crime type" ;;
    month <- Pd.getitem incidents_df "Month" ;;
    dates <- Pd.dt_date month ;;
    first <- strftime (series_min dates) ;;
    last <- strftime (series_max dates) ;;
    top <- idxmax (Pd.value_counts crime) ;;
    top_5 <- Pd.set_columns
               (Pd.reset_index "Crime type" (firstn 5 (Pd.value_counts crime)))
               ["Crime Category"; "Total Count"] ;;
    Ok (Some {| total_records := List.length (rows incidents_df);
                unique_categories := nunique crime;
                date_range := (first ++ " - " ++ last)%string;
                top_crime := top;
                top_crime_count := max (Pd.value_counts crime);
                top_5_df := top_5 |}).

End Kpi.

(* ------------------------------------------------------------------ *)
(** * The script, tab 1: statistics injected into the boundary features *)

(** A feature of the boundary collection: its properties, a JSON object
    whose values are cells or null, and its outline, which the script does
    not touch. *)
Record Feature : Type := mkFeature {
  properties : list (string * option cell);
  geometry : list (float * float)
}.

(** [d.get(k)]: Python's [None] for a key that is absent and for null. *)
Definition get (props : list (string * option cell)) (k : string) : option cell :=
  match find (fun p => fst p =? k) props with
  | Some (_, Some v) => Some v
  | _ => None
  end.

(** Python's [==] on the values of cells, as a dictionary compares keys:
    a NaN equals nothing, a whole number equals the float of its value. *)
Definition py_eqb (a b : cell) : bool :=
  match a, b with
  | Str s, Str t => String.eqb s t
  | Int x, Int y => (x =? y)%Z
  | Flt f, Flt g => (f =? g)%float
  | Int x, Flt g => (Z2float x =? g)%float
  | Flt f, Int y => (f =? Z2float y)%float
  | Day d, Day e => date_eqb d e
  | _, _ => false
  end.

(** [df.set_index(c)]: each row under its value of [c], without that column. *)
Definition set_index (df : DataFrame) (c : string) : result (list (cell * row)) :=
  if mem c (columns df)
  then Ok (map (fun r => (at_label r c, filter (fun p => negb (fst p =? c)) r))
               (rows df))
  else Raise (KeyError c).

(** [index.is_unique] *)
Definition is_unique (keys : list cell) : bool :=
  Nat.eqb (List.length (Pd.unique keys)) (List.length keys).

(** [df.to_dict('index')]: an index with a repeated value raises. *)
Definition to_dict_index (indexed : list (cell * row)) : result (list (cell * row)) :=
  if is_unique (map fst indexed) then Ok indexed else Raise ValueError.

(** [k in d] and [d[k]] *)
Definition lookup (d : list (cell * row)) (k : cell) : option row :=
  match find (fun e => py_eqb k (fst e)) d with
  | Some e => Some (snd e)
  | None => None
  end.

(** [props[k] = v]: an existing key keeps its place. *)
Fixpoint set_property (props : list (string * option cell)) (k : string) (v : cell)
  : list (string * option cell) :=
  match props with
  | [] => [(k, Some v)]
  | p :: t => if fst p =? k then (k, Some v) :: t else p :: set_property t k v
  end.

(** [props.update(stats)] *)
Definition update (props : list (string * option cell)) (stats : row)
  : list (string * option cell) :=
  fold_left (fun acc p => set_property acc (fst p) (snd p)) stats props.

(** The body of the loop over the features. *)
Definition inject (stats_dict : list (cell * row)) (feature : Feature) : Feature :=
  match get (properties feature) "LSOA21CD" with
  | Some lsoa_id =>
      match lookup stats_dict lsoa_id with
      | Some stats => mkFeature (update (properties feature) stats) (geometry feature)
      | None => feature
      end
  | None => feature
  end.

Definition inject_stats (master_df : DataFrame) (features : list Feature)
  : result (list Feature) :=
  indexed <- set_index master_df "LSOA21CD" ;;
  stats_dict <- to_dict_index indexed ;;
  Ok (map (inject stats_dict) features).

(* ------------------------------------------------------------------ *)
(** * Vocabulary of the further properties *)

(** A date range that lies in another, and a selection that another holds. *)
Definition range_within (s e s' e' : date) : Prop :=
  date_leb s' s = true /\ date_leb e e' = true.

Definition selection_within (sel sel' : list cell) : Prop :=
  forall v, existsb (key_eqb v) sel = true -> existsb (key_eqb v) sel' = true.

(** The area codes of an incident table that are not missing. *)
Definition present_codes (filtered : DataFrame) : list cell :=
  filter (fun c => negb (isna c)) (map (fun r => at_label r "LSOA21CD") (rows filtered)).

(** The crime types of an incident table that are not missing. *)
Definition present_types (incidents_df : DataFrame) : list cell :=
  filter (fun c => negb (isna c))
         (map (fun r => at_label r "Crime type") (rows incidents_df)).

(** An incident of one of the six priority categories. *)
Definition priority (r : row) : bool :=
  existsb (fun c => cell_eqb (at_label r "Crime type") (Str c)) target_defaults.

(** Counts from the greatest down. *)
Fixpoint descending (l : list Z) : Prop :=
  match l with
  | [] => True
  | x :: t => (forall y, In y t -> (y <= x)%Z) /\ descending t
  end.

(** A table of three features: a known area, an unknown one, and one without
    an area code. *)
Definition features_2022 : list Feature :=
  [mkFeature [("LSOA21CD", Some (Str "E01014485")); ("LSOA21LN", Some (Str "old name"));
              ("FID", Some (Int 1))] [(51.5%float, (-2.5)%float)];
   mkFeature [("LSOA21CD", Some (Str "E01000001")); ("FID", Some (Int 2))] [];
   mkFeature [("LSOA21CD", None); ("FID", Some (Int 3))] []].

(* ================================================================== *)
(** * Lists, labels and cells *)

Lemma mem_In (c : string) (l : list string) : mem c l = true <-> In c l.
Proof.
  unfold mem. rewrite existsb_exists. split.
  - intros [x [Hx He]]. apply String.eqb_eq in He. now subst.
  - intros H. exists c. split; [assumption | apply String.eqb_refl].
Qed.

Lemma mem_false (c : string) (l : list string) : mem c l = false <-> ~ In c l.
Proof.
  rewrite <- mem_In. destruct (mem c l); split; intros; congruence.
Qed.

Lemma filter_id {A : Type} (f : A -> bool) (l : list A) :
  (forall x, In x l -> f x = true) -> filter f l = l.
Proof.
  induction l as [|a l IH]; simpl; intros H; [reflexivity|].
  rewrite (H a) by now left. f_equal. apply IH. intros x Hx. apply H. now right.
Qed.

Lemma filter_none {A : Type} (f : A -> bool) (l : list A) :
  (forall x, In x l -> f x = false) -> filter f l = [].
Proof.
  induction l as [|a l IH]; simpl; intros H; [reflexivity|].
  rewrite (H a) by now left. apply IH. intros x Hx. apply H. now right.
Qed.

Lemma filter_filter {A : Type} (f g : A -> bool) (l : list A) :
  filter f (filter g l) = filter (fun x => g x && f x) l.
Proof.
  induction l as [|a l IH]; simpl; [reflexivity|].
  destruct (g a); simpl; [destruct (f a)|]; now rewrite IH.
Qed.

Lemma filter_map_swap {A B : Type} (f : B -> bool) (g : A -> B) (l : list A) :
  filter f (map g l) = map g (filter (fun x => f (g x)) l).
Proof.
  induction l as [|a l IH]; simpl; [reflexivity|].
  destruct (f (g a)); simpl; now rewrite IH.
Qed.

Lemma combine_map_self {A B C : Type} (f : A -> B) (g : A -> B -> C) (l : list A) :
  map (fun p => g (fst p) (snd p)) (combine l (map f l)) = map (fun x => g x (f x)) l.
Proof.
  induction l as [|a l IH]; simpl; [reflexivity|]. now rewrite IH.
Qed.

Lemma combine_maps {A B C D : Type} (f : A -> B) (g : A -> C) (h : B * C -> D)
      (l : list A) :
  map h (combine (map f l) (map g l)) = map (fun x => h (f x, g x)) l.
Proof.
  induction l as [|a l IH]; simpl; [reflexivity|]. now rewrite IH.
Qed.

Lemma mask_filter {A : Type} (f : A -> bool) (l : list A) :
  map fst (filter snd (combine l (map f l))) = filter f l.
Proof.
  induction l as [|a l IH]; simpl; [reflexivity|].
  destruct (f a); simpl; now rewrite IH.
Qed.

Lemma mapM_ok {A B : Type} (f : A -> result B) (g : A -> B) (l : list A) :
  (forall x, In x l -> f x = Ok (g x)) -> mapM f l = Ok (map g l).
Proof.
  induction l as [|a l IH]; simpl; intros H; [reflexivity|].
  rewrite (H a) by now left. simpl. rewrite IH; [reflexivity|].
  intros x Hx. apply H. now right.
Qed.

Lemma date_eqb_eq (a b : date) : date_eqb a b = true <-> a = b.
Proof.
  destruct a as [y m d], b as [y' m' d']. unfold date_eqb. simpl.
  rewrite !andb_true_iff, !Z.eqb_eq. split.
  - intros [[-> ->] ->]. reflexivity.
  - intros H. injection H as -> -> ->. auto.
Qed.

Lemma cell_eqb_eq (a b : cell) : cell_eqb a b = true <-> a = b.
Proof.
  destruct a, b; simpl; try (split; intros; discriminate).
  - rewrite String.eqb_eq. split; [now intros -> | now intros [= ->]].
  - rewrite Z.eqb_eq. split; [now intros -> | now intros [= ->]].
  - rewrite FloatAxioms.Leibniz.eqb_spec. split; [now intros -> | now intros [= ->]].
  - rewrite date_eqb_eq. split; [now intros -> | now intros [= ->]].
Qed.

Lemma key_eqb_norm (a b : cell) : key_eqb a b = true <-> key_norm a = key_norm b.
Proof. unfold key_eqb. apply cell_eqb_eq. Qed.

Lemma key_eqb_refl (a : cell) : key_eqb a a = true.
Proof. now apply key_eqb_norm. Qed.

Lemma key_eqb_sym (a b : cell) : key_eqb a b = key_eqb b a.
Proof.
  destruct (key_eqb a b) eqn:E, (key_eqb b a) eqn:E'; try reflexivity.
  - apply key_eqb_norm in E. symmetry in E. apply key_eqb_norm in E. congruence.
  - apply key_eqb_norm in E'. symmetry in E'. apply key_eqb_norm in E'. congruence.
Qed.

Lemma key_eqb_congr (a b c : cell) :
  key_eqb a b = true -> key_eqb a c = key_eqb b c.
Proof.
  intros H. apply key_eqb_norm in H. unfold key_eqb. now rewrite H.
Qed.

Lemma key_norm_str (c : cell) (s : string) : key_norm c = Str s <-> c = Str s.
Proof.
  destruct c; simpl; try tauto.
  destruct (f =? 0)%float; split; intros; discriminate.
Qed.

Lemma key_eqb_str (c : cell) (s : string) : key_eqb c (Str s) = true <-> c = Str s.
Proof. rewrite key_eqb_norm. simpl. apply key_norm_str. Qed.

(* ================================================================== *)
(** * Frame operations on row-wise series *)

Lemma getitem_ok (df : DataFrame) (c : string) :
  In c (columns df) ->
  Pd.getitem df c = Ok (map (fun r => at_label r c) (rows df)).
Proof.
  intros H. unfold Pd.getitem. apply mem_In in H. now rewrite H.
Qed.

Lemma loc_rows (df : DataFrame) (f : row -> bool) :
  Pd.loc df (map f (rows df)) = mkDF (columns df) (filter f (rows df)).
Proof. unfold Pd.loc. now rewrite mask_filter. Qed.

Lemma dt_date_ok (l : list row) :
  Forall (fun r => datetimelike (at_label r "Month")) l ->
  Pd.dt_date (map (fun r => at_label r "Month") l)
  = Ok (map (fun r => match at_label r "Month" with
                      | Day d => Some d
                      | _ => None
                      end) l).
Proof.
  intros H. unfold Pd.dt_date.
  rewrite <- (map_map (fun r => at_label r "Month")
                      (fun c => match c with Day d => Some d | _ => None end)).
  apply mapM_ok. intros c Hc. apply in_map_iff in Hc as [r [<- Hr]].
  rewrite Forall_forall in H. specialize (H r Hr).
  destruct (at_label r "Month"); simpl in *; try contradiction; try reflexivity.
  now rewrite H.
Qed.

Lemma time_mask_ok (df : DataFrame) (s e : date) :
  In "Month" (columns df) ->
  Forall (fun r => datetimelike (at_label r "Month")) (rows df) ->
  time_mask df s e = Ok (map (month_in_range s e) (rows df)).
Proof.
  intros Hm Hd. unfold time_mask. rewrite getitem_ok by assumption. simpl.
  rewrite dt_date_ok by assumption. simpl. f_equal.
  unfold Pd.and_, Pd.ge, Pd.le. rewrite !map_map.
  rewrite (combine_maps _ _ (fun p : bool * bool => fst p && snd p)).
  apply map_ext. intros r. unfold month_in_range. simpl.
  destruct (at_label r "Month"); reflexivity.
Qed.

Lemma base_filtered_ok (df : DataFrame) (s e : date) :
  In "Month" (columns df) ->
  Forall (fun r => datetimelike (at_label r "Month")) (rows df) ->
  base_filtered_incidents df s e
  = Ok (mkDF (columns df) (filter (month_in_range s e) (rows df))).
Proof.
  intros Hm Hd. unfold base_filtered_incidents.
  rewrite time_mask_ok by assumption. simpl. now rewrite loc_rows.
Qed.

Lemma filtered_incidents_ok (base : DataFrame) (sel : list cell) :
  In "Crime type" (columns base) ->
  filtered_incidents base sel
  = Ok (mkDF (columns base) (filter (type_selected sel) (rows base))).
Proof.
  intros Hc. unfold filtered_incidents. rewrite getitem_ok by assumption. simpl.
  unfold Pd.isin. rewrite map_map.
  now rewrite (loc_rows base (fun r => existsb (key_eqb (at_label r "Crime type")) sel)).
Qed.

Lemma filter_engine_ok (df : DataFrame) (s e : date) (sel : list cell) :
  incidents_ok df ->
  filter_engine df s e sel = Ok (mkDF (columns df) (filter (kept s e sel) (rows df))).
Proof.
  intros (Hm & Hc & Hd). unfold filter_engine.
  rewrite base_filtered_ok by assumption. simpl.
  rewrite filtered_incidents_ok by assumption. simpl.
  now rewrite filter_filter.
Qed.

Lemma incidents_2022_ok : incidents_ok incidents_2022.
Proof.
  unfold incidents_ok. simpl. repeat split; auto.
  repeat constructor.
Qed.

(* ================================================================== *)
(** * Filter engine *)

(** C2.  The filter keeps an incident exactly when its month lies in the
    inclusive date range and its crime type is among the selected ones.  The
    result has the input's columns, its rows are rows of the input in their
    order, and with nothing selected no row is kept. *)
Theorem filter_engine_correct (incidents_df : DataFrame)
        (start_date end_date : date) (selected_crimes : list cell) :
  incidents_ok incidents_df ->
  exists filtered,
    filter_engine incidents_df start_date end_date selected_crimes = Ok filtered
    /\ columns filtered = columns incidents_df
    /\ rows filtered
       = filter (kept start_date end_date selected_crimes) (rows incidents_df)
    /\ (forall r,
           In r (rows filtered) <->
           In r (rows incidents_df)
           /\ (exists d, at_label r "Month" = Day d
                         /\ date_leb start_date d = true
                         /\ date_leb d end_date = true)
           /\ (exists v, In v selected_crimes
                         /\ key_eqb (at_label r "Crime type") v = true))
    /\ incl (rows filtered) (rows incidents_df)
    /\ (selected_crimes = [] -> rows filtered = []).
Proof.
  intros Hok. eexists. split; [apply filter_engine_ok; assumption|].
  simpl. split; [reflexivity|]. split; [reflexivity|]. split; [|split].
  - intros r. rewrite filter_In. unfold kept, month_in_range, type_selected.
    rewrite andb_true_iff, existsb_exists. split.
    + intros (Hin & Hm & Ht). split; [assumption|]. split; [|assumption].
      destruct (at_label r "Month"); try discriminate.
      apply andb_true_iff in Hm. exists d. tauto.
    + intros (Hin & (d & Hd & H1 & H2) & Ht). split; [assumption|].
      split; [|assumption]. rewrite Hd, H1, H2. reflexivity.
  - intros r Hr. apply filter_In in Hr. tauto.
  - intros ->. apply filter_none. intros r _. unfold kept, type_selected. simpl.
    apply andb_false_r.
Qed.

Lemma filter_engine_correct_witness :
  incidents_ok incidents_2022
  /\ exists filtered,
      filter_engine incidents_2022 (fst year_2022) (snd year_2022)
                    [Str "Burglary"; Str "Drugs"] = Ok filtered
      /\ List.length (rows filtered) = 4%nat.
Proof.
  split; [exact incidents_2022_ok|].
  destruct (filter_engine_correct (fst year_2022) (snd year_2022)
              [Str "Burglary"; Str "Drugs"] incidents_2022_ok)
    as (f & Hf & _ & Hrows & _).
  exists f. split; [exact Hf|]. rewrite Hrows. reflexivity.
Defined.

Lemma existsb_filter {A : Type} (f g : A -> bool) (l : list A) :
  (forall x, f x = true -> g x = true) ->
  existsb f (filter g l) = existsb f l.
Proof.
  intros H. induction l as [|a l IH]; simpl; [reflexivity|].
  destruct (g a) eqn:G; simpl; rewrite IH; [reflexivity|].
  destruct (f a) eqn:F; [|reflexivity]. apply H in F. congruence.
Qed.

Lemma unique_existsb (k : cell) (l : list cell) :
  existsb (key_eqb k) (Pd.unique l) = existsb (key_eqb k) l.
Proof.
  induction l as [|c l IH]; simpl; [reflexivity|].
  destruct (key_eqb k c) eqn:E; simpl; [reflexivity|].
  rewrite existsb_filter; [exact IH|].
  intros x Hx. rewrite <- (key_eqb_congr _ _ c Hx), E. reflexivity.
Qed.

Lemma str_in_key (c : string) (l : list cell) :
  str_in c l = existsb (key_eqb (Str c)) l.
Proof.
  unfold str_in. induction l as [|x l IH]; simpl; [reflexivity|].
  rewrite IH. f_equal. unfold key_eqb. simpl.
  destruct x; simpl; try reflexivity.
  destruct (f =? 0)%float; reflexivity.
Qed.

Lemma str_in_spec (c : string) (l : list cell) :
  str_in c l = true <-> In (Str c) l.
Proof.
  rewrite str_in_key, existsb_exists. split.
  - intros (x & Hx & He). rewrite key_eqb_sym in He.
    apply key_eqb_str in He. now subst.
  - intros H. exists (Str c). split; [assumption | apply key_eqb_refl].
Qed.

Lemma valid_defaults_ok (base : DataFrame) :
  In "Crime type" (columns base) ->
  valid_defaults base
  = Ok (filter (fun c => str_in c (map (fun r => at_label r "Crime type") (rows base)))
               target_defaults).
Proof.
  intros H. unfold valid_defaults, all_crimes. rewrite getitem_ok by assumption.
  cbn [bind]. f_equal. apply filter_ext. intros c.
  now rewrite !str_in_key, unique_existsb.
Qed.

(** C8.  The default selection is the sublist of the priority list whose
    labels occur as the crime type of an incident of the date-filtered
    table; a priority label that no incident of the time window has is left
    out. *)
Theorem valid_defaults_present (incidents_df : DataFrame)
        (start_date end_date : date) :
  incidents_ok incidents_df ->
  exists base defaults,
    base_filtered_incidents incidents_df start_date end_date = Ok base
    /\ valid_defaults base = Ok defaults
    /\ defaults
       = filter (fun c => str_in c (map (fun r => at_label r "Crime type") (rows base)))
                target_defaults
    /\ (forall c,
           In c defaults <->
           In c target_defaults
           /\ exists r, In r (rows incidents_df)
                        /\ month_in_range start_date end_date r = true
                        /\ at_label r "Crime type" = Str c)
    /\ (forall c,
           In c target_defaults ->
           (forall r, In r (rows base) -> at_label r "Crime type" <> Str c) ->
           ~ In c defaults).
Proof.
  intros (Hm & Hc & Hd).
  exists (mkDF (columns incidents_df)
               (filter (month_in_range start_date end_date) (rows incidents_df))).
  eexists. split; [apply base_filtered_ok; assumption|].
  split; [apply valid_defaults_ok; assumption|].
  split; [reflexivity|]. cbn [rows]. split.
  - intros c. rewrite filter_In, str_in_spec, in_map_iff. split.
    + intros (Hin & r & Hr & Hf). apply filter_In in Hf. split; [assumption|].
      exists r. tauto.
    + intros (Hin & r & Hr & Hk & Ht). split; [assumption|].
      exists r. split; [assumption|]. apply filter_In. tauto.
  - intros c _ Habs Hin. apply filter_In in Hin as [_ Hin].
    apply str_in_spec, in_map_iff in Hin as (r & Hr & Hf).
    exact (Habs r Hf Hr).
Qed.

Lemma valid_defaults_present_witness :
  incidents_ok incidents_2022
  /\ exists base defaults,
      base_filtered_incidents incidents_2022 (mkdate 2022 1 1) (mkdate 2022 3 1)
      = Ok base
      /\ valid_defaults base = Ok defaults
      /\ defaults = ["Burglary"].
Proof.
  split; [exact incidents_2022_ok|].
  destruct (valid_defaults_present (mkdate 2022 1 1) (mkdate 2022 3 1)
              incidents_2022_ok) as (b & d & Hb & Hv & Hd & _).
  exists b, d. split; [exact Hb|]. split; [exact Hv|].
  rewrite Hd. clear Hd Hv. simpl in Hb. injection Hb as <-. reflexivity.
Defined.

(* ================================================================== *)
(** * Rows under their labels *)


Lemma at_label_app_r (r r' : row) (c : string) :
  ~ In c (map fst r) -> at_label (r ++ r') c = at_label r' c.
Proof.
  unfold at_label. induction r as [|p r IH]; simpl; intros H; [reflexivity|].
  destruct (fst p =? c) eqn:E.
  - apply String.eqb_eq in E. tauto.
  - apply IH. tauto.
Qed.

Lemma at_label_filter (f : string -> bool) (r : row) (c : string) :
  f c = true -> at_label (filter (fun p => f (fst p)) r) c = at_label r c.
Proof.
  intros Hc. unfold at_label. induction r as [|p r IH]; simpl; [reflexivity|].
  destruct (fst p =? c) eqn:E.
  - assert (Hf : f (fst p) = true)
      by (apply String.eqb_eq in E; now rewrite E).
    rewrite Hf. simpl. rewrite E. reflexivity.
  - destruct (f (fst p)); simpl; [rewrite E|]; exact IH.
Qed.


Lemma set_label_app_r (r r' : row) (c : string) (v : cell) :
  ~ In c (map fst r) -> Pd.set_label (r ++ r') c v = r ++ Pd.set_label r' c v.
Proof.
  induction r as [|p r IH]; simpl; intros H; [reflexivity|].
  destruct (fst p =? c) eqn:E.
  - apply String.eqb_eq in E. tauto.
  - f_equal. apply IH. tauto.
Qed.



Lemma map_flat_single {A B C : Type} (h : A -> list B) (g : B -> C) (k : A -> C)
      (l : list A) :
  (forall x, In x l -> map g (h x) = [k x]) -> map g (flat_map h l) = map k l.
Proof.
  induction l as [|a l IH]; simpl; intros H; [reflexivity|].
  rewrite map_app, (H a) by now left. simpl. f_equal. apply IH.
  intros x Hx. apply H. now right.
Qed.

Lemma map_id_in {A : Type} (f : A -> A) (l : list A) :
  (forall x, In x l -> f x = x) -> map f l = l.
Proof.
  intros H. rewrite <- (map_id l) at 2. now apply map_ext_in.
Qed.

(* ================================================================== *)
(** * Counting by value *)

Lemma insert_desc_perm (p : cell * Z) (l : list (cell * Z)) :
  Permutation (Pd.insert_desc p l) (p :: l).
Proof.
  induction l as [|q l IH]; simpl; [reflexivity|].
  destruct (snd q <=? snd p)%Z; [reflexivity|].
  rewrite IH. apply perm_swap.
Qed.

Lemma sort_desc_perm (l : list (cell * Z)) :
  Permutation (fold_right Pd.insert_desc [] l) l.
Proof.
  induction l as [|p l IH]; simpl; [reflexivity|].
  rewrite insert_desc_perm. now constructor.
Qed.

Lemma filter_perm {A : Type} (f : A -> bool) (l l' : list A) :
  Permutation l l' -> Permutation (filter f l) (filter f l').
Proof.
  induction 1 as [|x l l' _ IH|x y l|l l' l'' _ IH1 _ IH2]; simpl.
  - reflexivity.
  - destruct (f x); [now constructor | assumption].
  - destruct (f x), (f y); try reflexivity. apply perm_swap.
  - now transitivity (filter f l').
Qed.

Lemma unique_filter (k : cell) (l : list cell) :
  filter (key_eqb k) (Pd.unique l) = []
  \/ exists k0, filter (key_eqb k) (Pd.unique l) = [k0] /\ key_eqb k k0 = true.
Proof.
  induction l as [|c l IH]; simpl; [now left|].
  rewrite filter_filter.
  destruct (key_eqb k c) eqn:E.
  - right. exists c. split; [|assumption]. f_equal. apply filter_none.
    intros x _. destruct (key_eqb k x) eqn:Ex; [|apply andb_false_r].
    rewrite key_eqb_sym in Ex. rewrite (key_eqb_congr _ _ c Ex), E. reflexivity.
  - rewrite (filter_ext (fun x => negb (key_eqb x c) && key_eqb k x) (key_eqb k));
      [exact IH|].
    intros x. destruct (key_eqb k x) eqn:Ex; [|apply andb_false_r].
    rewrite key_eqb_sym in Ex. rewrite (key_eqb_congr _ _ c Ex), E. reflexivity.
Qed.

Lemma unique_filter_nil (k : cell) (l : list cell) :
  filter (key_eqb k) (Pd.unique l) = [] <-> filter (key_eqb k) l = [].
Proof.
  pose proof (unique_existsb k l) as H.
  assert (G : forall m, filter (key_eqb k) m = [] <-> existsb (key_eqb k) m = false).
  { induction m as [|x m IH]; simpl; [tauto|].
    destruct (key_eqb k x); simpl; [split; discriminate | exact IH]. }
  rewrite !G. now rewrite H.
Qed.

Lemma occurrences_congr (k k0 : cell) (s : list cell) :
  key_eqb k k0 = true -> Pd.occurrences k0 s = Pd.occurrences k s.
Proof.
  intros H. unfold Pd.occurrences. do 2 f_equal. apply filter_ext.
  intros x. symmetry. now apply key_eqb_congr.
Qed.

(** The entry of a value in the counts: none when the value does not occur,
    one with the number of occurrences when it does. *)
Lemma value_counts_entry (k : cell) (s : list cell) :
  let present := filter (fun c => negb (isna c)) s in
  map snd (filter (fun p => key_eqb k (fst p)) (Pd.value_counts s))
  = if (0 <? Pd.occurrences k present)%Z then [Pd.occurrences k present] else [].
Proof.
  intros present. unfold Pd.value_counts. fold present.
  set (entries := map (fun k0 => (k0, Pd.occurrences k0 present)) (Pd.unique present)).
  assert (P : Permutation (filter (fun p => key_eqb k (fst p))
                                  (fold_right Pd.insert_desc [] entries))
                          (filter (fun p => key_eqb k (fst p)) entries))
    by (apply filter_perm, sort_desc_perm).
  assert (E : filter (fun p => key_eqb k (fst p)) entries
              = map (fun k0 => (k0, Pd.occurrences k0 present))
                    (filter (key_eqb k) (Pd.unique present)))
    by (unfold entries; now rewrite filter_map_swap).
  rewrite E in P. clear E.
  destruct (unique_filter k present) as [Hn | (k0 & H1 & Hk)].
  - rewrite Hn in P. simpl in P. apply Permutation_sym, Permutation_nil in P.
    rewrite P. simpl. apply (proj1 (unique_filter_nil _ _)) in Hn.
    unfold Pd.occurrences. rewrite Hn. reflexivity.
  - rewrite H1 in P. simpl in P. apply Permutation_sym, Permutation_length_1_inv in P.
    rewrite P. simpl. rewrite (occurrences_congr _ _ present Hk).
    assert (Hpos : (0 < Pd.occurrences k present)%Z).
    { unfold Pd.occurrences.
      destruct (filter (key_eqb k) present) eqn:F; [|simpl; lia].
      apply (proj2 (unique_filter_nil _ _)) in F. rewrite F in H1. discriminate. }
    apply Z.ltb_lt in Hpos. now rewrite Hpos.
Qed.

(* ================================================================== *)
(** * The join with the counts *)

Lemma current_crime_counts_ok (filtered : DataFrame) :
  has_codes filtered ->
  current_crime_counts filtered
  = Ok (counts_frame
          (Pd.value_counts (map (fun r => at_label r "LSOA21CD") (rows filtered)))).
Proof.
  intros H. unfold current_crime_counts. rewrite getitem_ok by exact H.
  cbn [bind]. unfold Pd.set_columns, Pd.reset_index, counts_frame.
  cbn [columns rows List.length Nat.eqb]. now rewrite map_map.
Qed.

Lemma joined_count_entry (s : list cell) (k : cell) :
  let n := Pd.occurrences k (filter (fun c => negb (isna c)) s) in
  joined_count (Pd.value_counts s) k = if (0 <? n)%Z then Int n else NaN.
Proof.
  intros n. pose proof (value_counts_entry k s) as H. cbv zeta in H. fold n in H.
  unfold joined_count.
  destruct (filter (fun p => key_eqb k (fst p)) (Pd.value_counts s)) as [|p l];
    destruct (0 <? n)%Z; simpl in H; try discriminate; try reflexivity.
  injection H as -> _. reflexivity.
Qed.

Lemma matches_counts (vc : list (cell * Z)) (l : row) :
  Pd.matches (counts_frame vc) "LSOA21CD" l
  = map (fun p => [("LSOA21CD", fst p); ("Period_Total_Crimes", Int (snd p))])
        (filter (fun p => key_eqb (at_label l "LSOA21CD") (fst p)) vc).
Proof.
  unfold Pd.matches, counts_frame. cbn [rows]. now rewrite filter_map_swap.
Qed.

Lemma merge_counts (left : DataFrame) (vc : list (cell * Z)) :
  In "LSOA21CD" (columns left) ->
  ~ In "Period_Total_Crimes" (columns left) ->
  Forall (fun r => map fst r = columns left) (rows left) ->
  (forall k, (List.length (filter (fun p => key_eqb k (fst p)) vc) <= 1)%nat) ->
  Pd.merge left (counts_frame vc) "LSOA21CD"
  = Ok (mkDF (columns left ++ ["Period_Total_Crimes"])
             (map (fun l => l ++ [("Period_Total_Crimes",
                                   joined_count vc (at_label l "LSOA21CD"))])
                  (rows left))).
Proof.
  intros Hk Hp Hal Hone. unfold Pd.merge.
  apply mem_In in Hk as Hk'. rewrite Hk'. cbn [negb].
  change (mem "LSOA21CD" (columns (counts_frame vc))) with true. cbn [negb].
  assert (Hx : forall c, In c (columns left) ->
                         Pd.suffixed left (counts_frame vc) "LSOA21CD" "_x" c = c).
  { intros c Hc. unfold Pd.suffixed, Pd.overlap. cbn [columns counts_frame].
    destruct (c =? "LSOA21CD") eqn:E1; [reflexivity|].
    unfold mem at 2. cbn [existsb]. rewrite E1.
    destruct (c =? "Period_Total_Crimes") eqn:E2; [|now rewrite andb_false_r].
    apply String.eqb_eq in E2. subst. contradiction. }
  assert (Hy : Pd.suffixed left (counts_frame vc) "LSOA21CD" "_y" "Period_Total_Crimes"
               = "Period_Total_Crimes").
  { unfold Pd.suffixed, Pd.overlap. apply mem_false in Hp. now rewrite Hp. }
  change (Pd.value_columns (counts_frame vc) "LSOA21CD") with ["Period_Total_Crimes"].
  cbn [map]. rewrite Hy. rewrite (map_id_in _ _ Hx). do 2 f_equal.
  unfold Pd.joined. apply map_flat_single. intros l Hl.
  rewrite Forall_forall in Hal. specialize (Hal l Hl).
  rewrite matches_counts. unfold joined_count.
  specialize (Hone (at_label l "LSOA21CD")).
  assert (Hrow : map (fun q => (Pd.suffixed left (counts_frame vc) "LSOA21CD" "_x" (fst q), snd q)) l = l).
  { apply map_id_in. intros [c v] Hq. cbn [fst snd]. rewrite Hx; [reflexivity|].
    rewrite <- Hal. apply in_map_iff. now exists (c, v). }
  destruct (filter (fun p => key_eqb (at_label l "LSOA21CD") (fst p)) vc) as [|p [|q t]].
  - cbn [map]. unfold Pd.merged_row.
    change (Pd.value_columns (counts_frame vc) "LSOA21CD") with ["Period_Total_Crimes"].
    cbn [fst snd map]. now rewrite Hy, Hrow.
  - cbn [map]. unfold Pd.merged_row.
    change (Pd.value_columns (counts_frame vc) "LSOA21CD") with ["Period_Total_Crimes"].
    cbn [fst snd map]. now rewrite Hy, Hrow.
  - simpl in Hone. lia.
Qed.

(** The order in which the counts are listed does not reach the master
    table: the joined cell is the same for any arrangement of the entries. *)
Lemma joined_count_perm (vc vc' : list (cell * Z)) (k : cell) :
  Permutation vc vc' ->
  (List.length (filter (fun p => key_eqb k (fst p)) vc) <= 1)%nat ->
  joined_count vc k = joined_count vc' k.
Proof.
  intros P H. unfold joined_count.
  pose proof (filter_perm (fun p => key_eqb k (fst p)) P) as Q.
  destruct (filter (fun p => key_eqb k (fst p)) vc) as [|p [|q t]].
  - apply Permutation_nil in Q. now rewrite Q.
  - apply Permutation_length_1_inv in Q. now rewrite Q.
  - simpl in H. lia.
Qed.

Lemma value_counts_one (s : list cell) (k : cell) :
  (List.length (filter (fun p => key_eqb k (fst p)) (Pd.value_counts s)) <= 1)%nat.
Proof.
  rewrite <- (length_map snd). rewrite value_counts_entry.
  destruct (0 <? _)%Z; simpl; lia.
Qed.

(* ================================================================== *)
(** * One pass of the aggregation *)

Lemma find_filter_none {A : Type} (f : A -> bool) (l : list A) :
  find (fun x => negb (f x)) (filter f l) = None.
Proof.
  induction l as [|a l IH]; simpl; [reflexivity|].
  destruct (f a) eqn:E; simpl; [rewrite E|]; exact IH.
Qed.

Lemma mem_present (cols : list string) (c : string) :
  In c cols ->
  mem c (filter (fun x => mem x cols) cols_to_drop) = mem c cols_to_drop.
Proof.
  intros Hc. apply eq_true_iff_eq. rewrite !mem_In, filter_In, mem_In. tauto.
Qed.

Lemma drop_stale (master_df : DataFrame) :
  aligned master_df ->
  Pd.drop master_df (filter (fun c => mem c (columns master_df)) cols_to_drop)
  = Ok (mkDF (strip_columns (columns master_df)) (map strip (rows master_df))).
Proof.
  intros [_ Hal]. unfold Pd.drop. rewrite find_filter_none. do 2 f_equal.
  - apply filter_ext_in. intros c Hc. now rewrite mem_present.
  - apply map_ext_in. intros r Hr. rewrite Forall_forall in Hal.
    apply filter_ext_in. intros p Hp. rewrite mem_present; [reflexivity|].
    rewrite <- (Hal r Hr). now apply in_map.
Qed.

Lemma map_fst_filter (f : string -> bool) (r : row) :
  map fst (filter (fun p => f (fst p)) r) = filter f (map fst r).
Proof.
  induction r as [|p r IH]; simpl; [reflexivity|].
  destruct (f (fst p)); simpl; now rewrite IH.
Qed.

Lemma strip_labels (r : row) : map fst (strip r) = strip_columns (map fst r).
Proof. apply (map_fst_filter (fun c => negb (mem c cols_to_drop))). Qed.

Lemma strip_columns_no_stale (cols : list string) (c : string) :
  In c cols_to_drop -> ~ In c (strip_columns cols).
Proof.
  intros Hc H. apply filter_In in H as [_ H]. apply mem_In in Hc.
  rewrite Hc in H. discriminate.
Qed.

Lemma strip_columns_keeps (cols : list string) (c : string) :
  In c cols -> mem c cols_to_drop = false -> In c (strip_columns cols).
Proof. intros Hc Hm. apply filter_In. now rewrite Hm. Qed.

Lemma at_label_strip (r : row) (c : string) :
  mem c cols_to_drop = false -> at_label (strip r) c = at_label r c.
Proof.
  intros H. apply (at_label_filter (fun x => negb (mem x cols_to_drop))).
  now rewrite H.
Qed.

Lemma at_label_app_keep (r r' : row) (c : string) :
  ~ In c (map fst r') -> at_label (r ++ r') c = at_label r c.
Proof.
  intros H. unfold at_label. induction r as [|p r IH]; simpl.
  - destruct (find (fun p => fst p =? c) r') as [q|] eqn:F; [|reflexivity].
    apply find_some in F as [Hq He]. apply String.eqb_eq in He.
    exfalso. apply H. rewrite <- He. now apply in_map.
  - destruct (fst p =? c); [reflexivity | exact IH].
Qed.

Lemma getitem_map {A : Type} (cols : list string) (h : A -> row) (base : list A)
      (c : string) :
  In c cols ->
  Pd.getitem (mkDF cols (map h base)) c = Ok (map (fun b => at_label (h b) c) base).
Proof.
  intros H. rewrite getitem_ok by exact H. cbn [rows]. now rewrite map_map.
Qed.

Lemma setitem_map {A : Type} (cols : list string) (h : A -> row) (v : A -> cell)
      (base : list A) (c : string) :
  Pd.setitem (mkDF cols (map h base)) c (map v base)
  = mkDF (if mem c cols then cols else cols ++ [c])
         (map (fun b => Pd.set_label (h b) c (v b)) base).
Proof.
  unfold Pd.setitem. cbn [columns rows]. f_equal.
  apply (combine_maps h v (fun p => Pd.set_label (fst p) c (snd p))).
Qed.

Lemma mapM_map {A B C : Type} (f : B -> result C) (g : A -> B) (l : list A) :
  mapM f (map g l) = mapM (fun x => f (g x)) l.
Proof.
  induction l as [|a l IH]; simpl; [reflexivity|]. now rewrite IH.
Qed.

Lemma mapM_combine {A B C D : Type} (f : A -> B) (g : A -> C)
      (h : B * C -> result D) (l : list A) :
  mapM h (combine (map f l) (map g l)) = mapM (fun x => h (f x, g x)) l.
Proof.
  induction l as [|a l IH]; simpl; [reflexivity|]. now rewrite IH.
Qed.

Lemma matching_occurrences (filtered : DataFrame) (a : row) :
  Pd.occurrences (at_label a "LSOA21CD")
                 (filter (fun c => negb (isna c))
                         (map (fun r => at_label r "LSOA21CD") (rows filtered)))
  = matching filtered a.
Proof.
  unfold Pd.occurrences, matching. f_equal.
  rewrite filter_filter, filter_map_swap, length_map. reflexivity.
Qed.

Lemma filled_count (filtered : DataFrame) (a : row) :
  (let c := joined_count
              (Pd.value_counts (map (fun r => at_label r "LSOA21CD") (rows filtered)))
              (at_label a "LSOA21CD") in
   if isna c then Flt 0%float else c)
  = count_cell (matching filtered a).
Proof.
  cbv zeta. rewrite joined_count_entry. cbv zeta. rewrite matching_occurrences.
  unfold count_cell. destruct (0 <? matching filtered a)%Z; reflexivity.
Qed.

Lemma to_float_count (n : Z) : to_float (count_cell n) = Ok (num (count_cell n)).
Proof. unfold count_cell. destruct (0 <? n)%Z; reflexivity. Qed.

Lemma to_float_numeric (c : cell) : numeric c -> to_float c = Ok (num c).
Proof. destruct c; simpl; intros H; try contradiction; reflexivity. Qed.

(** A pass succeeds on a master table with an area code and a numeric
    population, and leaves each area row without its stale columns and with
    the three derived cells at its end. *)
Lemma aggregation_ok (master_df filtered : DataFrame) :
  master_ok master_df ->
  has_codes filtered ->
  aggregation master_df filtered
  = Ok (mkDF (strip_columns (columns master_df) ++ cols_to_drop)
             (map (enriched filtered) (rows master_df))).
Proof.
  intros (Hal & Hkey & Hpop & Hnum) Hcodes. unfold aggregation.
  rewrite current_crime_counts_ok by exact Hcodes. cbn [bind].
  rewrite drop_stale by exact Hal. cbn [bind].
  set (vc := Pd.value_counts (map (fun r => at_label r "LSOA21CD") (rows filtered))).
  set (sc := strip_columns (columns master_df)).
  assert (Hsk : In "LSOA21CD" sc) by (now apply strip_columns_keeps).
  assert (Hsp : In "POP2022Total" sc) by (now apply strip_columns_keeps).
  assert (Hn1 : ~ In "Period_Total_Crimes" sc)
    by (apply strip_columns_no_stale; simpl; tauto).
  assert (Hn2 : ~ In "Total_Crimes" sc)
    by (apply strip_columns_no_stale; simpl; tauto).
  assert (Hn3 : ~ In "Crime_Rate" sc)
    by (apply strip_columns_no_stale; simpl; tauto).
  assert (Hs1 : forall r, ~ In "Period_Total_Crimes" (map fst (strip r)))
    by (intros r; rewrite strip_labels; apply strip_columns_no_stale; simpl; tauto).
  assert (Hs2 : forall r, ~ In "Total_Crimes" (map fst (strip r)))
    by (intros r; rewrite strip_labels; apply strip_columns_no_stale; simpl; tauto).
  assert (Hs3 : forall r, ~ In "Crime_Rate" (map fst (strip r)))
    by (intros r; rewrite strip_labels; apply strip_columns_no_stale; simpl; tauto).
  destruct Hal as [_ Hal].
  rewrite merge_counts; cbn [columns rows]; try assumption.
  2:{ apply Forall_forall. intros r Hr. apply in_map_iff in Hr as (a & <- & Ha).
      rewrite Forall_forall in Hal. rewrite strip_labels, (Hal a Ha). reflexivity. }
  2:{ intros k. apply value_counts_one. }
  cbn [bind]. rewrite map_map.
  (* Period_Total_Crimes, filled *)
  rewrite getitem_map by (apply in_or_app; simpl; tauto). cbn [bind].
  unfold Pd.fillna0. rewrite map_map, setitem_map.
  replace (mem "Period_Total_Crimes" (sc ++ ["Period_Total_Crimes"])) with true
    by (symmetry; apply mem_In, in_or_app; simpl; tauto).
  rewrite (map_ext _ (fun a => strip a ++ [("Period_Total_Crimes",
                                           count_cell (matching filtered a))])).
  2:{ intros a. rewrite set_label_app_r by apply Hs1.
      rewrite at_label_app_r by apply Hs1. f_equal.
      change (at_label [("Period_Total_Crimes",
                         joined_count vc (at_label (strip a) "LSOA21CD"))]
                       "Period_Total_Crimes")
        with (joined_count vc (at_label (strip a) "LSOA21CD")).
      rewrite at_label_strip by reflexivity.
      cbn [Pd.set_label fst]. rewrite String.eqb_refl.
      f_equal. f_equal. apply filled_count. }
  (* Total_Crimes *)
  rewrite getitem_map by (apply in_or_app; simpl; tauto). cbn [bind].
  rewrite setitem_map.
  replace (mem "Total_Crimes" (sc ++ ["Period_Total_Crimes"])) with false
    by (symmetry; apply mem_false; intros H; apply in_app_or in H as [H|H];
        [exact (Hn2 H) | simpl in H; destruct H as [H|[]]; discriminate]).
  rewrite (map_ext _ (fun a => strip a ++ [("Period_Total_Crimes",
                                           count_cell (matching filtered a));
                                          ("Total_Crimes",
                                           count_cell (matching filtered a))])).
  2:{ intros a. rewrite set_label_app_r by apply Hs2.
      rewrite at_label_app_r by apply Hs1. reflexivity. }
  (* Crime_Rate *)
  rewrite <- app_assoc. cbn [app].
  rewrite getitem_map by (apply in_or_app; simpl; tauto). cbn [bind].
  rewrite getitem_map by (apply in_or_app; tauto). cbn [bind].
  unfold Pd.truediv. rewrite mapM_combine.
  rewrite (mapM_ok _ (fun a => Flt (num (count_cell (matching filtered a))
                                    / num (at_label a "POP2022Total"))%float)).
  2:{ intros a Ha. cbn [fst snd].
      rewrite at_label_app_r by apply Hs2.
      change (at_label [("Period_Total_Crimes", count_cell (matching filtered a));
                        ("Total_Crimes", count_cell (matching filtered a))]
                       "Total_Crimes")
        with (count_cell (matching filtered a)).
      rewrite to_float_count. cbn [bind].
      rewrite at_label_app_keep by (simpl; intros [H|[H|[]]]; discriminate).
      rewrite at_label_strip by reflexivity.
      rewrite Forall_forall in Hnum. rewrite (to_float_numeric _ (Hnum a Ha)).
      reflexivity. }
  cbn [bind]. unfold Pd.mul. rewrite mapM_map.
  rewrite (mapM_ok _ (fun a => Flt (num (count_cell (matching filtered a))
                                    / num (at_label a "POP2022Total") * 1000)%float)).
  2:{ intros a _. reflexivity. }
  cbn [bind]. rewrite setitem_map.
  replace (mem "Crime_Rate" (sc ++ ["Period_Total_Crimes"; "Total_Crimes"])) with false
    by (symmetry; apply mem_false; intros H; apply in_app_or in H as [H|H];
        [exact (Hn3 H) | simpl in H; destruct H as [H|[H|[]]]; discriminate]).
  rewrite getitem_map by (rewrite <- app_assoc; apply in_or_app; simpl; tauto).
  cbn [bind]. rewrite map_map, setitem_map.
  replace (mem "Crime_Rate"
               ((sc ++ ["Period_Total_Crimes"; "Total_Crimes"]) ++ ["Crime_Rate"]))
    with true by (symmetry; apply mem_In, in_or_app; simpl; tauto).
  rewrite <- app_assoc. cbn [app]. do 2 f_equal.
  apply map_ext. intros a. unfold enriched. cbv zeta.
  rewrite !set_label_app_r by apply Hs3.
  rewrite at_label_app_r by apply Hs3. f_equal.
  cbn [Pd.set_label fst]. 
  change ("Period_Total_Crimes" =? "Crime_Rate") with false.
  change ("Total_Crimes" =? "Crime_Rate") with false. cbn iota.
  cbn [Pd.set_label fst]. rewrite String.eqb_refl.
  do 3 f_equal. unfold rate_of. cbv zeta.
  set (q := (num (count_cell (matching filtered a)) / num (at_label a "POP2022Total") * 1000)%float).
  change (at_label _ "Crime_Rate") with (Flt q). cbn [isna].
  destruct (is_nan q); reflexivity.
Qed.

(* ================================================================== *)
(** * The cells of an enriched row *)

Lemma enriched_period (filtered : DataFrame) (a : row) :
  at_label (enriched filtered a) "Period_Total_Crimes"
  = count_cell (matching filtered a).
Proof.
  unfold enriched. cbv zeta. rewrite at_label_app_r; [reflexivity|].
  rewrite strip_labels. apply strip_columns_no_stale. simpl. tauto.
Qed.

Lemma enriched_total (filtered : DataFrame) (a : row) :
  at_label (enriched filtered a) "Total_Crimes"
  = count_cell (matching filtered a).
Proof.
  unfold enriched. cbv zeta. rewrite at_label_app_r; [reflexivity|].
  rewrite strip_labels. apply strip_columns_no_stale. simpl. tauto.
Qed.

Lemma enriched_rate (filtered : DataFrame) (a : row) :
  at_label (enriched filtered a) "Crime_Rate"
  = rate_of (count_cell (matching filtered a)) (at_label a "POP2022Total").
Proof.
  unfold enriched. cbv zeta. rewrite at_label_app_r; [reflexivity|].
  rewrite strip_labels. apply strip_columns_no_stale. simpl. tauto.
Qed.

(** A column that is not one of the three derived ones is left as it is. *)
Lemma enriched_other (filtered : DataFrame) (a : row) (c : string) :
  mem c cols_to_drop = false ->
  at_label (enriched filtered a) c = at_label a c.
Proof.
  intros H. unfold enriched. cbv zeta. rewrite at_label_app_keep.
  - now apply at_label_strip.
  - intros Hin. apply mem_false in H. apply H. simpl in *. tauto.
Qed.

Lemma enriched_labels (filtered : DataFrame) (a : row) :
  map fst (enriched filtered a) = strip_columns (map fst a) ++ cols_to_drop.
Proof.
  unfold enriched. cbv zeta. rewrite map_app, strip_labels. reflexivity.
Qed.

Lemma strip_strip (r : row) : strip (strip r) = strip r.
Proof.
  unfold strip. apply filter_id. intros p Hp. apply filter_In in Hp. tauto.
Qed.

Lemma strip_enriched (filtered : DataFrame) (a : row) :
  strip (enriched filtered a) = strip a.
Proof.
  unfold enriched. cbv zeta. unfold strip at 1. rewrite filter_app.
  fold (strip (strip a)). rewrite strip_strip. cbn. apply app_nil_r.
Qed.

Lemma strip_columns_enriched (cols : list string) :
  strip_columns (strip_columns cols ++ cols_to_drop) = strip_columns cols.
Proof.
  unfold strip_columns at 1. rewrite filter_app.
  rewrite (filter_id _ (strip_columns cols)).
  - cbn. apply app_nil_r.
  - intros c Hc. apply filter_In in Hc. tauto.
Qed.

Lemma matching_enriched (filtered other : DataFrame) (a : row) :
  matching other (enriched filtered a) = matching other a.
Proof.
  unfold matching. do 2 f_equal. apply filter_ext. intros i.
  unfold area_matches. now rewrite enriched_other by reflexivity.
Qed.

Lemma enriched_enriched (first second : DataFrame) (a : row) :
  enriched second (enriched first a) = enriched second a.
Proof.
  unfold enriched at 1. cbv zeta.
  rewrite strip_enriched, matching_enriched, enriched_other by reflexivity.
  reflexivity.
Qed.

Lemma enriched_master_ok (master_df filtered : DataFrame) :
  master_ok master_df ->
  master_ok (mkDF (strip_columns (columns master_df) ++ cols_to_drop)
                  (map (enriched filtered) (rows master_df))).
Proof.
  intros ((Hnd & Hal) & Hkey & Hpop & Hnum).
  unfold master_ok, aligned. cbn [columns rows]. repeat split.
  - apply NoDup_app.
    + now apply NoDup_filter.
    + repeat constructor; simpl; intuition discriminate.
    + intros c Hc Hd. exact (strip_columns_no_stale _ Hd Hc).
  - apply Forall_forall. intros r Hr. apply in_map_iff in Hr as (a & <- & Ha).
    rewrite Forall_forall in Hal. now rewrite enriched_labels, (Hal a Ha).
  - apply in_or_app. left. now apply strip_columns_keeps.
  - apply in_or_app. left. now apply strip_columns_keeps.
  - apply Forall_forall. intros r Hr. apply in_map_iff in Hr as (a & <- & Ha).
    rewrite Forall_forall in Hnum. rewrite enriched_other by reflexivity.
    now apply Hnum.
Qed.

Lemma master_2022_ok : master_ok master_2022.
Proof.
  unfold master_ok, aligned. simpl. repeat split.
  - repeat constructor; simpl; intuition discriminate.
  - repeat constructor.
  - tauto.
  - tauto.
  - repeat constructor.
Qed.

Lemma filtered_2022_codes : has_codes filtered_2022.
Proof. unfold has_codes. simpl. tauto. Qed.

(* ================================================================== *)
(** * The rate column *)

(** A count of zero over any population leaves a rate that compares equal
    to zero. *)
Lemma rate_of_zero (pop : cell) :
  exists q, rate_of (Flt 0%float) pop = Flt q
            /\ (q =? 0)%float = true /\ is_nan q = false.
Proof.
  unfold rate_of. cbv zeta. cbn [num].
  set (p := num pop).
  assert (H : Prim2SF (0 / p * 1000)%float = S754_nan
              \/ Prim2SF (0 / p * 1000)%float = S754_zero false
              \/ Prim2SF (0 / p * 1000)%float = S754_zero true).
  { rewrite mul_spec, div_spec.
    destruct (Prim2SF p) as [s|s| |s m e]; vm_compute; auto; destruct s; auto. }
  destruct H as [H|[H|H]].
  - replace (0 / p * 1000)%float with nan
      by (apply Prim2SF_inj; rewrite H; reflexivity).
    exists 0%float. repeat split.
  - replace (0 / p * 1000)%float with 0%float
      by (apply Prim2SF_inj; rewrite H; reflexivity).
    exists 0%float. repeat split.
  - replace (0 / p * 1000)%float with (-0)%float
      by (apply Prim2SF_inj; rewrite H; reflexivity).
    exists (-0)%float. repeat split.
Qed.

(** A missing population leaves the rate 0, whatever the count. *)
Lemma rate_of_missing (count : cell) : rate_of count NaN = Flt 0%float.
Proof.
  unfold rate_of. cbv zeta. cbn [num NaN].
  replace (num count / nan * 1000)%float with nan; [reflexivity|].
  apply Prim2SF_inj. rewrite mul_spec, div_spec.
  destruct (Prim2SF (num count)); reflexivity.
Qed.

(** The example of the specification: 10 incidents among 2000 inhabitants. *)
Lemma rate_of_example : rate_of (Int 10) (Int 2000) = Flt 5%float.
Proof. reflexivity. Qed.

(** C1.  Where the population is zero and an incident matches, the rate
    column holds the infinite quotient: the missing values that [fillna]
    replaces do not include it.  One area of no inhabitants and one incident
    in it give a rate of infinity, not of 0. *)
Theorem rate_unpopulated_area :
  exists out,
    aggregation master_unpopulated incidents_unpopulated = Ok out
    /\ map (fun r => at_label r "POP2022Total") (rows out) = [Int 0]
    /\ map (fun r => at_label r "Period_Total_Crimes") (rows out) = [Int 1]
    /\ map (fun r => at_label r "Crime_Rate") (rows out) = [Flt infinity].
Proof.
  eexists. split; [vm_compute; reflexivity|]. repeat split.
Qed.

(* ================================================================== *)
(** * Repeated passes *)

(** C3.  A pass over a master table that an earlier pass has enriched gives
    the table that the same pass gives over the pristine master table.  The
    result carries each of the three derived columns once, after the columns
    that are not derived. *)
Theorem no_residue (master_df first second : DataFrame) :
  master_ok master_df ->
  has_codes first ->
  has_codes second ->
  exists stale fresh,
    aggregation master_df first = Ok stale
    /\ aggregation master_df second = Ok fresh
    /\ aggregation stale second = Ok fresh
    /\ columns fresh = strip_columns (columns master_df) ++ cols_to_drop
    /\ NoDup (columns fresh).
Proof.
  intros Hm H1 H2.
  pose proof (@enriched_master_ok master_df first Hm) as Hs.
  pose proof (@enriched_master_ok master_df second Hm) as [[Hnd _] _].
  eexists. eexists.
  split; [apply aggregation_ok; assumption|].
  split; [apply aggregation_ok; assumption|].
  split; [|split; [reflexivity | exact Hnd]].
  rewrite aggregation_ok by assumption. cbn [columns rows].
  rewrite strip_columns_enriched, map_map. do 2 f_equal.
  apply map_ext. intros a. apply enriched_enriched.
Qed.

Lemma no_residue_witness :
  master_ok master_2022 /\ has_codes filtered_2022 /\ has_codes incidents_one
  /\ exists stale fresh,
      aggregation master_2022 filtered_2022 = Ok stale
      /\ aggregation master_2022 incidents_one = Ok fresh
      /\ aggregation stale incidents_one = Ok fresh.
Proof.
  assert (H1 : has_codes incidents_one) by (unfold has_codes; simpl; tauto).
  split; [exact master_2022_ok|]. split; [exact filtered_2022_codes|].
  split; [exact H1|].
  destruct (@no_residue master_2022 filtered_2022 incidents_one
              master_2022_ok filtered_2022_codes H1)
    as (stale & fresh & Ha & Hb & Hc & _).
  exists stale, fresh. auto.
Defined.

(* ================================================================== *)
(** * Rows of the master table *)

(** C4.  On a master table with pairwise different area codes a pass
    returns one row per area row, in the same order and with the same area
    code and the same cells outside the derived columns; the area codes of
    the result are again pairwise different, and an area without a matching
    incident has [Period_Total_Crimes] filled with 0. *)
Theorem rows_preserved (master_df filtered : DataFrame) :
  master_ok master_df ->
  unique_codes master_df ->
  has_codes filtered ->
  exists out,
    aggregation master_df filtered = Ok out
    /\ List.length (rows out) = List.length (rows master_df)
    /\ map (fun r => at_label r "LSOA21CD") (rows out)
       = map (fun r => at_label r "LSOA21CD") (rows master_df)
    /\ map strip (rows out) = map strip (rows master_df)
    /\ unique_codes out
    /\ Forall2 (fun a r =>
                  matching filtered a = 0%Z ->
                  at_label r "Period_Total_Crimes" = Flt 0%float)
               (rows master_df) (rows out).
Proof.
  intros Hm Hu Hc. eexists. split; [apply aggregation_ok; assumption|].
  cbn [rows].
  assert (Hcodes : map (fun r => at_label r "LSOA21CD")
                       (map (enriched filtered) (rows master_df))
                   = map (fun r => at_label r "LSOA21CD") (rows master_df)).
  { rewrite map_map. apply map_ext. intros a. now apply enriched_other. }
  split; [apply length_map|]. split; [exact Hcodes|]. split; [|split].
  - rewrite map_map. apply map_ext. intros a. apply strip_enriched.
  - unfold unique_codes in *. cbn [rows].
    rewrite <- (map_map (fun r => at_label r "LSOA21CD") key_norm), Hcodes.
    now rewrite map_map.
  - clear Hm Hu Hcodes. induction (rows master_df) as [|a l IH]; simpl.
    + constructor.
    + constructor; [|exact IH].
      intros H0. rewrite enriched_period, H0. reflexivity.
Qed.

Lemma master_2022_unique : unique_codes master_2022.
Proof.
  unfold unique_codes. simpl. repeat constructor; simpl; intuition discriminate.
Qed.

Lemma rows_preserved_witness :
  master_ok master_2022 /\ unique_codes master_2022 /\ has_codes filtered_2022
  /\ exists out,
      aggregation master_2022 filtered_2022 = Ok out
      /\ List.length (rows out) = 4%nat.
Proof.
  split; [exact master_2022_ok|]. split; [exact master_2022_unique|].
  split; [exact filtered_2022_codes|].
  destruct (@rows_preserved master_2022 filtered_2022
              master_2022_ok master_2022_unique filtered_2022_codes)
    as (out & Ho & Hl & _).
  exists out. split; [exact Ho | exact Hl].
Defined.

(* ================================================================== *)
(** * Counts per area and their sum *)

Lemma sum_Z_zero {A : Type} (l : list A) : sum_Z (map (fun _ => 0%Z) l) = 0%Z.
Proof. induction l as [|a l IH]; simpl; [reflexivity | exact IH]. Qed.

Lemma sum_Z_add {A : Type} (f g : A -> Z) (l : list A) :
  sum_Z (map (fun a => (f a + g a)%Z) l) = (sum_Z (map f l) + sum_Z (map g l))%Z.
Proof. induction l as [|a l IH]; simpl; [reflexivity | rewrite IH; lia]. Qed.

Lemma area_matches_norm (a i : row) :
  area_matches a i = true ->
  key_norm (at_label a "LSOA21CD") = key_norm (at_label i "LSOA21CD").
Proof.
  unfold area_matches. intros H. apply andb_true_iff in H as [_ H].
  now apply key_eqb_norm.
Qed.

(** With pairwise different area codes an incident lies in one area at most. *)
Lemma one_area (areas : list row) (i : row) :
  NoDup (map (fun r => key_norm (at_label r "LSOA21CD")) areas) ->
  sum_Z (map (fun a => if area_matches a i then 1%Z else 0%Z) areas)
  = if existsb (fun a => area_matches a i) areas then 1%Z else 0%Z.
Proof.
  induction areas as [|a l IH]; simpl; intros Hnd; [reflexivity|].
  inversion Hnd as [|x t Hnot Hrest]; subst. specialize (IH Hrest).
  destruct (area_matches a i) eqn:E; simpl; [|exact IH].
  assert (Hl : existsb (fun b => area_matches b i) l = false).
  { destruct (existsb (fun b => area_matches b i) l) eqn:X; [|reflexivity].
    apply existsb_exists in X as (b & Hb & Eb). exfalso. apply Hnot.
    apply area_matches_norm in E. apply area_matches_norm in Eb.
    rewrite E, <- Eb.
    apply (in_map (fun r => key_norm (at_label r "LSOA21CD"))). exact Hb. }
  rewrite Hl in IH. rewrite IH. reflexivity.
Qed.

Lemma sum_matching (areas incidents : list row) :
  NoDup (map (fun r => key_norm (at_label r "LSOA21CD")) areas) ->
  sum_Z (map (fun a => Z.of_nat (List.length (filter (area_matches a) incidents)))
             areas)
  = Z.of_nat (List.length
                (filter (fun i => existsb (fun a => area_matches a i) areas)
                        incidents)).
Proof.
  intros Hnd. induction incidents as [|i l IH]; simpl.
  - apply sum_Z_zero.
  - rewrite (map_ext _ (fun a => ((if area_matches a i then 1 else 0)
                                  + Z.of_nat (List.length (filter (area_matches a) l)))%Z)).
    2:{ intros a. destruct (area_matches a i); [|reflexivity].
        simpl List.length. rewrite Nat2Z.inj_succ. lia. }
    rewrite sum_Z_add, IH, one_area by exact Hnd.
    destruct (existsb (fun a => area_matches a i) areas); [|reflexivity].
    simpl List.length. rewrite Nat2Z.inj_succ. lia.
Qed.

Lemma whole_count (n : Z) : (0 <= n)%Z -> whole (count_cell n) = n.
Proof.
  intros H. unfold count_cell. destruct (0 <? n)%Z eqn:E; [reflexivity|].
  apply Z.ltb_ge in E. cbn. lia.
Qed.

Lemma matching_nonneg (filtered : DataFrame) (a : row) : (0 <= matching filtered a)%Z.
Proof. unfold matching. lia. Qed.

Lemma period_total_enriched (filtered : DataFrame) (areas : list row) (cols : list string) :
  period_total (mkDF cols (map (enriched filtered) areas))
  = sum_Z (map (matching filtered) areas).
Proof.
  unfold period_total. cbn [rows]. rewrite map_map. f_equal.
  apply map_ext. intros a. rewrite enriched_period.
  apply whole_count, matching_nonneg.
Qed.

(** An incident of an area outside the master table is counted in no row. *)
Lemma matching_only_known (master_df filtered : DataFrame) (a : row) :
  In a (rows master_df) ->
  matching (only_known master_df filtered) a = matching filtered a.
Proof.
  intros Ha. unfold matching, only_known. cbn [rows]. do 2 f_equal.
  rewrite filter_filter. apply filter_ext. intros i.
  destruct (area_matches a i) eqn:E; [|apply andb_false_r].
  rewrite andb_true_r. unfold known. apply existsb_exists. now exists a.
Qed.

(** C5, as stated, fails where the master table lists an area code twice:
    one incident is then counted in two rows, and the sum of
    [Period_Total_Crimes] is 2 for 1 incident of a known area. *)
Lemma period_total_counts_twice :
  exists out,
    aggregation master_twice incidents_one = Ok out
    /\ period_total out = 2%Z
    /\ covered master_twice incidents_one = 1%Z
    /\ period_total out <> covered master_twice incidents_one.
Proof.
  eexists. split; [vm_compute; reflexivity|].
  split; [reflexivity|]. split; [reflexivity|]. discriminate.
Qed.

(** C5, amended.  A pass leaves in each area row the number of incidents of
    the filtered table that have the area's code; the incidents whose code
    the master table does not have change no row and raise nothing; and
    where the area codes of the master table are pairwise different, the
    counts add up to the number of incidents whose code the master table
    has. *)
Theorem period_totals (master_df filtered : DataFrame) :
  master_ok master_df ->
  has_codes filtered ->
  exists out,
    aggregation master_df filtered = Ok out
    /\ Forall2 (fun a r =>
                  at_label r "Period_Total_Crimes" = count_cell (matching filtered a)
                  /\ whole (at_label r "Period_Total_Crimes") = matching filtered a)
               (rows master_df) (rows out)
    /\ aggregation master_df (only_known master_df filtered) = Ok out
    /\ (unique_codes master_df -> period_total out = covered master_df filtered).
Proof.
  intros Hm Hc. eexists. split; [apply aggregation_ok; assumption|].
  cbn [rows]. split; [|split].
  - clear Hm. induction (rows master_df) as [|a l IH]; simpl.
    + constructor.
    + constructor; [|exact IH]. rewrite enriched_period. split; [reflexivity|].
      apply whole_count, matching_nonneg.
  - rewrite aggregation_ok by assumption. do 2 f_equal.
    apply map_ext_in. intros a Ha. unfold enriched. cbv zeta.
    now rewrite matching_only_known.
  - intros Hu. rewrite period_total_enriched. unfold matching, covered, known.
    now apply sum_matching.
Qed.

Lemma period_totals_witness :
  master_ok master_2022 /\ has_codes filtered_2022
  /\ exists out,
      aggregation master_2022 filtered_2022 = Ok out
      /\ period_total out = 3%Z.
Proof.
  split; [exact master_2022_ok|]. split; [exact filtered_2022_codes|].
  destruct (@period_totals master_2022 filtered_2022
              master_2022_ok filtered_2022_codes) as (out & Ho & _ & _ & Hs).
  exists out. split; [exact Ho|]. rewrite (Hs master_2022_unique). reflexivity.
Defined.

(* ================================================================== *)
(** * No incident left *)

Lemma matching_nil (filtered : DataFrame) (a : row) :
  rows filtered = [] -> matching filtered a = 0%Z.
Proof. intros H. unfold matching. now rewrite H. Qed.

Lemma heat_data_ok (filtered : DataFrame) :
  In "Latitude" (columns filtered) ->
  In "Longitude" (columns filtered) ->
  heat_data filtered = Ok (map coords (filter has_coords (rows filtered))).
Proof.
  intros Hla Hlo. unfold heat_data, Pd.getitems.
  apply mem_In in Hla, Hlo. cbn [find]. rewrite Hla, Hlo. cbn [negb bind].
  unfold Pd.values_tolist, Pd.dropna. cbn [rows columns]. f_equal.
  rewrite filter_map_swap, map_map.
  rewrite (filter_ext _ has_coords).
  - reflexivity.
  - intros r. unfold has_coords. cbn. now rewrite andb_true_r.
Qed.

(** The coordinate columns, for the heat layer. *)
Lemma incidents_2022_coords :
  In "Latitude" (columns incidents_2022) /\ In "Longitude" (columns incidents_2022).
Proof. simpl. tauto. Qed.

(** C7.  A filter result without rows is no error.  The filter engine
    returns it (and returns it for any widget values when the incident
    table itself has no rows, with no default category); the pass over it
    succeeds and leaves every area with [Period_Total_Crimes] 0 and a rate
    that equals 0 and is not NaN; the heat layer gets no point and the
    export is the header line. *)
Theorem empty_result_is_zero (float_repr : float -> string)
        (incidents_df master_df : DataFrame)
        (start_date end_date : date) (selected_crimes : list cell) :
  incidents_ok incidents_df ->
  has_codes incidents_df ->
  In "Latitude" (columns incidents_df) ->
  In "Longitude" (columns incidents_df) ->
  master_ok master_df ->
  exists base filtered,
    base_filtered_incidents incidents_df start_date end_date = Ok base
    /\ filter_engine incidents_df start_date end_date selected_crimes = Ok filtered
    /\ (rows incidents_df = [] ->
        rows filtered = [] /\ valid_defaults base = Ok [])
    /\ (rows filtered = [] ->
        exists out,
          aggregation master_df filtered = Ok out
          /\ List.length (rows out) = List.length (rows master_df)
          /\ (forall r, In r (rows out) ->
                at_label r "Period_Total_Crimes" = Flt 0%float
                /\ at_label r "Total_Crimes" = Flt 0%float
                /\ exists q, at_label r "Crime_Rate" = Flt q
                             /\ (q =? 0)%float = true /\ is_nan q = false)
          /\ heat_data filtered = Ok []
          /\ to_csv float_repr filtered = writerow (columns incidents_df)).
Proof.
  intros Hi Hc Hla Hlo Hm. pose proof Hi as (Hmo & Hty & Hdt).
  eexists. eexists.
  split; [apply base_filtered_ok; assumption|].
  split; [apply filter_engine_ok; assumption|]. cbn [rows columns].
  split.
  - intros ->. split; [reflexivity|].
    rewrite valid_defaults_ok by assumption. reflexivity.
  - intros He.
    set (filtered := mkDF (columns incidents_df)
                          (filter (kept start_date end_date selected_crimes)
                                  (rows incidents_df))) in *.
    eexists. split; [apply aggregation_ok; assumption|]. cbn [rows].
    split; [apply length_map|]. split; [|split].
    + intros r Hr. apply in_map_iff in Hr as (a & <- & _).
      rewrite enriched_period, enriched_total, enriched_rate.
      rewrite (matching_nil filtered a He). cbn [count_cell Z.ltb Z.compare].
      repeat split. apply rate_of_zero.
    + rewrite heat_data_ok by assumption. subst filtered. cbn [rows].
      now rewrite He.
    + unfold to_csv. subst filtered. cbn [rows columns]. now rewrite He.
Qed.

Lemma empty_result_is_zero_witness :
  incidents_ok incidents_2022 /\ has_codes incidents_2022
  /\ master_ok master_2022
  /\ exists filtered,
      filter_engine incidents_2022 (fst year_2022) (snd year_2022) [] = Ok filtered
      /\ rows filtered = []
      /\ exists out,
          aggregation master_2022 filtered = Ok out
          /\ map (fun r => at_label r "Crime_Rate") (rows out)
             = [Flt 0%float; Flt 0%float; Flt 0%float; Flt 0%float].
Proof.
  assert (Hc : has_codes incidents_2022) by (unfold has_codes; simpl; tauto).
  split; [exact incidents_2022_ok|]. split; [exact Hc|].
  split; [exact master_2022_ok|].
  destruct (@empty_result_is_zero (fun _ => "0.0") incidents_2022 master_2022
              (fst year_2022) (snd year_2022) []
              incidents_2022_ok Hc (proj1 incidents_2022_coords)
              (proj2 incidents_2022_coords) master_2022_ok)
    as (b & f & _ & Hf & _ & Hz).
  exists f. split; [exact Hf|].
  assert (He : rows f = []) by (vm_compute in Hf; injection Hf as <-; reflexivity).
  split; [exact He|].
  destruct (Hz He) as (out & Ho & _).
  exists out. split; [exact Ho|].
  vm_compute in Hf. injection Hf as <-. vm_compute in Ho. injection Ho as <-.
  reflexivity.
Defined.

(* ================================================================== *)
(** * The csv text read back *)

Lemma append_nil_r (s : string) : (s ++ "")%string = s.
Proof. induction s as [|a s IH]; simpl; [reflexivity | now rewrite IH]. Qed.

Lemma append_assoc (s t u : string) : ((s ++ t) ++ u)%string = (s ++ (t ++ u))%string.
Proof. induction s as [|a s IH]; simpl; [reflexivity | now rewrite IH]. Qed.

Lemma after_field_end (field : string) (record : list string) (st : csv_state)
      (c : ascii) (t : string) :
  field_ends c ->
  (st = InField \/ st = QuoteSeen) ->
  read_csv st field record (String c t) = after_field field record c t.
Proof.
  intros [-> | ->] [-> | ->]; reflexivity.
Qed.

Lemma read_plain (f : string) :
  forall acc record c t,
    special f = false -> field_ends c ->
    read_csv InField acc record (f ++ String c t)%string
    = after_field (acc ++ f)%string record c t.
Proof.
  induction f as [|a f IH]; intros acc record c t Hs Hc.
  - rewrite append_nil_r. simpl append. apply after_field_end; auto.
  - simpl in Hs. apply orb_false_iff in Hs as [Hs Hf].
    apply orb_false_iff in Hs as [Hs _]. apply orb_false_iff in Hs as [Hs Hl].
    apply orb_false_iff in Hs as [Hco _].
    simpl. rewrite Hco, Hl. rewrite IH by assumption.
    now rewrite append_assoc.
Qed.

Lemma read_start_plain (f : string) (record : list string) (c : ascii) (t : string) :
  special f = false -> field_ends c ->
  read_csv FieldStart "" record (f ++ String c t)%string = after_field f record c t.
Proof.
  intros Hs Hc. destruct f as [|a f].
  - destruct Hc as [-> | ->]; reflexivity.
  - simpl in Hs. apply orb_false_iff in Hs as [Hs Hf].
    apply orb_false_iff in Hs as [Hs _]. apply orb_false_iff in Hs as [Hs Hl].
    apply orb_false_iff in Hs as [Hco Hq].
    simpl. rewrite Hco, Hl, Hq. now rewrite read_plain.
Qed.

Lemma read_quoted (f : string) :
  forall acc record c t,
    field_ends c ->
    read_csv InQuotes acc record (escape f ++ String quotechar (String c t))%string
    = after_field (acc ++ f)%string record c t.
Proof.
  induction f as [|a f IH]; intros acc record c t Hc.
  - rewrite append_nil_r.
    change (read_csv QuoteSeen acc record (String c t) = after_field acc record c t).
    apply after_field_end; auto.
  - simpl. destruct (Ascii.eqb a quotechar) eqn:E.
    + simpl. rewrite E. rewrite IH by assumption. now rewrite append_assoc.
    + simpl. rewrite E. rewrite IH by assumption. now rewrite append_assoc.
Qed.

Lemma read_field (f : string) (record : list string) (c : ascii) (t : string) :
  field_ends c ->
  read_csv FieldStart "" record (csv_field f ++ String c t)%string
  = after_field f record c t.
Proof.
  intros Hc. unfold csv_field. destruct (special f) eqn:E.
  - simpl. rewrite append_assoc. simpl. now rewrite read_quoted.
  - now apply read_start_plain.
Qed.

Lemma read_fields (fs : list string) :
  forall record t,
    fs <> [] ->
    read_csv FieldStart "" record
             (String.concat "," (map csv_field fs) ++ String LF t)%string
    = (record ++ fs) :: read_csv FieldStart "" [] t.
Proof.
  induction fs as [|f fs IH]; intros record t Hne; [contradiction|].
  destruct fs as [|g fs].
  - simpl. rewrite read_field by (right; reflexivity). reflexivity.
  - change (String.concat "," (map csv_field (f :: g :: fs)))
      with (csv_field f ++ "," ++ String.concat "," (map csv_field (g :: fs)))%string.
    rewrite append_assoc.
    change (("," ++ String.concat "," (map csv_field (g :: fs))) ++ String LF t)%string
      with (String comma (String.concat "," (map csv_field (g :: fs)) ++ String LF t)%string).
    rewrite read_field by (left; reflexivity).
    unfold after_field. simpl Ascii.eqb. cbv iota.
    rewrite IH by discriminate. now rewrite <- app_assoc.
Qed.

Lemma csv_field_empty (f : string) : csv_field f = "" -> f = "".
Proof.
  unfold csv_field. destruct (special f); [discriminate | auto].
Qed.

Lemma concat_fields_empty (fs : list string) :
  String.concat "," (map csv_field fs) = "" -> fs = [] \/ fs = [""].
Proof.
  destruct fs as [|f [|g fs]]; simpl; intros H.
  - now left.
  - right. now rewrite (csv_field_empty _ H).
  - exfalso. destruct (csv_field f); discriminate.
Qed.

Lemma read_writerow (fs : list string) (t : string) :
  fs <> [] ->
  read_csv FieldStart "" [] (writerow fs ++ t)%string
  = fs :: read_csv FieldStart "" [] t.
Proof.
  intros Hne. unfold writerow. cbv zeta.
  destruct (String.concat "," (map csv_field fs) =? "") eqn:E.
  - apply String.eqb_eq in E. destruct (concat_fields_empty _ E) as [-> | ->];
      [contradiction | reflexivity].
  - cbn [andb]. rewrite append_assoc. simpl append at 2.
    now rewrite read_fields.
Qed.

Lemma read_records (records : list (list string)) :
  Forall (fun fs => fs <> []) records ->
  read_csv FieldStart "" [] (String.concat "" (map writerow records)) = records.
Proof.
  induction records as [|fs l IH]; intros H; [reflexivity|].
  inversion H as [|x y Hfs Hl]; subst.
  destruct l as [|gs l].
  - simpl. rewrite <- (append_nil_r (writerow fs)).
    now rewrite read_writerow.
  - change (String.concat "" (map writerow (fs :: gs :: l)))
      with (writerow fs ++ "" ++ String.concat "" (map writerow (gs :: l)))%string.
    change ("" ++ String.concat "" (map writerow (gs :: l)))%string
      with (String.concat "" (map writerow (gs :: l))).
    rewrite read_writerow by assumption.
    now rewrite IH.
Qed.

(** The text of a frame with a column reads back as the frame's header and
    the texts of its cells, row by row and column by column. *)
Lemma read_to_csv (float_repr : float -> string) (df : DataFrame) :
  columns df <> [] ->
  read_csv FieldStart "" [] (to_csv float_repr df) = texts float_repr df.
Proof.
  intros Hne. unfold to_csv, texts.
  replace (writerow (columns df)
           :: map (fun r => writerow (map (fun c => cell_text float_repr (at_label r c))
                                          (columns df))) (rows df))
    with (map writerow
              (columns df
               :: map (fun r => map (fun c => cell_text float_repr (at_label r c))
                                    (columns df)) (rows df)))
    by (cbn [map]; now rewrite map_map).
  apply read_records. constructor; [exact Hne|].
  apply Forall_forall. intros fs Hfs. apply in_map_iff in Hfs as (r & <- & _).
  destruct (columns df); [contradiction | discriminate].
Qed.

(* ================================================================== *)
(** * Export *)

(** C9.  The download is the UTF-8 bytes of the csv text of the filtered
    incident table, under a fixed file name.  The text reads back as the
    table's header followed by one record per kept incident, in the order of
    the incident table, with one field per column, in column order.  The map
    metric has no part in it. *)
Theorem export_fidelity (float_repr : float -> string) (incidents_df : DataFrame)
        (w : Sidebar) :
  incidents_ok incidents_df ->
  exists filtered d,
    filter_engine incidents_df (start_date w) (end_date w) (selected_crimes w)
    = Ok filtered
    /\ sidebar_export float_repr incidents_df w = Ok d
    /\ file_name d = "bristol_crime_filtered.csv"
    /\ mime d = "text/csv"
    /\ data d = encode_utf8 (to_csv float_repr filtered)
    /\ string_of_list_byte (data d) = to_csv float_repr filtered
    /\ read_csv FieldStart "" [] (to_csv float_repr filtered)
       = texts float_repr filtered
    /\ texts float_repr filtered
       = columns incidents_df
         :: map (fun r => map (fun c => cell_text float_repr (at_label r c))
                              (columns incidents_df))
                (filter (kept (start_date w) (end_date w) (selected_crimes w))
                        (rows incidents_df))
    /\ forall metric,
        sidebar_export float_repr incidents_df
                       (mkSidebar (start_date w) (end_date w) (selected_crimes w)
                                  metric)
        = Ok d.
Proof.
  intros Hok. pose proof Hok as (Hm & _).
  eexists. eexists.
  split; [apply filter_engine_ok; assumption|].
  unfold sidebar_export. cbn [start_date end_date selected_crimes].
  rewrite filter_engine_ok by assumption. cbn [bind].
  split; [reflexivity|]. cbn [download_button file_name mime data].
  split; [reflexivity|]. split; [reflexivity|]. split; [reflexivity|].
  split; [apply string_of_list_byte_of_string|].
  split; [|split; [reflexivity | intros metric; reflexivity]].
  apply read_to_csv. cbn [columns]. intros E. rewrite E in Hm. contradiction.
Qed.

Lemma export_fidelity_witness :
  incidents_ok incidents_2022
  /\ exists filtered d,
      filter_engine incidents_2022 (fst year_2022) (snd year_2022) [Str "Drugs"]
      = Ok filtered
      /\ sidebar_export (fun _ => "51.5") incidents_2022
           (mkSidebar (fst year_2022) (snd year_2022) [Str "Drugs"] "IMDScore")
         = Ok d
      /\ read_csv FieldStart "" [] (string_of_list_byte (data d))
         = [["Month"; "Crime type"; "Latitude"; "Longitude"; "LSOA21CD"];
            ["2022-02-01"; "Drugs"; ""; ""; "E01014485"]].
Proof.
  split; [exact incidents_2022_ok|].
  destruct (@export_fidelity (fun _ => "51.5") incidents_2022
              (mkSidebar (fst year_2022) (snd year_2022) [Str "Drugs"] "IMDScore")
              incidents_2022_ok)
    as (f & d & Hf & Hd & _ & _ & _ & Hs & Hr & Ht & _).
  exists f, d. split; [exact Hf|]. split; [exact Hd|].
  rewrite Hs, Hr, Ht. reflexivity.
Defined.

(* ================================================================== *)
(** * Incidents without coordinates *)

Lemma in_length {A : Type} (x : A) (l : list A) :
  In x l -> (1 <= Z.of_nat (List.length l))%Z.
Proof. destruct l; simpl; [contradiction | lia]. Qed.

Lemma has_coords_points (l : list row) :
  Forall (fun pt => forallb (fun c => negb (isna c)) pt = true)
         (map coords (filter has_coords l)).
Proof.
  apply Forall_forall. intros pt H. apply in_map_iff in H as (r & <- & Hr).
  apply filter_In in Hr as [_ Hr]. unfold has_coords in Hr. unfold coords.
  cbn [forallb]. now rewrite andb_true_r.
Qed.

(** C10.  An incident that lacks a coordinate and satisfies the two filter
    predicates is in the filtered table, is among the incidents counted for
    its area, and has its record in the exported text; the point list of the
    heat layer, and nothing else, leaves it out. *)
Theorem missing_coordinates (float_repr : float -> string)
        (incidents_df master_df : DataFrame) (start_date end_date : date)
        (selected_crimes : list cell) (r : row) :
  incidents_ok incidents_df ->
  has_codes incidents_df ->
  In "Latitude" (columns incidents_df) ->
  In "Longitude" (columns incidents_df) ->
  master_ok master_df ->
  In r (rows incidents_df) ->
  has_coords r = false ->
  kept start_date end_date selected_crimes r = true ->
  exists filtered out points,
    filter_engine incidents_df start_date end_date selected_crimes = Ok filtered
    /\ In r (rows filtered)
    /\ aggregation master_df filtered = Ok out
    /\ Forall2 (fun a enriched_row =>
                  area_matches a r = true ->
                  In r (filter (area_matches a) (rows filtered))
                  /\ (1 <= matching filtered a)%Z
                  /\ at_label enriched_row "Period_Total_Crimes"
                     = Int (matching filtered a))
               (rows master_df) (rows out)
    /\ In (map (fun c => cell_text float_repr (at_label r c)) (columns incidents_df))
          (read_csv FieldStart "" [] (to_csv float_repr filtered))
    /\ heat_data filtered = Ok points
    /\ points = map coords (filter has_coords (rows filtered))
    /\ ~ In r (filter has_coords (rows filtered))
    /\ Forall (fun pt => forallb (fun c => negb (isna c)) pt = true) points.
Proof.
  intros Hok Hc Hla Hlo Hm Hr Hno Hk. pose proof Hok as (Hmonth & _).
  set (filtered := mkDF (columns incidents_df)
                        (filter (kept start_date end_date selected_crimes)
                                (rows incidents_df))).
  assert (Hin : In r (rows filtered)) by (apply filter_In; auto).
  exists filtered. eexists. eexists.
  split; [apply filter_engine_ok; assumption|].
  split; [exact Hin|].
  split; [apply aggregation_ok; assumption|].
  cbn [rows]. split; [|split; [|split; [|split; [|split]]]].
  - clear Hm. induction (rows master_df) as [|a l IH]; simpl.
    + constructor.
    + constructor; [|exact IH]. intros Ha.
      assert (Hcount : In r (filter (area_matches a) (rows filtered)))
        by (apply filter_In; auto).
      assert (Hpos : (1 <= matching filtered a)%Z)
        by (unfold matching; now apply in_length with (x := r)).
      split; [exact Hcount|]. split; [exact Hpos|].
      rewrite enriched_period. unfold count_cell.
      replace (0 <? matching filtered a)%Z with true; [reflexivity|].
      symmetry. apply Z.ltb_lt. lia.
  - rewrite read_to_csv.
    + unfold texts. right. apply in_map_iff. exists r. auto.
    + cbn [columns filtered]. intros E. rewrite E in Hmonth. contradiction.
  - apply heat_data_ok; assumption.
  - reflexivity.
  - intros H. apply filter_In in H as [_ H]. congruence.
  - apply has_coords_points.
Qed.

Lemma missing_coordinates_witness :
  incidents_ok incidents_2022 /\ master_ok master_2022
  /\ In (incident 2 "Drugs" NaN NaN (Str "E01014485")) (rows incidents_2022)
  /\ has_coords (incident 2 "Drugs" NaN NaN (Str "E01014485")) = false
  /\ exists filtered out points,
      filter_engine incidents_2022 (fst year_2022) (snd year_2022)
                    [Str "Burglary"; Str "Drugs"] = Ok filtered
      /\ In (incident 2 "Drugs" NaN NaN (Str "E01014485")) (rows filtered)
      /\ aggregation master_2022 filtered = Ok out
      /\ heat_data filtered = Ok points
      /\ List.length (rows filtered) = 4%nat
      /\ List.length points = 2%nat.
Proof.
  assert (Hc : has_codes incidents_2022) by (unfold has_codes; simpl; tauto).
  assert (Hr : In (incident 2 "Drugs" NaN NaN (Str "E01014485"))
                  (rows incidents_2022)) by (simpl; tauto).
  split; [exact incidents_2022_ok|]. split; [exact master_2022_ok|].
  split; [exact Hr|]. split; [reflexivity|].
  destruct (@missing_coordinates (fun _ => "51.5") incidents_2022 master_2022
              (fst year_2022) (snd year_2022) [Str "Burglary"; Str "Drugs"]
              (incident 2 "Drugs" NaN NaN (Str "E01014485"))
              incidents_2022_ok Hc (proj1 incidents_2022_coords)
              (proj2 incidents_2022_coords) master_2022_ok Hr
              eq_refl eq_refl)
    as (f & out & pts & Hf & Hin & Ho & _ & _ & Hh & Hp & _).
  exists f, out, pts. split; [exact Hf|]. split; [exact Hin|].
  split; [exact Ho|]. split; [exact Hh|].
  rewrite Hp. vm_compute in Hf. injection Hf as <-. split; reflexivity.
Defined.

(* ================================================================== *)
(** * Overlap *)

(** The reported overlap holds the names that both top-10 lists have,
    whatever order the sort leaves equal values in. *)
Lemma intersection_spec (a b : list cell) (x : cell) :
  In x (intersection a b) <-> In x a /\ existsb (key_eqb x) b = true.
Proof. unfold intersection. apply filter_In. Qed.

Lemma common_areas_spec (argsort : list float -> list nat) (master_df : DataFrame)
      (deprived crime : DataFrame) (common : list cell) :
  top_deprived argsort master_df = Ok deprived ->
  top_crime argsort master_df = Ok crime ->
  common_areas argsort master_df = Ok common ->
  forall x,
    existsb (key_eqb x) common = true <->
    existsb (key_eqb x) (map (fun r => at_label r "LSOA21LN") (rows deprived)) = true
    /\ existsb (key_eqb x) (map (fun r => at_label r "LSOA21LN") (rows crime)) = true.
Proof.
  intros Hd Hc. unfold common_areas. rewrite Hd, Hc. cbn [bind].
  unfold Pd.getitem.
  destruct (mem "LSOA21LN" (columns deprived)); [|discriminate]. cbn [bind].
  destruct (mem "LSOA21LN" (columns crime)); [|discriminate]. cbn [bind].
  intros [= <-] x. unfold set_of.
  rewrite <- (unique_existsb x (map _ (rows deprived))).
  rewrite <- (unique_existsb x (map _ (rows crime))).
  rewrite !existsb_exists. split.
  - intros (y & Hy & Hxy). apply intersection_spec in Hy as [Hy1 Hy2].
    split; [now exists y|].
    apply existsb_exists in Hy2 as (z & Hz & Hyz). exists z. split; [exact Hz|].
    now rewrite (key_eqb_congr _ _ z Hxy).
  - intros [(y & Hy & Hxy) (z & Hz & Hxz)]. exists y. split; [|exact Hxy].
    apply intersection_spec. split; [exact Hy|]. apply existsb_exists.
    exists z. split; [exact Hz|]. now rewrite <- (key_eqb_congr _ _ z Hxy).
Qed.

(** Which of two areas of equal score is in a top-10 list follows the sort:
    with eleven areas of one score the list of the most deprived leaves out
    the last area under one sort and the first under the other, and the
    overlap with the ten highest rates has nine names or ten. *)
Lemma ties_follow_argsort :
  common_areas (argsort_with PrimFloat.leb) master_tied
  = Ok [Str "b"; Str "c"; Str "d"; Str "e"; Str "f"; Str "g"; Str "h"; Str "i";
        Str "j"]
  /\ common_areas (argsort_with PrimFloat.ltb) master_tied
     = Ok [Str "k"; Str "j"; Str "i"; Str "h"; Str "g"; Str "f"; Str "e"; Str "d";
           Str "c"; Str "b"].
Proof. split; vm_compute; reflexivity. Qed.


(* ================================================================== *)
(** * Further properties of the sidebar filters *)

Lemma date_leb_spec (a b : date) :
  date_leb a b = true <->
  (year a < year b
   \/ (year a = year b
       /\ (month a < month b \/ (month a = month b /\ day a <= day b))))%Z.
Proof.
  unfold date_leb.
  rewrite !orb_true_iff, !andb_true_iff, !orb_true_iff, !andb_true_iff.
  rewrite !Z.ltb_lt, !Z.eqb_eq, Z.leb_le. reflexivity.
Qed.


Lemma date_leb_trans (a b c : date) :
  date_leb a b = true -> date_leb b c = true -> date_leb a c = true.
Proof. rewrite !date_leb_spec. lia. Qed.


Lemma mapM_raise {A B : Type} (f : A -> result B) (e : exn) (l : list A) (x : A) :
  In x l -> f x = Raise e ->
  (forall y, In y l -> (exists b, f y = Ok b) \/ f y = Raise e) ->
  mapM f l = Raise e.
Proof.
  induction l as [|a l IH]; simpl; intros Hin Hx Hall; [contradiction|].
  destruct (Hall a (or_introl eq_refl)) as [[b Hb] | Hb]; rewrite Hb; simpl;
    [|reflexivity].
  destruct Hin as [-> | Hin]; [congruence|].
  rewrite IH; [reflexivity | assumption | assumption |].
  intros y Hy. apply Hall. now right.
Qed.

Lemma getitem_missing (df : DataFrame) (c : string) :
  ~ In c (columns df) -> Pd.getitem df c = Raise (KeyError c).
Proof.
  intros H. unfold Pd.getitem. apply mem_false in H. now rewrite H.
Qed.

(** X1.  The filters raise where a column they read is not there or is not
    a datetime column: a [KeyError] for a missing [Month] column, an
    [AttributeError] for a [Month] cell that is no datetime, and a
    [KeyError] for a missing [Crime type] column, in this order. *)
Theorem filter_engine_raises (incidents_df : DataFrame)
        (start_date end_date : date) (selected_crimes : list cell) :
  (~ In "Month" (columns incidents_df) ->
   filter_engine incidents_df start_date end_date selected_crimes
   = Raise (KeyError "Month"))
  /\ (In "Month" (columns incidents_df) ->
      (exists r, In r (rows incidents_df) /\ ~ datetimelike (at_label r "Month")) ->
      filter_engine incidents_df start_date end_date selected_crimes
      = Raise AttributeError)
  /\ (In "Month" (columns incidents_df) ->
      Forall (fun r => datetimelike (at_label r "Month")) (rows incidents_df) ->
      ~ In "Crime type" (columns incidents_df) ->
      filter_engine incidents_df start_date end_date selected_crimes
      = Raise (KeyError "Crime type")).
Proof.
  unfold filter_engine. split; [|split].
  - intros H. unfold base_filtered_incidents, time_mask.
    now rewrite getitem_missing.
  - intros Hm (r & Hr & Hno). unfold base_filtered_incidents, time_mask.
    rewrite getitem_ok by assumption. cbn [bind]. unfold Pd.dt_date.
    rewrite (@mapM_raise _ _ _ AttributeError _ (at_label r "Month")).
    + reflexivity.
    + apply in_map_iff. now exists r.
    + destruct (at_label r "Month") as [s|z|f|d]; simpl in *; try reflexivity.
      * destruct (is_nan f); [now elim Hno | reflexivity].
      * now elim Hno.
    + intros c _. destruct c as [s|z|f|d]; simpl; auto.
      * destruct (is_nan f); eauto.
      * eauto.
  - intros Hm Hd Hc. rewrite base_filtered_ok by assumption. cbn [bind].
    unfold filtered_incidents. now rewrite getitem_missing.
Qed.

Lemma filter_engine_raises_witness :
  filter_engine (mkDF ["Crime type"] [[("Crime type", Str "Burglary")]])
                (fst year_2022) (snd year_2022) []
  = Raise (KeyError "Month")
  /\ filter_engine (mkDF ["Month"] [[("Month", Str "2022-01")]])
                   (fst year_2022) (snd year_2022) []
     = Raise AttributeError
  /\ filter_engine (mkDF ["Month"] [[("Month", Day (mkdate 2022 1 1))]])
                   (fst year_2022) (snd year_2022) []
     = Raise (KeyError "Crime type").
Proof.
  split; [|split].
  - apply (proj1 (filter_engine_raises _ _ _ _)). simpl. intuition discriminate.
  - apply (proj1 (proj2 (filter_engine_raises _ _ _ _))).
    + simpl. tauto.
    + eexists. split; [left; reflexivity|]. simpl. tauto.
  - apply (proj2 (proj2 (filter_engine_raises _ _ _ _))).
    + simpl. tauto.
    + repeat constructor.
    + simpl. intuition discriminate.
Defined.

Lemma kept_within (s e s' e' : date) (sel sel' : list cell) (r : row) :
  range_within s e s' e' -> selection_within sel sel' ->
  kept s e sel r = true -> kept s' e' sel' r = true.
Proof.
  intros [Hs He] Hsel. unfold kept, month_in_range, type_selected.
  rewrite !andb_true_iff. intros [Hm Ht]. split; [|now apply Hsel].
  destruct (at_label r "Month"); try discriminate.
  apply andb_true_iff in Hm as [H1 H2]. apply andb_true_iff. split.
  - now apply date_leb_trans with s.
  - now apply date_leb_trans with e.
Qed.

(** X2.  Filtering the result of a filter again, with a date range inside
    the first and a selection that the first holds, gives what the narrower
    filter gives on the incident table; with the same widget values it
    gives the result back.  The narrower result is part of the wider one. *)
Theorem filter_engine_refines (incidents_df : DataFrame)
        (s e s' e' : date) (sel sel' : list cell) :
  incidents_ok incidents_df ->
  range_within s e s' e' ->
  selection_within sel sel' ->
  exists wide narrow,
    filter_engine incidents_df s' e' sel' = Ok wide
    /\ filter_engine incidents_df s e sel = Ok narrow
    /\ filter_engine wide s e sel = Ok narrow
    /\ filter_engine narrow s e sel = Ok narrow
    /\ incl (rows narrow) (rows wide).
Proof.
  intros Hok Hr Hs. pose proof Hok as (Hm & Hc & Hd).
  assert (Hsub : forall k, incidents_ok
                   (mkDF (columns incidents_df) (filter k (rows incidents_df)))).
  { intros k. repeat split; try assumption. cbn [rows].
    apply Forall_forall. intros r Hin. apply filter_In in Hin as [Hin _].
    rewrite Forall_forall in Hd. now apply Hd. }
  eexists. eexists.
  split; [apply filter_engine_ok; assumption|].
  split; [apply filter_engine_ok; assumption|].
  split; [|split].
  - rewrite filter_engine_ok by apply Hsub. cbn [columns rows]. do 2 f_equal.
    rewrite filter_filter. apply filter_ext. intros r.
    destruct (kept s e sel r) eqn:E; [|apply andb_false_r].
    now rewrite (kept_within r Hr Hs E).
  - rewrite filter_engine_ok by apply Hsub. cbn [columns rows]. do 2 f_equal.
    rewrite filter_filter. apply filter_ext. intros r. apply andb_diag.
  - cbn [rows]. intros r Hin. apply filter_In in Hin as [Hin Hk].
    apply filter_In. split; [assumption|]. now apply (kept_within r Hr Hs).
Qed.

Lemma filter_engine_refines_witness :
  incidents_ok incidents_2022
  /\ range_within (mkdate 2022 2 1) (mkdate 2022 3 1) (fst year_2022) (snd year_2022)
  /\ selection_within [Str "Burglary"] [Str "Burglary"; Str "Drugs"]
  /\ exists wide narrow,
      filter_engine incidents_2022 (fst year_2022) (snd year_2022)
                    [Str "Burglary"; Str "Drugs"] = Ok wide
      /\ filter_engine wide (mkdate 2022 2 1) (mkdate 2022 3 1) [Str "Burglary"]
         = Ok narrow
      /\ List.length (rows narrow) = 1%nat.
Proof.
  assert (Hr : range_within (mkdate 2022 2 1) (mkdate 2022 3 1)
                            (fst year_2022) (snd year_2022))
    by (split; reflexivity).
  assert (Hs : selection_within [Str "Burglary"] [Str "Burglary"; Str "Drugs"]).
  { intros v Hv. simpl in *. rewrite orb_false_r in Hv. now rewrite Hv. }
  split; [exact incidents_2022_ok|]. split; [exact Hr|]. split; [exact Hs|].
  destruct (@filter_engine_refines incidents_2022 (mkdate 2022 2 1) (mkdate 2022 3 1)
              (fst year_2022) (snd year_2022) [Str "Burglary"]
              [Str "Burglary"; Str "Drugs"] incidents_2022_ok Hr Hs)
    as (w & n & Hw & Hn & Hwn & _).
  exists w, n. split; [exact Hw|]. split; [exact Hwn|].
  vm_compute in Hn. injection Hn as <-. reflexivity.
Defined.





Lemma present_dates_In (l : list row) (d : date) :
  In d (present_dates (map (fun r => match at_label r "Month" with
                                     | Day x => Some x
                                     | _ => None
                                     end) l))
  <-> exists r, In r l /\ at_label r "Month" = Day d.
Proof.
  unfold present_dates. rewrite in_flat_map. split.
  - intros (x & Hx & Hd). apply in_map_iff in Hx as (r & <- & Hr).
    exists r. split; [assumption|].
    destruct (at_label r "Month"); simpl in Hd; try contradiction.
    destruct Hd as [-> | []]. reflexivity.
  - intros (r & Hr & Hm). exists (Some d). split; [|now left].
    apply in_map_iff. exists r. now rewrite Hm.
Qed.



Lemma filter_keeps_distinct (p : cell -> bool) (l : list cell) :
  NoDup (map key_norm l) -> NoDup (map key_norm (filter p l)).
Proof.
  induction l as [|a l IH]; simpl; intros H; [constructor|].
  inversion H as [|x t Hn Hr]; subst.
  destruct (p a); simpl; [|now apply IH].
  constructor; [|now apply IH].
  intros Hin. apply Hn. apply in_map_iff in Hin as (y & Hy & Hf).
  apply filter_In in Hf as [Hf _]. apply in_map_iff. now exists y.
Qed.

Lemma unique_NoDup (l : list cell) : NoDup (map key_norm (Pd.unique l)).
Proof.
  induction l as [|c l IH]; simpl; [constructor|].
  constructor; [|now apply filter_keeps_distinct].
  intros Hin. apply in_map_iff in Hin as (x & Hx & Hf).
  apply filter_In in Hf as [_ Hf].
  apply key_eqb_norm in Hx. rewrite Hx in Hf. discriminate.
Qed.

Lemma unique_incl (l : list cell) (x : cell) : In x (Pd.unique l) -> In x l.
Proof.
  induction l as [|c l IH]; simpl; [tauto|].
  intros [-> | H]; [now left|]. apply filter_In in H as [H _]. right. now apply IH.
Qed.

(** X4.  The options of the category multiselect are the crime types of the
    date-filtered table, each listed once, and no other value; every default
    is one of the options, and the defaults are distinct labels of the
    priority list. *)
Theorem defaults_among_options (base : DataFrame) :
  In "Crime type" (columns base) ->
  exists options defaults,
    all_crimes base = Ok options
    /\ valid_defaults base = Ok defaults
    /\ NoDup (map key_norm options)
    /\ (forall v, In v options -> exists r, In r (rows base)
                                            /\ at_label r "Crime type" = v)
    /\ (forall r, In r (rows base) ->
          existsb (key_eqb (at_label r "Crime type")) options = true)
    /\ (forall c, In c defaults -> In (Str c) options /\ In c target_defaults)
    /\ NoDup defaults.
Proof.
  intros Hc. eexists. eexists.
  split; [unfold all_crimes; rewrite getitem_ok by assumption; reflexivity|].
  split; [apply valid_defaults_ok; assumption|].
  split; [apply unique_NoDup|]. split; [|split; [|split]].
  - intros v Hv. apply unique_incl in Hv. apply in_map_iff in Hv as (r & Hr & Hin).
    now exists r.
  - intros r Hr. rewrite unique_existsb. apply existsb_exists.
    exists (at_label r "Crime type"). split; [|apply key_eqb_refl].
    apply in_map_iff. now exists r.
  - intros c Hin. apply filter_In in Hin as [Ht Hs]. split; [|assumption].
    apply str_in_spec in Hs.
    assert (He : existsb (key_eqb (Str c))
                         (Pd.unique (map (fun r => at_label r "Crime type") (rows base)))
                 = true).
    { rewrite unique_existsb. apply existsb_exists. exists (Str c).
      split; [assumption | apply key_eqb_refl]. }
    apply existsb_exists in He as (x & Hx & Hk).
    rewrite key_eqb_sym in Hk. apply key_eqb_str in Hk. now subst.
  - apply NoDup_filter. unfold target_defaults.
    repeat constructor; simpl; intuition discriminate.
Qed.

Lemma defaults_among_options_witness :
  In "Crime type" (columns incidents_2022)
  /\ exists options defaults,
      all_crimes incidents_2022 = Ok options
      /\ valid_defaults incidents_2022 = Ok defaults
      /\ options = [Str "Burglary"; Str "Drugs"; Str "Vehicle crime"]
      /\ defaults = ["Vehicle crime"; "Burglary"].
Proof.
  assert (H : In "Crime type" (columns incidents_2022)) by (simpl; tauto).
  split; [exact H|].
  destruct (@defaults_among_options incidents_2022 H) as (o & d & Ho & Hd & _).
  exists o, d. split; [exact Ho|]. split; [exact Hd|].
  vm_compute in Ho, Hd. injection Ho as <-. injection Hd as <-. split; reflexivity.
Defined.

Lemma priority_spec (r : row) :
  priority r = true <->
  exists c, In c target_defaults /\ at_label r "Crime type" = Str c.
Proof.
  unfold priority. rewrite existsb_exists. split.
  - intros (c & Hc & He). exists c. apply cell_eqb_eq in He. auto.
  - intros (c & Hc & He). exists c. split; [assumption|].
    apply cell_eqb_eq. exact He.
Qed.

(** X5.  With the pre-selected defaults left as they are, the filtered
    table holds the incidents of the date window whose crime type is one of
    the six priority categories, and no other. *)
Theorem default_selection_filters_priority (base : DataFrame) :
  In "Crime type" (columns base) ->
  exists defaults filtered,
    valid_defaults base = Ok defaults
    /\ filtered_incidents base (map Str defaults) = Ok filtered
    /\ columns filtered = columns base
    /\ rows filtered = filter priority (rows base).
Proof.
  intros Hc. eexists. eexists.
  split; [apply valid_defaults_ok; assumption|].
  split; [apply filtered_incidents_ok; assumption|].
  split; [reflexivity|]. cbn [rows].
  apply filter_ext_in. intros r Hr. unfold type_selected.
  apply eq_true_iff_eq. rewrite existsb_exists, priority_spec. split.
  - intros (v & Hv & Hk). apply in_map_iff in Hv as (c & <- & Hin).
    apply filter_In in Hin as [Ht _]. apply key_eqb_str in Hk. now exists c.
  - intros (c & Ht & Hs). exists (Str c). split; [|rewrite Hs; apply key_eqb_refl].
    apply in_map. apply filter_In. split; [assumption|].
    apply str_in_spec. apply in_map_iff. now exists r.
Qed.

Lemma default_selection_filters_priority_witness :
  In "Crime type" (columns incidents_2022)
  /\ exists defaults filtered,
      valid_defaults incidents_2022 = Ok defaults
      /\ filtered_incidents incidents_2022 (map Str defaults) = Ok filtered
      /\ List.length (rows filtered) = 4%nat.
Proof.
  assert (H : In "Crime type" (columns incidents_2022)) by (simpl; tauto).
  split; [exact H|].
  destruct (@default_selection_filters_priority incidents_2022 H)
    as (d & f & Hd & Hf & _ & Hr).
  exists d, f. split; [exact Hd|]. split; [exact Hf|]. rewrite Hr. reflexivity.
Defined.

(* ================================================================== *)
(** * Further properties of the aggregation *)

Lemma insert_desc_descending (p : cell * Z) (l : list (cell * Z)) :
  descending (map snd l) -> descending (map snd (Pd.insert_desc p l)).
Proof.
  induction l as [|q l IH]; simpl; intros H; [tauto|].
  destruct H as [Hq Hl]. destruct (snd q <=? snd p)%Z eqn:E.
  - apply Z.leb_le in E. simpl. split; [|split; assumption].
    intros y [<- | Hy]; [assumption|]. specialize (Hq y Hy). lia.
  - apply Z.leb_gt in E. simpl. split; [|now apply IH].
    intros y Hy. apply in_map_iff in Hy as (x & <- & Hx).
    apply (Permutation_in _ (insert_desc_perm p l)) in Hx.
    destruct Hx as [<- | Hx]; [lia|]. apply Hq. now apply in_map.
Qed.

Lemma sort_desc_descending (l : list (cell * Z)) :
  descending (map snd (fold_right Pd.insert_desc [] l)).
Proof.
  induction l as [|p l IH]; simpl; [exact I|]. now apply insert_desc_descending.
Qed.

Lemma sum_Z_perm (l l' : list Z) : Permutation l l' -> sum_Z l = sum_Z l'.
Proof.
  induction 1; simpl; try lia.
Qed.

Lemma sum_indicator {A : Type} (f : A -> bool) (l : list A) :
  sum_Z (map (fun k => if f k then 1%Z else 0%Z) l)
  = Z.of_nat (List.length (filter f l)).
Proof.
  induction l as [|a l IH]; simpl; [reflexivity|].
  destruct (f a); [|exact IH]. simpl List.length. rewrite Nat2Z.inj_succ. lia.
Qed.

(** The counts of the distinct values of a list add up to the number of its
    members that one of the values equals. *)
Lemma sum_occurrences (l m : list cell) :
  sum_Z (map (fun k => Pd.occurrences k m) (Pd.unique l))
  = Z.of_nat (List.length (filter (fun x => existsb (key_eqb x) l) m)).
Proof.
  induction m as [|x m IH]; simpl.
  - unfold Pd.occurrences. simpl. apply sum_Z_zero.
  - rewrite (map_ext _ (fun k => ((if key_eqb k x then 1 else 0)
                                  + Pd.occurrences k m)%Z)).
    2:{ intros k. unfold Pd.occurrences. simpl.
        destruct (key_eqb k x); [|reflexivity].
        simpl List.length. rewrite Nat2Z.inj_succ. lia. }
    rewrite sum_Z_add, IH, sum_indicator.
    rewrite (filter_ext (fun k => key_eqb k x) (key_eqb x))
      by (intros k; apply key_eqb_sym).
    destruct (unique_filter x l) as [Hn | (k0 & H1 & _)].
    + rewrite Hn. apply (proj1 (unique_filter_nil _ _)) in Hn.
      assert (He : existsb (key_eqb x) l = false).
      { destruct (existsb (key_eqb x) l) eqn:X; [|reflexivity].
        apply existsb_exists in X as (y & Hy & Hk).
        assert (Hf : In y (filter (key_eqb x) l)) by (apply filter_In; auto).
        rewrite Hn in Hf. contradiction. }
      rewrite He. reflexivity.
    + rewrite H1.
      assert (He : existsb (key_eqb x) l = true).
      { destruct (existsb (key_eqb x) l) eqn:X; [reflexivity|].
        assert (Hn : filter (key_eqb x) l = []).
        { apply filter_none. intros y Hy.
          destruct (key_eqb x y) eqn:K; [|reflexivity].
          assert (existsb (key_eqb x) l = true)
            by (apply existsb_exists; now exists y). congruence. }
        apply (proj2 (unique_filter_nil _ _)) in Hn. rewrite Hn in H1.
        discriminate. }
      rewrite He. simpl List.length. lia.
Qed.

Lemma occurrences_pos (k : cell) (l : list cell) :
  In k l -> (1 <= Pd.occurrences k l)%Z.
Proof.
  intros H. unfold Pd.occurrences. apply in_length with (x := k).
  apply filter_In. split; [assumption | apply key_eqb_refl].
Qed.

(** X6.  The table of counts has one row for each distinct area code of the
    incident table that is not missing, with the number of incidents of that
    code, which is at least 1; the counts run from the greatest down and add
    up to the number of incidents that have an area code. *)
Theorem crime_counts_table (filtered : DataFrame) :
  has_codes filtered ->
  exists counts,
    current_crime_counts filtered = Ok counts
    /\ columns counts = ["LSOA21CD"; "Period_Total_Crimes"]
    /\ (forall r, In r (rows counts) ->
          exists k n,
            r = [("LSOA21CD", k); ("Period_Total_Crimes", Int n)]
            /\ isna k = false /\ (1 <= n)%Z
            /\ n = Pd.occurrences k (present_codes filtered))
    /\ NoDup (map (fun r => key_norm (at_label r "LSOA21CD")) (rows counts))
    /\ (forall k, In k (present_codes filtered) ->
          existsb (fun r => key_eqb k (at_label r "LSOA21CD")) (rows counts) = true)
    /\ descending (map (fun r => whole (at_label r "Period_Total_Crimes"))
                       (rows counts))
    /\ sum_Z (map (fun r => whole (at_label r "Period_Total_Crimes")) (rows counts))
       = Z.of_nat (List.length (present_codes filtered)).
Proof.
  intros Hc. eexists. split; [apply current_crime_counts_ok; assumption|].
  unfold counts_frame. cbn [columns rows]. split; [reflexivity|].
  unfold Pd.value_counts. fold (present_codes filtered).
  set (present := present_codes filtered).
  set (entries := map (fun k => (k, Pd.occurrences k present)) (Pd.unique present)).
  pose proof (sort_desc_perm entries) as P.
  set (sorted := fold_right Pd.insert_desc [] entries) in *.
  assert (Hsnd : map (fun r => whole (at_label r "Period_Total_Crimes"))
                     (map (fun p : cell * Z =>
                             [("LSOA21CD", fst p); ("Period_Total_Crimes", Int (snd p))])
                          sorted)
                 = map snd sorted)
    by (rewrite map_map; apply map_ext; intros p; reflexivity).
  assert (Hfst : map (fun r => key_norm (at_label r "LSOA21CD"))
                     (map (fun p : cell * Z =>
                             [("LSOA21CD", fst p); ("Period_Total_Crimes", Int (snd p))])
                          sorted)
                 = map key_norm (map fst sorted))
    by (rewrite !map_map; apply map_ext; intros p; reflexivity).
  split; [|split; [|split; [|split]]].
  - intros r Hr. apply in_map_iff in Hr as ([k n] & <- & Hp).
    apply (Permutation_in _ P) in Hp. unfold entries in Hp.
    apply in_map_iff in Hp as (k' & [= <- <-] & Hk).
    apply unique_incl in Hk. exists k', (Pd.occurrences k' present).
    split; [reflexivity|]. split; [|split; [now apply occurrences_pos | reflexivity]].
    unfold present, present_codes in Hk. apply filter_In in Hk as [_ Hk].
    now apply negb_true_iff in Hk.
  - rewrite Hfst. apply (Permutation_NoDup
                           (l := map key_norm (map fst entries))).
    + apply Permutation_map, Permutation_map, Permutation_sym, P.
    + unfold entries. rewrite !map_map. cbn [fst]. apply unique_NoDup.
  - intros k Hk.
    assert (He : existsb (key_eqb k) (Pd.unique present) = true).
    { rewrite unique_existsb. apply existsb_exists. exists k.
      split; [assumption | apply key_eqb_refl]. }
    apply existsb_exists in He as (k0 & Hk0 & Hkk). apply existsb_exists.
    exists [("LSOA21CD", k0); ("Period_Total_Crimes", Int (Pd.occurrences k0 present))].
    split; [|exact Hkk].
    apply in_map_iff. exists (k0, Pd.occurrences k0 present). split; [reflexivity|].
    apply (Permutation_in _ (Permutation_sym P)). unfold entries.
    apply in_map_iff. now exists k0.
  - rewrite Hsnd. apply sort_desc_descending.
  - rewrite Hsnd. rewrite (sum_Z_perm (Permutation_map snd P)).
    unfold entries. rewrite map_map. cbn [snd]. rewrite sum_occurrences.
    do 2 f_equal. apply filter_id. intros x Hx. apply existsb_exists.
    exists x. split; [assumption | apply key_eqb_refl].
Qed.

Lemma crime_counts_table_witness :
  has_codes filtered_2022
  /\ exists counts,
      current_crime_counts filtered_2022 = Ok counts
      /\ map (fun r => whole (at_label r "Period_Total_Crimes")) (rows counts)
         = [2%Z; 1%Z].
Proof.
  split; [exact filtered_2022_codes|].
  destruct (@crime_counts_table filtered_2022 filtered_2022_codes)
    as (c & Hc & _).
  exists c. split; [exact Hc|]. vm_compute in Hc. injection Hc as <-. reflexivity.
Defined.

(** The pass up to the division, on a master table that has the area code. *)
Lemma aggregation_prefix (master_df filtered : DataFrame) :
  aligned master_df ->
  In "LSOA21CD" (columns master_df) ->
  has_codes filtered ->
  aggregation master_df filtered
  = (let m := mkDF (strip_columns (columns master_df)
                    ++ ["Period_Total_Crimes"; "Total_Crimes"])
                   (map (fun a => strip a
                                  ++ [("Period_Total_Crimes",
                                       count_cell (matching filtered a));
                                      ("Total_Crimes",
                                       count_cell (matching filtered a))])
                        (rows master_df)) in
     total <- Pd.getitem m "Total_Crimes" ;;
     pop <- Pd.getitem m "POP2022Total" ;;
     quot <- Pd.truediv total pop ;;
     rate <- Pd.mul quot 1000%float ;;
     let m' := Pd.setitem m "Crime_Rate" rate in
     rate <- Pd.getitem m' "Crime_Rate" ;;
     Ok (Pd.setitem m' "Crime_Rate" (Pd.fillna0 rate))).
Proof.
  intros Hal Hkey Hcodes. unfold aggregation.
  rewrite current_crime_counts_ok by exact Hcodes. cbn [bind].
  rewrite drop_stale by exact Hal. cbn [bind].
  set (vc := Pd.value_counts (map (fun r => at_label r "LSOA21CD") (rows filtered))).
  set (sc := strip_columns (columns master_df)).
  assert (Hsk : In "LSOA21CD" sc) by (now apply strip_columns_keeps).
  assert (Hn1 : ~ In "Period_Total_Crimes" sc)
    by (apply strip_columns_no_stale; simpl; tauto).
  assert (Hn2 : ~ In "Total_Crimes" sc)
    by (apply strip_columns_no_stale; simpl; tauto).
  assert (Hs1 : forall r, ~ In "Period_Total_Crimes" (map fst (strip r)))
    by (intros r; rewrite strip_labels; apply strip_columns_no_stale; simpl; tauto).
  assert (Hs2 : forall r, ~ In "Total_Crimes" (map fst (strip r)))
    by (intros r; rewrite strip_labels; apply strip_columns_no_stale; simpl; tauto).
  destruct Hal as [_ Hal].
  rewrite merge_counts; cbn [columns rows]; try assumption.
  2:{ apply Forall_forall. intros r Hr. apply in_map_iff in Hr as (a & <- & Ha).
      rewrite Forall_forall in Hal. rewrite strip_labels, (Hal a Ha). reflexivity. }
  2:{ intros k. apply value_counts_one. }
  cbn [bind]. rewrite map_map.
  rewrite getitem_map by (apply in_or_app; simpl; tauto). cbn [bind].
  unfold Pd.fillna0. rewrite map_map, setitem_map.
  replace (mem "Period_Total_Crimes" (sc ++ ["Period_Total_Crimes"])) with true
    by (symmetry; apply mem_In, in_or_app; simpl; tauto).
  rewrite (map_ext _ (fun a => strip a ++ [("Period_Total_Crimes",
                                           count_cell (matching filtered a))])).
  2:{ intros a. rewrite set_label_app_r by apply Hs1.
      rewrite at_label_app_r by apply Hs1. f_equal.
      change (at_label [("Period_Total_Crimes",
                         joined_count vc (at_label (strip a) "LSOA21CD"))]
                       "Period_Total_Crimes")
        with (joined_count vc (at_label (strip a) "LSOA21CD")).
      rewrite at_label_strip by reflexivity.
      cbn [Pd.set_label fst]. rewrite String.eqb_refl.
      f_equal. f_equal. apply filled_count. }
  rewrite getitem_map by (apply in_or_app; simpl; tauto). cbn [bind].
  rewrite setitem_map.
  replace (mem "Total_Crimes" (sc ++ ["Period_Total_Crimes"])) with false
    by (symmetry; apply mem_false; intros H; apply in_app_or in H as [H|H];
        [exact (Hn2 H) | simpl in H; destruct H as [H|[]]; discriminate]).
  rewrite (map_ext _ (fun a => strip a ++ [("Period_Total_Crimes",
                                           count_cell (matching filtered a));
                                          ("Total_Crimes",
                                           count_cell (matching filtered a))])).
  2:{ intros a. rewrite set_label_app_r by apply Hs2.
      rewrite at_label_app_r by apply Hs1. reflexivity. }
  rewrite <- app_assoc. reflexivity.
Qed.

(** X7.  A pass raises where a column it reads is not there or the
    population is no number: a [KeyError] for the area code of the incident
    table, then for the area code of the master table, then for the
    population column, and a [TypeError] for a population cell that holds
    text or a date. *)
Theorem aggregation_raises (master_df filtered : DataFrame) :
  (~ has_codes filtered ->
   aggregation master_df filtered = Raise (KeyError "LSOA21CD"))
  /\ (has_codes filtered -> ~ In "LSOA21CD" (columns master_df) ->
      aggregation master_df filtered = Raise (KeyError "LSOA21CD"))
  /\ (has_codes filtered -> aligned master_df ->
      In "LSOA21CD" (columns master_df) ->
      ~ In "POP2022Total" (columns master_df) ->
      aggregation master_df filtered = Raise (KeyError "POP2022Total"))
  /\ (has_codes filtered -> aligned master_df ->
      In "LSOA21CD" (columns master_df) ->
      In "POP2022Total" (columns master_df) ->
      (exists a, In a (rows master_df) /\ ~ numeric (at_label a "POP2022Total")) ->
      aggregation master_df filtered = Raise TypeError).
Proof.
  split; [|split; [|split]].
  - intros H. unfold aggregation, current_crime_counts.
    now rewrite getitem_missing.
  - intros Hc Hk. unfold aggregation.
    rewrite current_crime_counts_ok by exact Hc. cbn [bind].
    unfold Pd.drop. rewrite find_filter_none. cbn [bind]. unfold Pd.merge.
    cbn [columns].
    replace (mem "LSOA21CD" _) with false; [reflexivity|].
    symmetry. apply mem_false. intros H. apply filter_In in H. tauto.
  - intros Hc Hal Hk Hp. rewrite aggregation_prefix by assumption. cbv zeta.
    rewrite getitem_map by (apply in_or_app; simpl; tauto). cbn [bind].
    rewrite getitem_missing; [reflexivity|]. cbn [columns]. intros H.
    apply in_app_or in H as [H|H].
    + apply filter_In in H. tauto.
    + simpl in H. destruct H as [H|[H|[]]]; discriminate.
  - intros Hc Hal Hk Hp (a & Ha & Hno).
    rewrite aggregation_prefix by assumption. cbv zeta.
    rewrite getitem_map by (apply in_or_app; simpl; tauto). cbn [bind].
    rewrite getitem_map
      by (apply in_or_app; left; now apply strip_columns_keeps).
    cbn [bind]. unfold Pd.truediv. rewrite mapM_combine.
    assert (Hpop : forall b,
               at_label (strip b ++ [("Period_Total_Crimes",
                                      count_cell (matching filtered b));
                                     ("Total_Crimes",
                                      count_cell (matching filtered b))])
                        "POP2022Total"
               = at_label b "POP2022Total").
    { intros b.
      rewrite at_label_app_keep by (simpl; intros [H|[H|[]]]; discriminate).
      now apply at_label_strip. }
    assert (Htot : forall b,
               at_label (strip b ++ [("Period_Total_Crimes",
                                      count_cell (matching filtered b));
                                     ("Total_Crimes",
                                      count_cell (matching filtered b))])
                        "Total_Crimes"
               = count_cell (matching filtered b)).
    { intros b. rewrite at_label_app_r; [reflexivity|].
      rewrite strip_labels. apply strip_columns_no_stale. simpl. tauto. }
    rewrite (@mapM_raise _ _ _ TypeError _ a); [reflexivity | exact Ha | |].
    + cbn [fst snd]. rewrite Htot, Hpop, to_float_count. cbn [bind].
      destruct (at_label a "POP2022Total"); simpl in *; tauto.
    + intros b _. cbn [fst snd]. rewrite Htot, Hpop, to_float_count. cbn [bind].
      destruct (at_label b "POP2022Total"); simpl; eauto.
Qed.

Lemma aggregation_raises_witness :
  aggregation master_2022 (mkDF ["Month"] []) = Raise (KeyError "LSOA21CD")
  /\ aggregation (mkDF ["POP2022Total"] []) filtered_2022
     = Raise (KeyError "LSOA21CD")
  /\ aggregation (mkDF ["LSOA21CD"] [[("LSOA21CD", Str "E01014485")]]) filtered_2022
     = Raise (KeyError "POP2022Total")
  /\ aggregation (mkDF ["LSOA21CD"; "POP2022Total"]
                       [[("LSOA21CD", Str "E01014485"); ("POP2022Total", Str "n/a")]])
                 filtered_2022
     = Raise TypeError.
Proof.
  split; [|split; [|split]].
  - apply (proj1 (aggregation_raises _ _)). unfold has_codes. simpl.
    intuition discriminate.
  - apply (proj1 (proj2 (aggregation_raises _ _))).
    + exact filtered_2022_codes.
    + simpl. intuition discriminate.
  - apply (proj1 (proj2 (proj2 (aggregation_raises _ _)))).
    + exact filtered_2022_codes.
    + split; simpl; repeat constructor; simpl; tauto.
    + simpl. tauto.
    + simpl. intuition discriminate.
  - apply (proj2 (proj2 (proj2 (aggregation_raises _ _)))).
    + exact filtered_2022_codes.
    + split; simpl; repeat constructor; simpl; intuition discriminate.
    + simpl. tauto.
    + simpl. tauto.
    + eexists. split; [left; reflexivity|]. simpl. tauto.
Defined.

(** X8.  A pass hands back a master table that a next pass accepts: its
    rows carry the columns of its header, each once, with the area code and
    a numeric population; and [Total_Crimes] is a copy of
    [Period_Total_Crimes] in every row. *)
Theorem aggregation_keeps_master (master_df filtered : DataFrame) :
  master_ok master_df ->
  has_codes filtered ->
  exists out,
    aggregation master_df filtered = Ok out
    /\ master_ok out
    /\ (forall r, In r (rows out) ->
          at_label r "Total_Crimes" = at_label r "Period_Total_Crimes").
Proof.
  intros Hm Hc. eexists. split; [apply aggregation_ok; assumption|].
  split; [now apply enriched_master_ok|].
  cbn [rows]. intros r Hr. apply in_map_iff in Hr as (a & <- & _).
  now rewrite enriched_total, enriched_period.
Qed.

Lemma aggregation_keeps_master_witness :
  master_ok master_2022 /\ has_codes filtered_2022
  /\ exists out, aggregation master_2022 filtered_2022 = Ok out /\ master_ok out.
Proof.
  split; [exact master_2022_ok|]. split; [exact filtered_2022_codes|].
  destruct (@aggregation_keeps_master master_2022 filtered_2022
              master_2022_ok filtered_2022_codes) as (out & Ho & Hok & _).
  exists out. split; [exact Ho | exact Hok].
Defined.



Lemma matching_codes (filtered : DataFrame) (a : row) :
  matching filtered a
  = Pd.occurrences (at_label a "LSOA21CD") (present_codes filtered).
Proof. symmetry. apply matching_occurrences. Qed.

(** X10.  A pass reads the incident table through its area codes only, and
    not in their order: two incident tables whose area code columns hold the
    same codes the same number of times give the same master table. *)
Theorem aggregation_reads_codes_only (master_df filtered other : DataFrame) :
  master_ok master_df ->
  has_codes filtered ->
  has_codes other ->
  Permutation (map (fun r => at_label r "LSOA21CD") (rows filtered))
              (map (fun r => at_label r "LSOA21CD") (rows other)) ->
  aggregation master_df filtered = aggregation master_df other.
Proof.
  intros Hm H1 H2 P. rewrite !aggregation_ok by assumption. do 2 f_equal.
  apply map_ext. intros a. unfold enriched. cbv zeta.
  assert (E : matching filtered a = matching other a).
  { rewrite !matching_codes. unfold Pd.occurrences, present_codes. f_equal.
    apply Permutation_length. now do 2 apply filter_perm. }
  now rewrite E.
Qed.

Lemma aggregation_reads_codes_only_witness :
  master_ok master_2022 /\ has_codes filtered_2022
  /\ aggregation master_2022 filtered_2022
     = aggregation master_2022
         (mkDF ["LSOA21CD"]
               (map (fun r => [("LSOA21CD", at_label r "LSOA21CD")])
                    (rev (rows filtered_2022)))).
Proof.
  split; [exact master_2022_ok|]. split; [exact filtered_2022_codes|].
  apply aggregation_reads_codes_only.
  - exact master_2022_ok.
  - exact filtered_2022_codes.
  - unfold has_codes. simpl. tauto.
  - cbn [rows]. rewrite map_map.
    change (Permutation (map (fun r => at_label r "LSOA21CD") (rows filtered_2022))
                        (map (fun r => at_label r "LSOA21CD")
                             (rev (rows filtered_2022)))).
    apply Permutation_map, Permutation_rev.
Defined.

Lemma filter_length_mono {A : Type} (f g : A -> bool) (l : list A) :
  (forall x, f x = true -> g x = true) ->
  (List.length (filter f l) <= List.length (filter g l))%nat.
Proof.
  intros H. induction l as [|a l IH]; simpl; [lia|].
  destruct (f a) eqn:E.
  - rewrite (H a E). simpl. lia.
  - destruct (g a); simpl; lia.
Qed.

(** X11.  Narrowing the filters never raises a count: with a date range
    inside another and a selection that the other holds, every area's
    [Period_Total_Crimes] after the pass is at most what it is under the
    wider filter. *)
Theorem narrower_filter_lower_counts (incidents_df master_df : DataFrame)
        (s e s' e' : date) (sel sel' : list cell) :
  incidents_ok incidents_df ->
  has_codes incidents_df ->
  master_ok master_df ->
  range_within s e s' e' ->
  selection_within sel sel' ->
  exists narrow wide out out',
    filter_engine incidents_df s e sel = Ok narrow
    /\ filter_engine incidents_df s' e' sel' = Ok wide
    /\ aggregation master_df narrow = Ok out
    /\ aggregation master_df wide = Ok out'
    /\ Forall2 (fun r r' =>
                  (whole (at_label r "Period_Total_Crimes")
                   <= whole (at_label r' "Period_Total_Crimes"))%Z)
               (rows out) (rows out').
Proof.
  intros Hi Hc Hm Hr Hs.
  eexists. eexists. eexists. eexists.
  split; [apply filter_engine_ok; assumption|].
  split; [apply filter_engine_ok; assumption|].
  split; [apply aggregation_ok; assumption|].
  split; [apply aggregation_ok; assumption|].
  cbn [rows]. clear Hm. induction (rows master_df) as [|a l IH]; simpl.
  - constructor.
  - constructor; [|exact IH].
    rewrite !enriched_period, !whole_count by apply matching_nonneg.
    unfold matching. cbn [rows]. rewrite !filter_filter.
    apply inj_le. apply filter_length_mono. intros r H.
    apply andb_true_iff in H as [Hk Ha]. rewrite Ha, andb_true_r.
    now apply (kept_within r Hr Hs).
Qed.

Lemma narrower_filter_lower_counts_witness :
  incidents_ok incidents_2022 /\ master_ok master_2022
  /\ exists narrow out,
      filter_engine incidents_2022 (mkdate 2022 2 1) (mkdate 2022 3 1) [Str "Burglary"]
      = Ok narrow
      /\ aggregation master_2022 narrow = Ok out
      /\ period_total out = 1%Z.
Proof.
  assert (Hc : has_codes incidents_2022) by (unfold has_codes; simpl; tauto).
  assert (Hr : range_within (mkdate 2022 2 1) (mkdate 2022 3 1)
                            (fst year_2022) (snd year_2022))
    by (split; reflexivity).
  assert (Hs : selection_within [Str "Burglary"] [Str "Burglary"; Str "Drugs"]).
  { intros v Hv. simpl in *. rewrite orb_false_r in Hv. now rewrite Hv. }
  split; [exact incidents_2022_ok|]. split; [exact master_2022_ok|].
  destruct (@narrower_filter_lower_counts incidents_2022 master_2022
              (mkdate 2022 2 1) (mkdate 2022 3 1) (fst year_2022) (snd year_2022)
              [Str "Burglary"] [Str "Burglary"; Str "Drugs"]
              incidents_2022_ok Hc master_2022_ok Hr Hs)
    as (n & w & o & o' & Hn & _ & Ho & _).
  exists n, o. split; [exact Hn|]. split; [exact Ho|].
  vm_compute in Hn. injection Hn as <-. vm_compute in Ho. injection Ho as <-.
  reflexivity.
Defined.

(* ================================================================== *)
(** * Further properties of the export and of the map metric *)

(** X12.  The csv text determines what it was written from: two tables
    with the same text have the same header, the same number of rows and
    the same text in every cell, whatever commas, quotes or line breaks the
    cells hold. *)
Theorem to_csv_injective (float_repr : float -> string) (df df' : DataFrame) :
  columns df <> [] ->
  columns df' <> [] ->
  to_csv float_repr df = to_csv float_repr df' ->
  columns df = columns df'
  /\ List.length (rows df) = List.length (rows df')
  /\ texts float_repr df = texts float_repr df'.
Proof.
  intros H1 H2 E.
  assert (T : texts float_repr df = texts float_repr df')
    by (rewrite <- !read_to_csv by assumption; now rewrite E).
  split; [|split; [|exact T]].
  - unfold texts in T. now injection T.
  - unfold texts in T. injection T as _ T.
    apply (f_equal (@List.length _)) in T. now rewrite !length_map in T.
Qed.

Lemma to_csv_injective_witness :
  to_csv (fun _ => "1.5")
         (mkDF ["name, quoted"; "n"] [[("name, quoted", Str "a"); ("n", Int 5)]])
  = to_csv (fun _ => "1.5")
           (mkDF ["name, quoted"; "n"] [[("name, quoted", Str "a"); ("n", Str "5")]])
  /\ texts (fun _ => "1.5")
           (mkDF ["name, quoted"; "n"] [[("name, quoted", Str "a"); ("n", Int 5)]])
     = [["name, quoted"; "n"]; ["a"; "5"]].
Proof.
  split; [reflexivity|].
  destruct (@to_csv_injective (fun _ => "1.5")
              (mkDF ["name, quoted"; "n"] [[("name, quoted", Str "a"); ("n", Int 5)]])
              (mkDF ["name, quoted"; "n"] [[("name, quoted", Str "a"); ("n", Str "5")]]))
    as (_ & _ & T); try discriminate; reflexivity.
Defined.

Lemma list_ascii_app (s t : string) :
  list_ascii_of_string (s ++ t)%string
  = list_ascii_of_string s ++ list_ascii_of_string t.
Proof. induction s as [|a s IH]; simpl; [reflexivity | now rewrite IH]. Qed.

Lemma list_ascii_inj (s t : string) :
  list_ascii_of_string s = list_ascii_of_string t -> s = t.
Proof.
  intros H. rewrite <- (string_of_list_ascii_of_string s).
  rewrite <- (string_of_list_ascii_of_string t). now rewrite H.
Qed.

Lemma append_inv_tail (s t u : string) : (s ++ u)%string = (t ++ u)%string -> s = t.
Proof.
  intros H. apply list_ascii_inj. apply (f_equal list_ascii_of_string) in H.
  rewrite !list_ascii_app in H. now apply app_inv_tail in H.
Qed.

(** A label that ends in [" Deprivation"] ends in the letter n. *)
Lemma deprivation_last (x : string) :
  hd_error (rev (list_ascii_of_string (x ++ " Deprivation")%string)) = Some "n"%char.
Proof. rewrite list_ascii_app, rev_app_distr. reflexivity. Qed.

(** X13.  The radio button shows a different label for every metric name:
    [format_func] maps no two names to the same label. *)
Theorem format_func_injective (x y : string) :
  format_func x = format_func y -> x = y.
Proof.
  unfold format_func.
  destruct (x =? "Crime_Rate") eqn:X1; destruct (y =? "Crime_Rate") eqn:Y1.
  - apply String.eqb_eq in X1, Y1. congruence.
  - destruct (y =? "None (Boundaries Only)"); [discriminate|].
    intros H. apply (f_equal (fun s => hd_error (rev (list_ascii_of_string s)))) in H.
    rewrite deprivation_last in H. discriminate.
  - destruct (x =? "None (Boundaries Only)"); [discriminate|].
    intros H. apply (f_equal (fun s => hd_error (rev (list_ascii_of_string s)))) in H.
    rewrite deprivation_last in H. discriminate.
  - destruct (x =? "None (Boundaries Only)") eqn:X2;
      destruct (y =? "None (Boundaries Only)") eqn:Y2.
    + apply String.eqb_eq in X2, Y2. congruence.
    + intros H.
      apply (f_equal (fun s => hd_error (rev (list_ascii_of_string s)))) in H.
      rewrite deprivation_last in H. discriminate.
    + intros H.
      apply (f_equal (fun s => hd_error (rev (list_ascii_of_string s)))) in H.
      rewrite deprivation_last in H. discriminate.
    + apply append_inv_tail.
Qed.

Lemma format_func_injective_witness :
  format_func "Income" = "Income Deprivation"
  /\ forall y, y = "Income" -> "Income" = y.
Proof.
  split; [reflexivity|]. intros y ->.
  apply (@format_func_injective "Income" "Income"). reflexivity.
Defined.

(* ================================================================== *)
(** * Statistics in the boundary features *)

Lemma unique_length (l : list cell) :
  (List.length (Pd.unique l) <= List.length l)%nat.
Proof.
  induction l as [|c l IH]; simpl; [lia|].
  pose proof (filter_length_le (fun x => negb (key_eqb x c)) (Pd.unique l)). lia.
Qed.

Lemma filter_length_all {A : Type} (f : A -> bool) (l : list A) :
  List.length (filter f l) = List.length l -> forall x, In x l -> f x = true.
Proof.
  induction l as [|a l IH]; simpl; intros H x Hx; [contradiction|].
  pose proof (filter_length_le f l) as Hle.
  destruct (f a) eqn:E; simpl in H.
  - destruct Hx as [<- | Hx]; [assumption|]. apply IH; [lia | assumption].
  - lia.
Qed.

Lemma is_unique_spec (l : list cell) :
  is_unique l = true <-> NoDup (map key_norm l).
Proof.
  unfold is_unique. rewrite Nat.eqb_eq. induction l as [|c l IH]; simpl.
  - split; [constructor | reflexivity].
  - pose proof (unique_length l) as Hu.
    pose proof (filter_length_le (fun x => negb (key_eqb x c)) (Pd.unique l)) as Hf.
    split.
    + intros H.
      assert (H1 : List.length (filter (fun x => negb (key_eqb x c)) (Pd.unique l))
                   = List.length (Pd.unique l)) by lia.
      assert (H2 : List.length (Pd.unique l) = List.length l) by lia.
      constructor; [|now apply IH].
      intros Hin. apply in_map_iff in Hin as (x & Hx & Hxl).
      assert (He : existsb (key_eqb c) (Pd.unique l) = true).
      { rewrite unique_existsb. apply existsb_exists. exists x.
        split; [assumption|]. apply key_eqb_norm. now symmetry. }
      apply existsb_exists in He as (y & Hy & Hcy).
      pose proof (filter_length_all _ _ H1 y Hy) as Hk. cbv beta in Hk.
      rewrite key_eqb_sym in Hcy. rewrite Hcy in Hk. discriminate.
    + intros H. inversion H as [|x t Hn Hr]; subst.
      apply IH in Hr. rewrite filter_id; [now rewrite Hr|].
      intros y Hy. apply negb_true_iff.
      destruct (key_eqb y c) eqn:E; [|reflexivity].
      exfalso. apply Hn. apply key_eqb_norm in E. rewrite <- E.
      apply in_map. now apply unique_incl.
Qed.

Lemma set_index_codes (master_df : DataFrame) :
  map fst (map (fun r => (at_label r "LSOA21CD",
                          filter (fun p => negb (fst p =? "LSOA21CD")) r))
               (rows master_df))
  = map (fun r => at_label r "LSOA21CD") (rows master_df).
Proof. rewrite map_map. reflexivity. Qed.

(** X14.  The statistics reach the map only where the area codes of the
    master table are pairwise different: with a code listed twice the
    conversion of the master table to a dictionary raises a [ValueError],
    and without the area code column a [KeyError]; otherwise every feature
    comes back, with its outline as it was. *)
Theorem inject_stats_needs_unique_codes (master_df : DataFrame)
        (features : list Feature) :
  (~ In "LSOA21CD" (columns master_df) ->
   inject_stats master_df features = Raise (KeyError "LSOA21CD"))
  /\ (In "LSOA21CD" (columns master_df) -> ~ unique_codes master_df ->
      inject_stats master_df features = Raise ValueError)
  /\ (In "LSOA21CD" (columns master_df) -> unique_codes master_df ->
      exists out,
        inject_stats master_df features = Ok out
        /\ map geometry out = map geometry features).
Proof.
  unfold inject_stats, set_index. split; [|split].
  - intros H. apply mem_false in H. now rewrite H.
  - intros H Hu. apply mem_In in H. rewrite H. cbn [bind].
    unfold to_dict_index. rewrite set_index_codes.
    destruct (is_unique _) eqn:E; [|reflexivity].
    apply is_unique_spec in E. exfalso. apply Hu. unfold unique_codes.
    now rewrite <- (map_map (fun r => at_label r "LSOA21CD") key_norm).
  - intros H Hu. apply mem_In in H. rewrite H. cbn [bind].
    unfold to_dict_index. rewrite set_index_codes.
    replace (is_unique _) with true.
    + cbn [bind]. eexists. split; [reflexivity|].
      rewrite map_map. apply map_ext. intros f. unfold inject.
      destruct (get (properties f) "LSOA21CD"); [|reflexivity].
      destruct (lookup _ c); reflexivity.
    + symmetry. apply is_unique_spec. unfold unique_codes in Hu.
      now rewrite map_map.
Qed.

Lemma inject_stats_needs_unique_codes_witness :
  inject_stats master_twice features_2022 = Raise ValueError
  /\ exists out, inject_stats master_2022 features_2022 = Ok out
                 /\ List.length out = 3%nat.
Proof.
  split.
  - apply (proj1 (proj2 (inject_stats_needs_unique_codes _ _))).
    + simpl. tauto.
    + unfold unique_codes. simpl. intros H. inversion H as [|x l Hn _].
      apply Hn. now left.
  - destruct (proj2 (proj2 (inject_stats_needs_unique_codes master_2022 features_2022)))
      as (out & Ho & Hg).
    + simpl. tauto.
    + exact master_2022_unique.
    + exists out. split; [exact Ho|].
      apply (f_equal (@List.length _)) in Hg. now rewrite !length_map in Hg.
Defined.

Lemma get_set_property (props : list (string * option cell)) (k c : string) (v : cell) :
  get (set_property props k v) c = if c =? k then Some v else get props c.
Proof.
  unfold get. induction props as [|p props IH]; simpl.
  - rewrite (String.eqb_sym k c). destruct (c =? k); reflexivity.
  - destruct (fst p =? k) eqn:E; simpl.
    + apply String.eqb_eq in E. subst k. rewrite (String.eqb_sym c (fst p)).
      destruct (fst p =? c); reflexivity.
    + destruct (fst p =? c) eqn:E'.
      * apply String.eqb_eq in E'. subst c. rewrite E. reflexivity.
      * rewrite IH. reflexivity.
Qed.

Lemma get_update_other (stats : row) :
  forall props c, ~ In c (map fst stats) -> get (update props stats) c = get props c.
Proof.
  unfold update. induction stats as [|p stats IH]; intros props c H; simpl;
    [reflexivity|].
  rewrite IH by (simpl in H; tauto). rewrite get_set_property.
  destruct (c =? fst p) eqn:E; [|reflexivity].
  apply String.eqb_eq in E. simpl in H. exfalso. apply H. now left.
Qed.

Lemma get_update_label (stats : row) :
  forall props c, NoDup (map fst stats) -> In c (map fst stats) ->
                  get (update props stats) c = Some (at_label stats c).
Proof.
  unfold update. induction stats as [|p stats IH]; intros props c Hnd Hin; simpl;
    [contradiction|].
  inversion Hnd as [|x l Hn Hr]; subst. unfold at_label. simpl.
  destruct (fst p =? c) eqn:E.
  - apply String.eqb_eq in E. subst c.
    fold (update (set_property props (fst p) (snd p)) stats).
    rewrite get_update_other by assumption.
    rewrite get_set_property, String.eqb_refl. reflexivity.
  - destruct Hin as [Hin | Hin]; [apply String.eqb_neq in E; contradiction|].
    apply IH; assumption.
Qed.

Lemma lookup_unique (d : list (cell * row)) (s : string) (stats : row) :
  NoDup (map (fun e => key_norm (fst e)) d) ->
  In (Str s, stats) d ->
  lookup d (Str s) = Some stats.
Proof.
  unfold lookup. induction d as [|e d IH]; intros Hnd Hin; [contradiction|].
  cbn [map] in Hnd. inversion Hnd as [|x l Hn Hr]; subst. cbn [find].
  destruct Hin as [-> | Hin].
  - cbn [fst py_eqb]. now rewrite String.eqb_refl.
  - destruct (py_eqb (Str s) (fst e)) eqn:E; [|now apply IH].
    exfalso. apply Hn. destruct e as [k r]. cbn [fst] in *.
    destruct k; try discriminate. cbn [py_eqb] in E.
    apply String.eqb_eq in E. subst.
    apply in_map_iff. now exists (Str s0, stats).
Qed.

Lemma lookup_none (d : list (cell * row)) (k : cell) :
  (forall e, In e d -> py_eqb k (fst e) = false) -> lookup d k = None.
Proof.
  unfold lookup. intros H.
  destruct (find (fun e => py_eqb k (fst e)) d) as [e|] eqn:F; [|reflexivity].
  apply find_some in F as [Hin He]. rewrite (H e Hin) in He. discriminate.
Qed.

(** X15.  The injection changes the features of known areas only.  A
    feature whose area code the master table has receives every other
    column of that area's row as a property, in place of a property of the
    same name, and keeps its remaining properties; a feature without an
    area code, or with a code that the master table does not have, stays
    as it is. *)
Theorem inject_stats_properties (master_df : DataFrame) (features : list Feature) :
  master_ok master_df ->
  unique_codes master_df ->
  exists out,
    inject_stats master_df features = Ok out
    /\ Forall2
         (fun f f' =>
            geometry f' = geometry f
            /\ ((get (properties f) "LSOA21CD" = None
                 \/ (exists id, get (properties f) "LSOA21CD" = Some id
                                /\ forall a, In a (rows master_df) ->
                                             py_eqb id (at_label a "LSOA21CD") = false))
                -> f' = f)
            /\ (forall s a,
                   get (properties f) "LSOA21CD" = Some (Str s) ->
                   In a (rows master_df) ->
                   at_label a "LSOA21CD" = Str s ->
                   (forall c, In c (columns master_df) -> c <> "LSOA21CD" ->
                              get (properties f') c = Some (at_label a c))
                   /\ (forall c, ~ In c (columns master_df) \/ c = "LSOA21CD" ->
                                 get (properties f') c = get (properties f) c)))
         features out.
Proof.
  intros ((Hnd & Hal) & Hkey & _) Hu.
  unfold inject_stats, set_index. apply mem_In in Hkey as Hk. rewrite Hk.
  cbn [bind]. unfold to_dict_index. rewrite set_index_codes.
  replace (is_unique _) with true
    by (symmetry; apply is_unique_spec; unfold unique_codes in Hu;
        now rewrite map_map).
  cbn [bind]. eexists. split; [reflexivity|].
  set (d := map (fun r => (at_label r "LSOA21CD",
                           filter (fun p => negb (fst p =? "LSOA21CD")) r))
                (rows master_df)).
  assert (Hd : NoDup (map (fun e => key_norm (fst e)) d))
    by (unfold d; rewrite map_map; exact Hu).
  rewrite Forall_forall in Hal.
  induction features as [|f l IH]; simpl; constructor; [|exact IH].
  unfold inject. split; [|split].
  - destruct (get (properties f) "LSOA21CD"); [|reflexivity].
    destruct (lookup d c); reflexivity.
  - intros [Hn | (id & Hid & Hno)].
    + now rewrite Hn.
    + rewrite Hid, lookup_none; [reflexivity|].
      intros e He. unfold d in He. apply in_map_iff in He as (a & <- & Ha).
      now apply Hno.
  - intros s a Hs Ha Hc. rewrite Hs.
    rewrite (lookup_unique d s (filter (fun p => negb (fst p =? "LSOA21CD")) a) Hd).
    2:{ unfold d. apply in_map_iff. exists a. now rewrite Hc. }
    cbn [properties].
    assert (Hlab : map fst (filter (fun p => negb (fst p =? "LSOA21CD")) a)
                   = filter (fun c => negb (c =? "LSOA21CD")) (columns master_df))
      by (rewrite (map_fst_filter (fun c => negb (c =? "LSOA21CD"))), (Hal a Ha);
          reflexivity).
    split.
    + intros c Hin Hne. rewrite get_update_label.
      * f_equal. apply (at_label_filter (fun x => negb (x =? "LSOA21CD"))).
        apply negb_true_iff. now apply String.eqb_neq.
      * rewrite Hlab. now apply NoDup_filter.
      * rewrite Hlab. apply filter_In. split; [assumption|].
        apply negb_true_iff. now apply String.eqb_neq.
    + intros c Hc'. apply get_update_other. rewrite Hlab. intros Hin.
      apply filter_In in Hin as [Hin Hne]. destruct Hc' as [Hc' | ->].
      * contradiction.
      * discriminate.
Qed.

Lemma inject_stats_properties_witness :
  master_ok master_2022 /\ unique_codes master_2022
  /\ exists out,
      inject_stats master_2022 features_2022 = Ok out
      /\ map (fun f => get (properties f) "LSOA21LN") out
         = [Some (Str "Ashley"); None; None]
      /\ map (fun f => get (properties f) "FID") out
         = [Some (Int 1); Some (Int 2); Some (Int 3)].
Proof.
  split; [exact master_2022_ok|]. split; [exact master_2022_unique|].
  destruct (@inject_stats_properties master_2022 features_2022
              master_2022_ok master_2022_unique) as (out & Ho & _).
  exists out. split; [exact Ho|]. vm_compute in Ho. injection Ho as <-.
  split; reflexivity.
Defined.
(* ================================================================== *)
(** * The dataset overview *)

Lemma zero_not_nan (f : float) : (f =? 0)%float = true -> is_nan f = false.
Proof.
  unfold is_nan. rewrite !eqb_spec.
  replace (Prim2SF 0) with (S754_zero false) by (vm_compute; reflexivity).
  destruct (Prim2SF f) as [s|s| |s m e]; try destruct s; simpl;
    try discriminate; reflexivity.
Qed.

Lemma isna_congr (a b : cell) : key_eqb a b = true -> isna a = isna b.
Proof.
  intros H. apply key_eqb_norm in H.
  destruct a as [x|x|f|x], b as [y|y|g|y]; simpl in *;
    try reflexivity;
    try (destruct (f =? 0)%float; discriminate);
    try (destruct (g =? 0)%float; discriminate).
  destruct (f =? 0)%float eqn:Ef, (g =? 0)%float eqn:Eg.
  - now rewrite !zero_not_nan.
  - injection H as <-. vm_compute in Eg. discriminate.
  - injection H as ->. vm_compute in Ef. discriminate.
  - now injection H as ->.
Qed.

Lemma idxmax_head (p : cell * Z) (t : list (cell * Z)) :
  (forall q, In q t -> (snd q <= snd p)%Z) ->
  fold_left (fun best q => if (snd best <? snd q)%Z then q else best) t p = p.
Proof.
  induction t as [|a t IH]; simpl; intros H; [reflexivity|].
  assert (Ha : (snd a <= snd p)%Z) by (apply H; now left).
  apply Z.ltb_ge in Ha. rewrite Ha. apply IH. intros q Hq. apply H. now right.
Qed.

Lemma max_head (x : Z) (t : list Z) :
  (forall y, In y t -> (y <= x)%Z) -> fold_left Z.max t x = x.
Proof.
  induction t as [|a t IH]; simpl; intros H; [reflexivity|].
  rewrite Z.max_l by (apply H; now left). apply IH. intros y Hy. apply H. now right.
Qed.

Lemma firstn_in {A : Type} (n : nat) (l : list A) (x : A) :
  In x (firstn n l) -> In x l.
Proof.
  revert l. induction n as [|n IH]; intros [|a l]; simpl; try tauto.
  intros [-> | H]; [now left | right; now apply IH].
Qed.

Lemma value_counts_In (s : list cell) (p : cell * Z) :
  In p (Pd.value_counts s) ->
  In (fst p) (filter (fun c => negb (isna c)) s)
  /\ snd p = Pd.occurrences (fst p) (filter (fun c => negb (isna c)) s).
Proof.
  unfold Pd.value_counts. intros H.
  apply (Permutation_in _ (sort_desc_perm _)) in H.
  apply in_map_iff in H as (k & <- & Hk). split; [|reflexivity].
  now apply unique_incl.
Qed.

Lemma value_counts_length (s : list cell) :
  List.length (Pd.value_counts s) = Kpi.nunique s.
Proof.
  unfold Pd.value_counts, Kpi.nunique.
  rewrite (Permutation_length (sort_desc_perm _)). apply length_map.
Qed.

Lemma value_counts_greatest (s : list cell) (p : cell * Z) (t : list (cell * Z))
      (k : cell) :
  Pd.value_counts s = p :: t ->
  (Pd.occurrences k (filter (fun c => negb (isna c)) s) <= snd p)%Z.
Proof.
  intros E. pose proof (value_counts_entry k s) as V. cbv zeta in V.
  pose proof (sort_desc_descending
                (map (fun k0 => (k0, Pd.occurrences k0
                                       (filter (fun c => negb (isna c)) s)))
                     (Pd.unique (filter (fun c => negb (isna c)) s)))) as D.
  fold (Pd.value_counts s) in D. rewrite E in D, V. destruct D as [D _].
  assert (Hp : (0 <= snd p)%Z).
  { destruct (value_counts_In s p) as [_ ->]; [rewrite E; now left|].
    unfold Pd.occurrences. lia. }
  destruct (0 <? Pd.occurrences k (filter (fun c => negb (isna c)) s))%Z eqn:Z0.
  - assert (Hin : In (Pd.occurrences k (filter (fun c => negb (isna c)) s))
                     (map snd (filter (fun q => key_eqb k (fst q)) (p :: t))))
      by (rewrite V; now left).
    apply in_map_iff in Hin as (q & <- & Hq). apply filter_In in Hq as [Hq _].
    destruct Hq as [<- | Hq]; [lia|]. apply D. now apply in_map.
  - apply Z.ltb_ge in Z0. lia.
Qed.

(** X16.  The overview after the filter never raises when no selected crime
    type is the missing value.  It is the warning exactly when the filter
    keeps no incident.  Otherwise its figures are those of the whole
    incident table: the number of its rows; as date range the months of the
    two initial ends of the date slider; as top crime a crime type of the
    table with its number of incidents, which no crime type exceeds; and a
    table of the five greatest counts, or of all when there are fewer, whose
    first row is the top crime. *)
Theorem overview_after_filter (incidents_df : DataFrame) (s e : date)
        (sel : list cell) (filtered : DataFrame) :
  incidents_ok incidents_df ->
  (forall v, In v sel -> isna v = false) ->
  filter_engine incidents_df s e sel = Ok filtered ->
  (rows filtered = [] /\ Kpi.dataset_overview incidents_df filtered = Ok None)
  \/ (rows filtered <> []
      /\ exists o lo hi,
          Kpi.dataset_overview incidents_df filtered = Ok (Some o)
          /\ Kpi.total_records o = List.length (rows incidents_df)
          /\ min_date incidents_df = Ok (Some lo)
          /\ max_date incidents_df = Ok (Some hi)
          /\ Kpi.date_range o
             = ((Kpi.month_abbr (month lo) ++ " " ++ digits (year lo)) ++ " - "
                ++ (Kpi.month_abbr (month hi) ++ " " ++ digits (year hi)))%string
          /\ In (Kpi.top_crime o) (present_types incidents_df)
          /\ Kpi.top_crime_count o
             = Int (Pd.occurrences (Kpi.top_crime o) (present_types incidents_df))
          /\ (forall k, (Pd.occurrences k (present_types incidents_df)
                         <= Pd.occurrences (Kpi.top_crime o)
                                           (present_types incidents_df))%Z)
          /\ columns (Kpi.top_5_df o) = ["Crime Category"; "Total Count"]
          /\ List.length (rows (Kpi.top_5_df o))
             = Nat.min 5 (Kpi.unique_categories o)
          /\ (forall r, In r (rows (Kpi.top_5_df o)) ->
                exists k, In k (present_types incidents_df)
                          /\ r = [("Crime Category", k);
                                  ("Total Count",
                                   Int (Pd.occurrences k (present_types incidents_df)))])
          /\ hd_error (rows (Kpi.top_5_df o))
             = Some [("Crime Category", Kpi.top_crime o);
                     ("Total Count", Kpi.top_crime_count o)]).
Proof.
  intros Hok Hsel Hf. rewrite filter_engine_ok in Hf by assumption.
  injection Hf as <-. destruct Hok as (Hm & Hc & Hd). cbn [rows].
  unfold Kpi.dataset_overview, Kpi.empty. cbn [rows columns].
  destruct (filter (kept s e sel) (rows incidents_df)) as [|r0 l] eqn:F.
  - left. split; reflexivity.
  - right. split; [discriminate|].
    assert (Hr0 : In r0 (filter (kept s e sel) (rows incidents_df)))
      by (rewrite F; now left).
    apply filter_In in Hr0 as [Hr0 Hk]. unfold kept in Hk.
    apply andb_true_iff in Hk as [Hmon Htyp].
    assert (Hcols : Nat.eqb (List.length (columns incidents_df)) 0 = false)
      by (destruct (columns incidents_df); [contradiction | reflexivity]).
    cbn [List.length Nat.eqb orb]. rewrite Hcols.
    unfold min_date, max_date.
    rewrite !getitem_ok by assumption. cbn [bind].
    rewrite dt_date_ok by assumption. cbn [bind].
    (* a dated incident *)
    unfold month_in_range in Hmon.
    destruct (at_label r0 "Month") as [x|z|f|d0] eqn:Em; try discriminate.
    assert (Hd0 : In d0 (present_dates
                           (map (fun r => match at_label r "Month" with
                                          | Day x => Some x
                                          | _ => None
                                          end) (rows incidents_df))))
      by (apply present_dates_In; now exists r0).
    unfold series_min, series_max.
    destruct (present_dates _) as [|d1 t1]; [contradiction|].
    cbn [Kpi.strftime bind].
    (* an incident with a crime type *)
    unfold type_selected in Htyp. apply existsb_exists in Htyp as (v & Hv & Hkv).
    assert (Ht0 : In (at_label r0 "Crime type") (present_types incidents_df)).
    { apply filter_In. split; [now apply in_map_iff; exists r0|].
      rewrite (isna_congr _ _ Hkv), (Hsel v Hv). reflexivity. }
    fold (present_types incidents_df) in *.
    set (crime := map (fun r => at_label r "Crime type") (rows incidents_df)).
    assert (Hlen : List.length (Pd.value_counts crime) = Kpi.nunique crime)
      by apply value_counts_length.
    pose proof (value_counts_In crime) as Hin.
    pose proof (fun p t k => @value_counts_greatest crime p t k) as Hgr.
    unfold Kpi.nunique in Hlen. subst crime.
    fold (present_types incidents_df) in Hin, Hgr, Hlen.
    destruct (Pd.value_counts _) as [|p t] eqn:V.
    { exfalso.
      assert (E : existsb (key_eqb (at_label r0 "Crime type"))
                          (Pd.unique (present_types incidents_df)) = true).
      { rewrite unique_existsb. apply existsb_exists.
        exists (at_label r0 "Crime type"). split; [assumption | apply key_eqb_refl]. }
      destruct (Pd.unique (present_types incidents_df));
        [discriminate E | discriminate Hlen]. }
    assert (Hle : forall q, In q t -> (snd q <= snd p)%Z).
    { intros q Hq. destruct (Hin q (or_intror Hq)) as [_ ->].
      now apply (Hgr p t). }
    cbn [Kpi.idxmax Kpi.max bind]. rewrite (idxmax_head p t Hle).
    rewrite max_head
      by (intros y Hy; apply in_map_iff in Hy as (q & <- & Hq); now apply Hle).
    unfold Pd.set_columns, Pd.reset_index. cbn [columns rows List.length Nat.eqb bind].
    do 3 eexists.
    split; [reflexivity|]. cbn [Kpi.total_records Kpi.date_range Kpi.top_crime
                                Kpi.top_crime_count Kpi.top_5_df Kpi.unique_categories
                                columns rows].
    destruct (Hin p (or_introl eq_refl)) as [Hp1 Hp2].
    split; [reflexivity|]. split; [reflexivity|]. split; [reflexivity|].
    split; [reflexivity|]. split; [exact Hp1|]. split; [now rewrite Hp2|].
    split; [intros k; rewrite <- Hp2; now apply (Hgr p t)|].
    split; [reflexivity|]. split; [|split].
    + unfold Kpi.nunique. fold (present_types incidents_df).
      rewrite !length_map, length_firstn, <- Hlen. reflexivity.
    + intros r Hr. rewrite map_map in Hr. apply in_map_iff in Hr as (q & <- & Hq).
      apply firstn_in in Hq. destruct (Hin q Hq) as [Hq1 Hq2].
      exists (fst q). split; [exact Hq1|]. cbn [map snd combine]. now rewrite Hq2.
    + reflexivity.
Qed.

Lemma overview_after_filter_witness :
  incidents_ok incidents_2022
  /\ filter_engine incidents_2022 (fst year_2022) (snd year_2022)
                   [Str "Burglary"; Str "Drugs"] = Ok filtered_2022
  /\ exists o,
      Kpi.dataset_overview incidents_2022 filtered_2022 = Ok (Some o)
      /\ Kpi.total_records o = 5%nat
      /\ Kpi.date_range o = "Jan 2022 - May 2022"
      /\ Kpi.top_crime o = Str "Burglary"
      /\ Kpi.top_crime_count o = Int 3.
Proof.
  split; [exact incidents_2022_ok|]. split; [reflexivity|].
  destruct (@overview_after_filter incidents_2022 (fst year_2022) (snd year_2022)
              [Str "Burglary"; Str "Drugs"] filtered_2022
              incidents_2022_ok)
    as [[H _] | (_ & o & lo & hi & Ho & _)].
  - intros v [<- | [<- | []]]; reflexivity.
  - reflexivity.
  - discriminate H.
  - exists o. split; [exact Ho|]. vm_compute in Ho. injection Ho as <-.
    repeat split; reflexivity.
Defined.
(* ================================================================== *)
(** * The top-10 lists *)

Lemma map_nth_seq {A : Type} (l : list A) (d : A) :
  map (fun i => nth i l d) (seq 0 (List.length l)) = l.
Proof.
  induction l as [|a l IH]; simpl; [reflexivity|].
  f_equal. rewrite <- seq_shift, map_map. exact IH.
Qed.

Lemma filter_partition {A : Type} (f : A -> bool) (l : list A) :
  Permutation (filter (fun x => negb (f x)) l ++ filter f l) l.
Proof.
  induction l as [|a l IH]; simpl; [constructor|].
  destruct (f a); simpl.
  - apply Permutation_sym, Permutation_cons_app, Permutation_sym, IH.
  - now constructor.
Qed.

Lemma fst_combine_seq {A : Type} (a : nat) (l : list A) :
  map fst (combine (seq a (List.length l)) l) = seq a (List.length l).
Proof.
  revert a. induction l as [|x l IH]; intros a; simpl; [reflexivity|].
  f_equal. apply IH.
Qed.

Lemma combine_seq_nth {A : Type} (l : list A) (d : A) (a i : nat) (v : A) :
  In (i, v) (combine (seq a (List.length l)) l) -> nth (i - a) l d = v.
Proof.
  revert a. induction l as [|x l IH]; intros a; simpl; [contradiction|].
  intros [[= <- <-] | H].
  - now rewrite Nat.sub_diag.
  - assert (Hi : In i (seq (S a) (List.length l))).
    { rewrite <- (fst_combine_seq (S a) l). apply in_map_iff. now exists (i, v). }
    apply in_seq in Hi. specialize (IH _ H).
    replace (i - a)%nat with (S (i - S a)) by lia. exact IH.
Qed.

Lemma insert_position_perm (before : float -> float -> bool) (v : list float)
      (i : nat) (l : list nat) :
  Permutation (insert_position before v i l) (i :: l).
Proof.
  induction l as [|j t IH]; simpl; [reflexivity|].
  destruct (before (nth i v nan) (nth j v nan)); [reflexivity|].
  rewrite IH. apply perm_swap.
Qed.

Lemma argsort_with_perm (before : float -> float -> bool) (v : list float) :
  Permutation (argsort_with before v) (seq 0 (List.length v)).
Proof.
  unfold argsort_with. induction (seq 0 (List.length v)) as [|i l IH]; simpl;
    [constructor|].
  rewrite insert_position_perm. now constructor.
Qed.

(** The descending sort of a numeric column succeeds with the same columns,
    puts the rows in the order of an indexer that is a permutation of their
    positions, and starts with the rows whose value is not missing. *)
Lemma sort_values_desc_ok (argsort : list float -> list nat) (df : DataFrame)
      (c : string) :
  (forall v, Permutation (argsort v) (seq 0 (List.length v))) ->
  In c (columns df) ->
  Forall (fun r => numeric (at_label r c)) (rows df) ->
  exists scored unscored,
    sort_values_desc argsort df c = Ok (mkDF (columns df) (scored ++ unscored))
    /\ Permutation (scored ++ unscored) (rows df)
    /\ (forall r, In r scored -> is_nan (num (at_label r c)) = false)
    /\ (forall r, In r unscored -> is_nan (num (at_label r c)) = true).
Proof.
  intros Hperm Hc Hnum. unfold sort_values_desc.
  rewrite getitem_ok by assumption. cbn [bind].
  rewrite (mapM_ok to_float num).
  2:{ intros x Hx. apply in_map_iff in Hx as (r & <- & Hr).
      rewrite Forall_forall in Hnum. now apply to_float_numeric, Hnum. }
  cbn [bind]. rewrite map_map.
  set (vals := map (fun r => num (at_label r c)) (rows df)).
  set (tagged := combine (seq 0 (List.length vals)) vals).
  set (non_nan := rev (filter (fun p => negb (is_nan (snd p))) tagged)).
  set (nan_idx := map fst (filter (fun p => is_nan (snd p)) tagged)).
  set (order := map (fun i => nth i (map fst non_nan) 0%nat)
                    (argsort (map snd non_nan))).
  assert (Hlen : List.length vals = List.length (rows df))
    by (unfold vals; apply length_map).
  assert (Hval : forall i v, In (i, v) tagged ->
                             num (at_label (nth i (rows df) []) c) = v).
  { intros i v H. apply (combine_seq_nth vals (num (at_label [] c))) in H.
    rewrite Nat.sub_0_r in H. unfold vals in H.
    now rewrite (map_nth (fun r => num (at_label r c))) in H. }
  assert (Ho : Permutation order (map fst non_nan)).
  { unfold order. rewrite (Hperm (map snd non_nan)), length_map.
    rewrite <- (length_map fst non_nan). now rewrite map_nth_seq. }
  exists (map (fun i => nth i (rows df) []) (rev order)),
         (map (fun i => nth i (rows df) []) nan_idx).
  rewrite <- map_app. split; [reflexivity|]. split; [|split].
  - apply Permutation_trans
      with (map (fun i => nth i (rows df) []) (seq 0 (List.length (rows df))));
      [|now rewrite map_nth_seq].
    apply Permutation_map.
    rewrite <- Hlen, <- (fst_combine_seq 0 vals). fold tagged.
    rewrite <- (filter_partition (fun p => is_nan (snd p)) tagged), map_app.
    apply Permutation_app; [|reflexivity].
    rewrite <- Permutation_rev, Ho. unfold non_nan.
    apply Permutation_map, Permutation_sym, Permutation_rev.
  - intros r Hr. apply in_map_iff in Hr as (i & <- & Hi).
    apply in_rev in Hi. apply (Permutation_in _ Ho) in Hi.
    apply in_map_iff in Hi as ([j v] & Hj & Hv). cbn [fst] in Hj. subst j.
    unfold non_nan in Hv. apply in_rev in Hv. apply filter_In in Hv as [Hv Hn].
    rewrite (Hval i v Hv). now apply negb_true_iff in Hn.
  - intros r Hr. apply in_map_iff in Hr as (i & <- & Hi).
    unfold nan_idx in Hi. apply in_map_iff in Hi as ([j v] & Hj & Hv).
    cbn [fst] in Hj. subst j. apply filter_In in Hv as [Hv Hn].
    now rewrite (Hval i v Hv).
Qed.

Lemma head_of_sorted {A : Type} (n : nat) (scored unscored all : list A) :
  Permutation (scored ++ unscored) all ->
  List.length (firstn n (scored ++ unscored)) = Nat.min n (List.length all)
  /\ (exists rest, Permutation (firstn n (scored ++ unscored) ++ rest) all)
  /\ ((n <= List.length scored)%nat ->
      forall x, In x (firstn n (scored ++ unscored)) -> In x scored).
Proof.
  intros P. split; [|split].
  - now rewrite length_firstn, (Permutation_length P).
  - exists (skipn n (scored ++ unscored)). now rewrite firstn_skipn.
  - intros Hn x Hx. rewrite firstn_app in Hx.
    replace (n - List.length scored)%nat with 0%nat in Hx by lia.
    rewrite firstn_O, app_nil_r in Hx. now apply firstn_in in Hx.
Qed.

Lemma scored_length {A : Type} (f : A -> bool) (scored unscored all : list A) :
  Permutation (scored ++ unscored) all ->
  (forall x, In x scored -> f x = true) ->
  (forall x, In x unscored -> f x = false) ->
  List.length scored = List.length (filter f all).
Proof.
  intros P Hs Hu.
  rewrite <- (Permutation_length (filter_perm f P)), filter_app.
  rewrite (filter_id f scored Hs), (filter_none f unscored Hu), app_nil_r.
  reflexivity.
Qed.

(** X17.  When [argsort] returns a permutation of the positions of its
    argument, both top-10 lists are computed for a master table with numeric
    scores and rates: each has the columns of the master table and ten of
    its rows, or all of them when the table has fewer, no row more often
    than the table has it; and the overlap has at most ten names. *)
Theorem top_lists_from_master (argsort : list float -> list nat)
        (master_df : DataFrame) :
  (forall v, Permutation (argsort v) (seq 0 (List.length v))) ->
  In "IMDScore" (columns master_df) ->
  In "Crime_Rate" (columns master_df) ->
  In "LSOA21LN" (columns master_df) ->
  Forall (fun r => numeric (at_label r "IMDScore")) (rows master_df) ->
  Forall (fun r => numeric (at_label r "Crime_Rate")) (rows master_df) ->
  exists deprived crime common,
    top_deprived argsort master_df = Ok deprived
    /\ top_crime argsort master_df = Ok crime
    /\ common_areas argsort master_df = Ok common
    /\ columns deprived = columns master_df
    /\ columns crime = columns master_df
    /\ List.length (rows deprived) = Nat.min 10 (List.length (rows master_df))
    /\ List.length (rows crime) = Nat.min 10 (List.length (rows master_df))
    /\ (exists rest, Permutation (rows deprived ++ rest) (rows master_df))
    /\ (exists rest, Permutation (rows crime ++ rest) (rows master_df))
    /\ (List.length common <= 10)%nat.
Proof.
  intros Hperm Hi Hr Hn Hni Hnr.
  destruct (sort_values_desc_ok argsort master_df "IMDScore" Hperm Hi Hni)
    as (s1 & u1 & E1 & P1 & _).
  destruct (sort_values_desc_ok argsort master_df "Crime_Rate" Hperm Hr Hnr)
    as (s2 & u2 & E2 & P2 & _).
  unfold common_areas, top_deprived, top_crime. rewrite E1, E2. cbn [bind].
  unfold Pd.head. cbn [columns rows].
  rewrite !getitem_ok by assumption. cbn [bind rows].
  destruct (head_of_sorted 10 s1 u1 P1) as (L1 & R1 & _).
  destruct (head_of_sorted 10 s2 u2 P2) as (L2 & R2 & _).
  do 3 eexists. split; [reflexivity|]. split; [reflexivity|].
  split; [reflexivity|]. cbn [columns rows].
  split; [reflexivity|]. split; [reflexivity|].
  split; [exact L1|]. split; [exact L2|]. split; [exact R1|]. split; [exact R2|].
  unfold intersection, set_of.
  pose proof (filter_length_le
                (fun x => existsb (key_eqb x)
                            (Pd.unique (map (fun r => at_label r "LSOA21LN")
                                            (firstn 10 (s2 ++ u2)))))
                (Pd.unique (map (fun r => at_label r "LSOA21LN")
                                (firstn 10 (s1 ++ u1))))) as H1.
  pose proof (unique_length (map (fun r => at_label r "LSOA21LN")
                                 (firstn 10 (s1 ++ u1)))) as H2.
  rewrite length_map in H2. rewrite L1 in H2. lia.
Qed.

Lemma top_lists_from_master_witness :
  exists deprived crime common,
    top_deprived (argsort_with PrimFloat.leb) master_tied = Ok deprived
    /\ top_crime (argsort_with PrimFloat.leb) master_tied = Ok crime
    /\ common_areas (argsort_with PrimFloat.leb) master_tied = Ok common
    /\ List.length (rows deprived) = 10%nat
    /\ List.length (rows crime) = 10%nat
    /\ (List.length common <= 10)%nat.
Proof.
  destruct (@top_lists_from_master (argsort_with PrimFloat.leb) master_tied
              (argsort_with_perm PrimFloat.leb))
    as (d & c & m & Hd & Hc & Hm & _ & _ & Ld & Lc & _ & _ & Lm).
  - cbn. tauto.
  - cbn. tauto.
  - cbn. tauto.
  - repeat constructor.
  - repeat constructor.
  - exists d, c, m. repeat split; assumption.
Defined.

(** X18.  A row without a score comes after the rows with one: when at
    least ten areas have a deprivation score, the list of the most deprived
    holds no area without one, and likewise for the rates. *)
Theorem unscored_areas_last (argsort : list float -> list nat)
        (master_df : DataFrame) (deprived crime : DataFrame) :
  (forall v, Permutation (argsort v) (seq 0 (List.length v))) ->
  In "IMDScore" (columns master_df) ->
  In "Crime_Rate" (columns master_df) ->
  Forall (fun r => numeric (at_label r "IMDScore")) (rows master_df) ->
  Forall (fun r => numeric (at_label r "Crime_Rate")) (rows master_df) ->
  top_deprived argsort master_df = Ok deprived ->
  top_crime argsort master_df = Ok crime ->
  ((10 <= List.length (filter (fun r => negb (is_nan (num (at_label r "IMDScore"))))
                              (rows master_df)))%nat ->
   forall r, In r (rows deprived) -> is_nan (num (at_label r "IMDScore")) = false)
  /\ ((10 <= List.length (filter (fun r => negb (is_nan (num (at_label r "Crime_Rate"))))
                                 (rows master_df)))%nat ->
      forall r, In r (rows crime) -> is_nan (num (at_label r "Crime_Rate")) = false).
Proof.
  intros Hperm Hi Hr Hni Hnr.
  destruct (sort_values_desc_ok argsort master_df "IMDScore" Hperm Hi Hni)
    as (s1 & u1 & E1 & P1 & S1 & U1).
  destruct (sort_values_desc_ok argsort master_df "Crime_Rate" Hperm Hr Hnr)
    as (s2 & u2 & E2 & P2 & S2 & U2).
  unfold top_deprived, top_crime. rewrite E1, E2. cbn [bind].
  intros [= <-] [= <-]. unfold Pd.head. cbn [rows]. split.
  - intros H10 r Hin. apply S1.
    destruct (head_of_sorted 10 s1 u1 P1) as (_ & _ & H). apply H; [|exact Hin].
    rewrite (scored_length
               (fun r => negb (is_nan (num (at_label r "IMDScore")))) s1 u1 P1);
      [exact H10 | |].
    + intros x Hx. now rewrite (S1 x Hx).
    + intros x Hx. now rewrite (U1 x Hx).
  - intros H10 r Hin. apply S2.
    destruct (head_of_sorted 10 s2 u2 P2) as (_ & _ & H). apply H; [|exact Hin].
    rewrite (scored_length
               (fun r => negb (is_nan (num (at_label r "Crime_Rate")))) s2 u2 P2);
      [exact H10 | |].
    + intros x Hx. now rewrite (S2 x Hx).
    + intros x Hx. now rewrite (U2 x Hx).
Qed.

Lemma unscored_areas_last_witness :
  exists deprived crime,
    top_deprived (argsort_with PrimFloat.leb) master_unscored = Ok deprived
    /\ top_crime (argsort_with PrimFloat.leb) master_unscored = Ok crime
    /\ List.length (rows crime) = 10%nat
    /\ forall r, In r (rows crime) ->
                 is_nan (num (at_label r "Crime_Rate")) = false.
Proof.
  destruct (top_deprived (argsort_with PrimFloat.leb) master_unscored)
    as [d|x] eqn:Hd; [|vm_compute in Hd; discriminate Hd].
  destruct (top_crime (argsort_with PrimFloat.leb) master_unscored)
    as [c|x] eqn:Hc; [|vm_compute in Hc; discriminate Hc].
  exists d, c. split; [reflexivity|]. split; [reflexivity|].
  split; [vm_compute in Hc; injection Hc as <-; reflexivity|].
  apply (@unscored_areas_last (argsort_with PrimFloat.leb) master_unscored d c
           (argsort_with_perm PrimFloat.leb)).
  - cbn. tauto.
  - cbn. tauto.
  - repeat constructor.
  - repeat constructor.
  - exact Hd.
  - exact Hc.
  - vm_compute. lia.
Defined.
